(** * The infoview update pipeline of [lean4-infoview/src/infoview/info.tsx]

    A shallow embedding of the [Info] / [InfoAux] / [InfoDisplay] components:
    the rate-limited scheduler [useDelayedThrottled], the fetch cycle started
    by [triggerUpdate], the error guard [onError], the commit of
    [displayProps] and the pause buffer of [InfoDisplay].

    React is modelled by explicit state passing.  A component is a record of
    its [useState] cells and [useRef] cells; an event handler updates cells,
    and the state updates made in one synchronous block are applied together
    and followed by one render pass ([render]), which runs the body of
    [InfoAux], then the body of [InfoDisplay], then the effects.  The
    renders that React may insert between two updates of one block see
    [shouldUpdateDisplay] and [shouldRefresh] unset, commit nothing, and are
    left out.  Time is a clock that only [Elapse] advances. *)

From stdpp Require Import base strings gmap list.
From Stdlib Require Import ZArith Lia.

Local Open Scope Z_scope.
Local Open Scope nat_scope.

(** ** Data model *)

(** [DocumentPosition]: a document identifier with a line and a column. *)
Record DocumentPosition := mkPos {
  uri : string;
  line : nat;
  character : nat
}.

#[global] Instance DocumentPosition_eq_dec : EqDecision DocumentPosition.
Proof. solve_decision. Defined.

Record Range := mkRange {
  range_start : nat * nat;
  range_end : nat * nat
}.

(** One entry of the progress report of a file: a range still being
    processed by the server. *)
Record LeanFileProgressProcessingInfo := mkProcessing {
  range : Range
}.

(** The payloads of the goal requests.  The pipeline never looks inside
    them; it stores and forwards them. *)
Record InteractiveGoal := mkGoal {
  goalUserName : option string;
  goalType : string
}.

Inductive InteractiveGoals :=
| mkGoals (gs : list InteractiveGoal).

Record UserWidget := mkWidget {
  widgetSourceId : string
}.

Record InteractiveDiagnostic := mkDiagnostic {
  diagMessage : string
}.

Inductive InfoStatus := Loading | Updating | Error | Ready.
Inductive InfoKind := Cursor | Pin.

#[global] Instance InfoStatus_eq_dec : EqDecision InfoStatus.
Proof. solve_decision. Defined.
#[global] Instance InfoKind_eq_dec : EqDecision InfoKind.
Proof. solve_decision. Defined.

(** A rejection value [err : any], seen through the three observations the
    code makes of it: [typeof err === 'string'], [err?.code] and
    [JSON.stringify(err)] ([None] stands for [undefined]). *)
Inductive JsValue :=
| JsString (s : string)
| JsOther (code : option Z) (json : option string).

(** Functions of sibling modules ([util], [goals]) that [info.tsx] calls. *)
Class Collaborators := {
  RangeHelpers_contains : Range → DocumentPosition → bool;
  goalsToString : InteractiveGoals → string
}.

(** ** RateLimitedScheduler: [useDelayedThrottled] *)

Section Scheduler.
(** [CB] is the registered action, [W] identifies the caller that awaits
    the promise returned by a call of the trigger. *)
Context {CB W : Type}.

Record Timer := mkTimer {
  deadline : nat;
  awaiter : W
}.

(** The two refs of the hook and the timeouts it has set. *)
Record Throttled := mkThrottled {
  waiting : bool;
  callbackRef : option CB;
  timers : list Timer
}.

Definition idle : Throttled :=
  {| waiting := false; callbackRef := None; timers := [] |}.

(** The body of the hook, run on every render:
    [callbackRef.current = cb]. *)
Definition useDelayedThrottled (cb : CB) (t : Throttled) : Throttled :=
  {| waiting := waiting t; callbackRef := Some cb; timers := timers t |}.

(** A call of the function returned by the hook at time [now].  The second
    component is [Some w] when the returned promise resolves without
    waiting, [None] when the caller is left awaiting the new timeout. *)
Definition trigger (now ms : nat) (w : W) (t : Throttled)
  : Throttled * option W :=
  if waiting t then (t, Some w)
  else ({| waiting := true;
           callbackRef := callbackRef t;
           timers := timers t ++ [mkTimer (now + ms) w] |}, None).

Definition due (now : nat) (tm : Timer) : bool := deadline tm <=? now.

(** The timeouts that expire by time [now]: each sets
    [waiting.current = false] and runs [callbackRef.current], if any.  The
    second component lists the started actions with their awaiting
    callers. *)
Definition expire (now : nat) (t : Throttled)
  : Throttled * list (CB * W) :=
  match filter (λ tm, due now tm = true) (timers t) with
  | [] => (t, [])
  | fired =>
      ({| waiting := false;
          callbackRef := callbackRef t;
          timers := filter (λ tm, due now tm = false) (timers t) |},
       match callbackRef t with
       | Some cb => map (λ tm, (cb, awaiter tm)) fired
       | None => []
       end)
  end.

(** One call of the scheduler's trigger as the components make it: the
    render registers the action, then the returned function is called. *)
Record Call := mkCall {
  call_time : nat;
  call_ms : nat;
  call_action : CB;
  call_awaiter : W
}.

Definition call (c : Call) (t : Throttled) : Throttled * option W :=
  trigger (call_time c) (call_ms c) (call_awaiter c)
          (useDelayedThrottled (call_action c) t).

(** A sequence of calls in order of arrival.  Before each call the
    timeouts that are due at its time fire.  The result collects what each
    call returned and the actions started meanwhile. *)
Fixpoint calls (cs : list Call) (t : Throttled)
  : Throttled * list (option W) * list (CB * W) :=
  match cs with
  | [] => (t, [], [])
  | c :: cs' =>
      let '(t0, started) := expire (call_time c) t in
      let '(t1, r) := call c t0 in
      let '(t2, rs, started') := calls cs' t1 in
      (t2, r :: rs, started ++ started')
  end.
End Scheduler.

Arguments Timer : clear implicits.
Arguments Throttled : clear implicits.
Arguments Call : clear implicits.

(** ** Component state *)

(** What a fetch cycle closes over: the callback [cb] built by one render of
    [InfoAux] captures that render's [pos], the protocol version [sv] and,
    through [triggerUpdate], that render's delay [ms]. *)
Record Callback := mkCallback {
  cb_pos : DocumentPosition;
  cb_widgetsV1 : bool;
  cb_ms : nat
}.

(** Who awaits the promise of a trigger call: nobody ([void triggerUpdate()]
    in the effect and in the retry), or [triggerDisplayUpdate], which goes on
    with [setShouldRefresh(true)]. *)
Inductive Awaiter := Detached | DisplayRefresh.

(** A fetch cycle whose requests are in flight. *)
Record Cycle := mkCycle {
  cy_id : nat;
  cy_cb : Callback;
  cy_awaiter : Awaiter
}.

(** The settlement of [allReq = Promise.all([goalsReq, termGoalReq])]. *)
Inductive Settled :=
| Fulfilled (g : option InteractiveGoals) (tg : option InteractiveGoal)
| Rejected (err : JsValue).

(** [displayProps]: the value of [mkDisplayProps()]. *)
Record DisplayProps := mkDisplay {
  dp_kind : InfoKind;
  dp_pos : DocumentPosition;
  dp_goals : option InteractiveGoals;
  dp_termGoal : option InteractiveGoal;
  dp_error : option string
}.

(** [InfoDisplayProps]: what [InfoAux] hands to [InfoDisplay], that is
    [{...displayProps, status, messages, triggerUpdate}]. *)
Record InfoDisplayProps := mkProps {
  p_display : DisplayProps;
  p_status : InfoStatus;
  p_messages : list InteractiveDiagnostic
}.

(** Props and contexts of [InfoAux]. *)
Record Env := mkEnv {
  kind : InfoKind;
  pos : DocumentPosition;
  hasWidgetsV1 : bool;
  allProgress : gmap string (list LeanFileProgressProcessingInfo);
  messages : list InteractiveDiagnostic
}.

(** The [useState] cells of [InfoAux]. *)
Record Cells := mkCells {
  status : InfoStatus;
  goals : option InteractiveGoals;
  termGoal : option InteractiveGoal;
  error : option string;
  displayProps : DisplayProps;
  shouldUpdateDisplay : bool
}.

(** The cells of [InfoDisplay]: [shouldRefresh], and the pause flag and the
    ref held by [usePausableState]. *)
Record Display := mkDisplayCells {
  shouldRefresh : bool;
  isPaused : bool;
  propsRef : InfoDisplayProps
}.

Record State := mkState {
  env : Env;
  cells : Cells;
  throttle : Throttled Callback Awaiter;
  effectDeps : option (DocumentPosition * bool);
  clock : nat;
  inflight : list Cycle;
  nextCycle : nat;
  display : Display
}.

(** *** Setters *)

Definition setStatus (v : InfoStatus) (c : Cells) : Cells :=
  mkCells v (goals c) (termGoal c) (error c) (displayProps c)
          (shouldUpdateDisplay c).
Definition setGoals (v : option InteractiveGoals) (c : Cells) : Cells :=
  mkCells (status c) v (termGoal c) (error c) (displayProps c)
          (shouldUpdateDisplay c).
Definition setTermGoal (v : option InteractiveGoal) (c : Cells) : Cells :=
  mkCells (status c) (goals c) v (error c) (displayProps c)
          (shouldUpdateDisplay c).
Definition setError (v : option string) (c : Cells) : Cells :=
  mkCells (status c) (goals c) (termGoal c) v (displayProps c)
          (shouldUpdateDisplay c).
Definition setDisplayProps (v : DisplayProps) (c : Cells) : Cells :=
  mkCells (status c) (goals c) (termGoal c) (error c) v
          (shouldUpdateDisplay c).
Definition setShouldUpdateDisplay (v : bool) (c : Cells) : Cells :=
  mkCells (status c) (goals c) (termGoal c) (error c) (displayProps c) v.

Definition setShouldRefresh (v : bool) (d : Display) : Display :=
  mkDisplayCells v (isPaused d) (propsRef d).
Definition setPaused (v : bool) (d : Display) : Display :=
  mkDisplayCells (shouldRefresh d) v (propsRef d).
Definition setPropsRef (v : InfoDisplayProps) (d : Display) : Display :=
  mkDisplayCells (shouldRefresh d) (isPaused d) v.

Definition withEnv (v : Env) (s : State) : State :=
  mkState v (cells s) (throttle s) (effectDeps s) (clock s) (inflight s)
          (nextCycle s) (display s).
Definition withCells (v : Cells) (s : State) : State :=
  mkState (env s) v (throttle s) (effectDeps s) (clock s) (inflight s)
          (nextCycle s) (display s).
Definition withThrottle (v : Throttled Callback Awaiter) (s : State) : State :=
  mkState (env s) (cells s) v (effectDeps s) (clock s) (inflight s)
          (nextCycle s) (display s).
Definition withEffectDeps (v : option (DocumentPosition * bool)) (s : State)
  : State :=
  mkState (env s) (cells s) (throttle s) v (clock s) (inflight s)
          (nextCycle s) (display s).
Definition withClock (v : nat) (s : State) : State :=
  mkState (env s) (cells s) (throttle s) (effectDeps s) v (inflight s)
          (nextCycle s) (display s).
Definition withInflight (v : list Cycle) (s : State) : State :=
  mkState (env s) (cells s) (throttle s) (effectDeps s) (clock s) v
          (nextCycle s) (display s).
Definition withNextCycle (v : nat) (s : State) : State :=
  mkState (env s) (cells s) (throttle s) (effectDeps s) (clock s)
          (inflight s) v (display s).
Definition withDisplay (v : Display) (s : State) : State :=
  mkState (env s) (cells s) (throttle s) (effectDeps s) (clock s)
          (inflight s) (nextCycle s) v.

Definition updCells (f : Cells → Cells) (s : State) : State :=
  withCells (f (cells s)) s.
Definition updDisplay (f : Display → Display) (s : State) : State :=
  withDisplay (f (display s)) s.

(** ** StaleRequestGuard: the [catch] clause and [onError] *)

(** [typeof err === 'string' ? err : JSON.stringify(err)] *)
Definition errS (err : JsValue) : option string :=
  match err with
  | JsString s => Some s
  | JsOther _ json => json
  end.

(** [err?.code === -32801] *)
Definition isStaleDocument (err : JsValue) : bool :=
  match err with
  | JsString _ => false
  | JsOther code _ => bool_decide (code = Some (-32801)%Z)
  end.

(** [errS === '{}' || errS === undefined] *)
Definition isEmptyError (err : JsValue) : bool :=
  match errS err with
  | None => true
  | Some s => bool_decide (s = "{}"%string)
  end.

Definition errorMessage (s : string) : string :=
  ("Error fetching goals: " +:+ s)%string.

Definition onError (err : JsValue) (c : Cells) : Cells :=
  match errS err with
  | None => setError None c
  | Some s =>
      if bool_decide (s = "{}"%string) then setError None c
      else setStatus Error (setError (Some (errorMessage s)) c)
  end.

(** ** The components *)

Section Components.
Context `{Collaborators}.

(** [useIsProcessingAt]: is the server still processing a range that
    contains [p]? *)
Definition useIsProcessingAt
    (progress : gmap string (list LeanFileProgressProcessingInfo))
    (p : DocumentPosition) : bool :=
  match progress !! uri p with
  | None => false
  | Some processing =>
      existsb (λ i, RangeHelpers_contains (range i) p) processing
  end.

(** [const serverIsProcessing = useIsProcessingAt(pos)] *)
Definition serverIsProcessing (s : State) : bool :=
  useIsProcessingAt (allProgress (env s)) (pos (env s)).

(** The first argument of [useDelayedThrottled] in [InfoAux]:
    [serverIsProcessing ? 500 : 50]. *)
Definition throttleDelay (processing : bool) : nat :=
  if processing then 500 else 50.

Definition delay (s : State) : nat := throttleDelay (serverIsProcessing s).

(** [mkDisplayProps = () => ({ ...props, pos, goals, termGoal, error })] *)
Definition mkDisplayProps (e : Env) (c : Cells) : DisplayProps :=
  {| dp_kind := kind e;
     dp_pos := pos e;
     dp_goals := goals c;
     dp_termGoal := termGoal c;
     dp_error := error c |}.

(** The props of the [InfoDisplay] element returned by [InfoAux]. *)
Definition infoDisplayProps (s : State) : InfoDisplayProps :=
  {| p_display := displayProps (cells s);
     p_status := status (cells s);
     p_messages := messages (env s) |}.

(** The callback that the current render passes to the scheduler. *)
Definition currentCallback (s : State) : Callback :=
  {| cb_pos := pos (env s);
     cb_widgetsV1 := hasWidgetsV1 (env s);
     cb_ms := delay s |}.

(** What the caller does once the promise of the trigger has resolved. *)
Definition resume (w : Awaiter) (s : State) : State :=
  match w with
  | Detached => s
  | DisplayRefresh => updDisplay (setShouldRefresh true) s
  end.

(** A call of [triggerUpdate] built by a render whose delay was [ms]. *)
Definition triggerUpdate (ms : nat) (w : Awaiter) (s : State) : State :=
  let '(t, resolved) := trigger (clock s) ms w (throttle s) in
  let s1 := withThrottle t s in
  match resolved with
  | Some w' => resume w' s1
  | None => s1
  end.

(** The body of [InfoAux]: the commit of [displayProps] when
    [shouldUpdateDisplay] is set, and the registration of the callback. *)
Definition renderInfoAux (s : State) : State :=
  let c := cells s in
  let c1 :=
    if shouldUpdateDisplay c
    then setShouldUpdateDisplay false
           (setDisplayProps (mkDisplayProps (env s) c) c)
    else c in
  withThrottle (useDelayedThrottled (currentCallback s) (throttle s))
               (withCells c1 s).

(** Modelled from the spec: [usePausableState] of [util], which is not
    part of this file.  While paused the commits are held back and the view
    keeps the last snapshot; while running the snapshot follows the props.
    The hook returns the pause flag and the ref that holds the snapshot. *)
Definition usePausableState (props0 : InfoDisplayProps) (d : Display)
  : Display :=
  if isPaused d then d else setPropsRef props0 d.

(** The body of [InfoDisplay] up to the props it renders: the pause buffer,
    then [if (shouldRefresh) { propsRef.current = props0;
    setShouldRefresh(false) }], whose state update renders again. *)
Definition renderDisplay (props0 : InfoDisplayProps) (d : Display)
  : Display :=
  let d1 := usePausableState props0 d in
  if shouldRefresh d1
  then setShouldRefresh false (setPropsRef props0 d1)
  else d1.

Definition renderInfoDisplay (s : State) : State :=
  withDisplay (renderDisplay (infoDisplayProps s) (display s)) s.

(** [React.useEffect(() => void triggerUpdate(),
     [pos.uri, pos.line, pos.character, serverIsProcessing])] *)
Definition runEffects (s : State) : State :=
  let deps := (pos (env s), serverIsProcessing s) in
  if bool_decide (effectDeps s = Some deps) then s
  else triggerUpdate (delay s) Detached (withEffectDeps (Some deps) s).

(** One render pass. *)
Definition render (s : State) : State :=
  runEffects (renderInfoDisplay (renderInfoAux s)).

(** The props that [InfoDisplay] renders after a render pass. *)
Definition rendered (s : State) : InfoDisplayProps := propsRef (display s).

(** The first render of a freshly mounted [InfoAux]. *)
Definition mount (e : Env) : State :=
  let c := {| status := Loading; goals := None; termGoal := None;
              error := None;
              displayProps := mkDisplay (kind e) (pos e) None None None;
              shouldUpdateDisplay := false |} in
  render {| env := e; cells := c; throttle := idle; effectDeps := None;
            clock := 0; inflight := []; nextCycle := 0;
            display := {| shouldRefresh := false; isPaused := false;
                          propsRef := mkProps (displayProps c) Loading
                                              (messages e) |} |}.

(** *** The fetch cycle *)

(** The callback up to [await allReq]: [setStatus('updating')], then both
    requests are sent. *)
Definition beginCycle (cw : Callback * Awaiter) (s : State) : State :=
  withNextCycle (S (nextCycle s))
    (withInflight (inflight s ++ [mkCycle (nextCycle s) cw.1 cw.2])
       (updCells (setStatus Updating) s)).

(** Time passes; the timeouts that are due fire. *)
Definition elapse (d : nat) (s : State) : State :=
  let s1 := withClock (clock s + d) s in
  let '(t, started) := expire (clock s1) (throttle s1) in
  fold_left (λ acc cw, beginCycle cw acc) started (withThrottle t s1).

(** The cycle in flight with identifier [id], and the state without it. *)
Definition findCycle (id : nat) (s : State) : option Cycle :=
  List.find (λ cy, cy_id cy =? id) (inflight s).

Definition dropCycle (id : nat) (s : State) : State :=
  withInflight (List.filter (λ cy, negb (cy_id cy =? id)) (inflight s)) s.

(** The callback from [await allReq] on, for the cycle [cy]. *)
Definition finishCycle (cy : Cycle) (r : Settled) (s : State) : State :=
  match r with
  | Fulfilled g tg =>
      updCells (setShouldUpdateDisplay true)
        (updCells (setStatus Ready)
           (updCells (setTermGoal tg) (updCells (setGoals g) s)))
  | Rejected err =>
      if isStaleDocument err
      then triggerUpdate (cb_ms (cy_cb cy)) Detached s
      else updCells (setShouldUpdateDisplay true) (updCells (onError err) s)
  end.

(** [allReq] of the cycle [id] settles: the callback runs to its end and
    the component renders; then the promise of the trigger call that started
    the cycle resolves, and the caller that awaits it goes on. *)
Definition settle (id : nat) (r : Settled) (s : State) : State :=
  match findCycle id s with
  | None => s
  | Some cy =>
      let s1 := render (finishCycle cy r (dropCycle id s)) in
      match cy_awaiter cy with
      | Detached => s1
      | DisplayRefresh => render (resume DisplayRefresh s1)
      end
  end.

(** *** Events *)

(** The actions of [ec.events.requestedAction] that [InfoDisplay] handles. *)
Inductive EditorAction := CopyToComment | TogglePaused.

(** What can happen to a mounted [InfoAux]: its position, the progress
    report or the messages change; time passes; the requests of a cycle
    settle; the user clicks "update" ("Try again", "Refresh"), the pause
    button or "resume updating"; the editor requests an action.
    [messages] is the value of [useMessagesFor(pos)]: when the position
    changes, the messages of the new position are those of the
    [MessagesChanged] that follows the [PositionChanged]. *)
Inductive Event :=
| PositionChanged (p : DocumentPosition)
| ProgressChanged (pr : gmap string (list LeanFileProgressProcessingInfo))
| MessagesChanged (ms : list InteractiveDiagnostic)
| Elapse (d : nat)
| Settle (id : nat) (r : Settled)
| ClickUpdate
| ClickPause (p : bool)
| RequestedAction (act : EditorAction).

(** The handler of an event, followed by the render pass it causes. *)
Definition step (e : Event) (s : State) : State :=
  match e with
  | PositionChanged p =>
      let v := env s in
      render (withEnv (mkEnv (kind v) p (hasWidgetsV1 v) (allProgress v)
                             (messages v)) s)
  | ProgressChanged pr =>
      let v := env s in
      render (withEnv (mkEnv (kind v) (pos v) (hasWidgetsV1 v) pr
                             (messages v)) s)
  | MessagesChanged ms =>
      let v := env s in
      render (withEnv (mkEnv (kind v) (pos v) (hasWidgetsV1 v)
                             (allProgress v) ms) s)
  | Elapse d => render (elapse d s)
  | Settle id r => settle id r s
  | ClickUpdate => render (triggerUpdate (delay s) DisplayRefresh s)
  | ClickPause p => render (updDisplay (setPaused p) s)
  | RequestedAction TogglePaused =>
      if bool_decide (dp_kind (p_display (rendered s)) = Cursor)
      then render (updDisplay (setPaused (negb (isPaused (display s)))) s)
      else s
  | RequestedAction CopyToComment => s
  end.

Definition run (evs : list Event) (s : State) : State :=
  fold_left (λ acc e, step e acc) evs s.
End Components.

(** ** What [InfoDisplay] shows *)

(** The settlement of a promise. *)
Inductive Outcome (A : Type) :=
| Resolves (a : A)
| Rejects (err : JsValue).
Arguments Resolves {A} a.
Arguments Rejects {A} err.

Inductive AsyncStatus := Pending | FulfilledAsync | RejectedAsync.

(** The triple returned by [useAsync]. *)
Record AsyncState (A : Type) := mkAsync {
  asyncStatus : AsyncStatus;
  asyncResult : option A;
  asyncError : option JsValue
}.
Arguments mkAsync {A}.
Arguments asyncStatus {A}.
Arguments asyncResult {A}.
Arguments asyncError {A}.

(** The response of [Widget_getWidgets]. *)
Record WidgetsResponse := mkWidgets {
  widgets : list UserWidget
}.

Section Widgets.
(** The test made by [discardMethodNotFound]: is the rejection value an RPC
    error whose code is the one for an unknown method? *)
Variable isMethodNotFound : JsValue → bool.

(** Modelled from the spec: [discardMethodNotFound] of [util], which is
    not part of this file.  A widget request that fails because the server
    does not know the method counts as no widgets; any other failure is
    raised again. *)
Definition discardMethodNotFound (e : JsValue)
  : Outcome (option WidgetsResponse) :=
  if isMethodNotFound e then Resolves None else Rejects e.

(** [Widget_getWidgets(rs, pos).catch(discardMethodNotFound)] *)
Definition widgetRequest (raw : Outcome WidgetsResponse)
  : Outcome (option WidgetsResponse) :=
  match raw with
  | Resolves r => Resolves (Some r)
  | Rejects e => discardMethodNotFound e
  end.

(** Modelled from the spec: [useAsync] of [util], which is not part of this
    file.  The hook reports the settlement of the promise: nothing yet, the
    value it resolved with, or the value it was rejected with. *)
Definition useAsync {A} (p : option (Outcome A)) : AsyncState A :=
  match p with
  | None => mkAsync Pending None None
  | Some (Resolves a) => mkAsync FulfilledAsync (Some a) None
  | Some (Rejects e) => mkAsync RejectedAsync None (Some e)
  end.

(** [widgetResult && widgetResult.widgets] *)
Definition widgetsOf (a : AsyncState (option WidgetsResponse))
  : option (list UserWidget) :=
  match asyncResult a with
  | Some (Some r) => Some (widgets r)
  | _ => None
  end.
End Widgets.

(** Truthiness of an optional string: [undefined] and [''] are falsy. *)
Definition truthy (o : option string) : bool :=
  match o with
  | Some s => negb (bool_decide (s = EmptyString))
  | None => false
  end.

(** The conditions computed by [InfoDisplay] that decide what is shown. *)
Record View := mkView {
  hasWidget : bool;
  nothingToShow : bool;
  hasError : bool;
  hasGoals : bool;
  hasTermGoal : bool;
  hasMessages : bool;
  copyOffered : bool
}.

Section InfoDisplayView.
Context `{Collaborators}.

(** [if (goals) copyGoalToComment =
      () => void ec.copyToComment(goalsToString(goals))]:
    the text handed to the editor when the function is called, [None] when
    the function is [undefined]. *)
Definition copyGoalToComment (props : InfoDisplayProps) : option string :=
  match dp_goals (p_display props) with
  | Some g => Some (goalsToString g)
  | None => None
  end.

Definition InfoDisplay (props : InfoDisplayProps)
    (ws : option (list UserWidget)) : View :=
  let d := p_display props in
  let st := p_status props in
  let hasWidget :=
    match ws with
    | Some l => 0 <? length l
    | None => false
    end in
  {| hasWidget := hasWidget;
     nothingToShow :=
       negb (truthy (dp_error d)) && negb (bool_decide (is_Some (dp_goals d)))
       && negb (bool_decide (is_Some (dp_termGoal d)))
       && (length (p_messages props) =? 0) && negb hasWidget;
     hasError := bool_decide (st = Error) && truthy (dp_error d);
     hasGoals :=
       negb (bool_decide (st = Error)) && bool_decide (is_Some (dp_goals d));
     hasTermGoal :=
       negb (bool_decide (st = Error))
       && bool_decide (is_Some (dp_termGoal d));
     hasMessages :=
       negb (bool_decide (st = Error))
       && negb (length (p_messages props) =? 0);
     copyOffered := bool_decide (is_Some (copyGoalToComment props)) |}.

(** The calls of [ec.copyToComment] made while an event is handled: by the
    subscription to [requestedAction] of the cursor view. *)
Definition editorCalls (e : Event) (s : State) : list string :=
  match e with
  | RequestedAction CopyToComment =>
      if bool_decide (dp_kind (p_display (rendered s)) = Cursor)
      then match copyGoalToComment (rendered s) with
           | Some text => [text]
           | None => []
           end
      else []
  | _ => []
  end.
End InfoDisplayView.

(** ** The requests of one cycle *)

(** The calls that send a request to the server. *)
Inductive Request :=
| GetInteractiveGoals | GetInteractiveTermGoal
| RequestPlainGoal | RequestPlainTermGoal.

(** The promise operations in the body of the callback, in program order.
    Promises are numbered in the order of their creation. *)
Inductive Stmt :=
| SetStatusUpdating
| Send (p : nat) (r : Request)      (* p = request(pos) *)
| Then (p src : nat)                (* p = src.then(f) *)
| Catch (p src : nat)               (* p = src.catch(() => undefined) *)
| All (p : nat) (srcs : list nat)   (* p = Promise.all(srcs) *)
| Await (src : nat).                (* await src, inside try *)

(** The body of the callback from [setStatus('updating')] to
    [await allReq], on the path chosen by [sv?.hasWidgetsV1()]. *)
Definition fetchBody (widgetsV1 : bool) : list Stmt :=
  SetStatusUpdating ::
  (if widgetsV1
   then [Send 0 GetInteractiveGoals;
         Send 1 GetInteractiveTermGoal;
         All 2 [0; 1];
         Await 2]
   else [Send 0 RequestPlainGoal; Then 1 0;
         Send 2 RequestPlainTermGoal; Then 3 2; Catch 4 3;
         All 5 [1; 4];
         Await 5]).

(** What the server and the [then] callbacks do in one execution. *)
Record Fates := mkFates {
  rejects : Request → bool;   (* the request fails *)
  throws : nat → bool         (* the callback that computes this promise throws *)
}.

(** Does promise [p] reject?  [before] holds the statements in reverse
    program order, so that the sources of a promise come after it. *)
Fixpoint rejected (o : Fates) (before : list Stmt) (p : nat) : bool :=
  match before with
  | [] => false
  | st :: earlier =>
      match st with
      | Send q r => if q =? p then rejects o r else rejected o earlier p
      | Then q src =>
          if q =? p then rejected o earlier src || throws o q
          else rejected o earlier p
      | Catch q src => if q =? p then false else rejected o earlier p
      | All q srcs =>
          if q =? p then existsb (rejected o earlier) srcs
          else rejected o earlier p
      | _ => rejected o earlier p
      end
  end.

(** The statements that run: an [await] of a promise that rejects throws,
    and what follows it in the [try] block does not run. *)
Fixpoint executed (o : Fates) (body todo : list Stmt) : list Stmt :=
  match todo with
  | [] => []
  | Await src :: rest =>
      if rejected o (rev body) src then [Await src]
      else Await src :: executed o body rest
  | st :: rest => st :: executed o body rest
  end.

Definition created (st : Stmt) : option nat :=
  match st with
  | Send p _ | Then p _ | Catch p _ | All p _ => Some p
  | _ => None
  end.

(** The statement attaches a reaction to promise [p]. *)
Definition observes (p : nat) (st : Stmt) : bool :=
  match st with
  | Then _ src | Catch _ src | Await src => src =? p
  | All _ srcs => existsb (λ q, q =? p) srcs
  | _ => false
  end.

(** The promises that reject with no reaction attached to them. *)
Definition unhandled (o : Fates) (body : list Stmt) : list nat :=
  let ran := executed o body body in
  List.filter (λ p, rejected o (rev body) p && negb (existsb (observes p) ran))
              (omap created ran).

Definition isSend (st : Stmt) : bool :=
  match st with Send _ _ => true | _ => false end.
Definition isAwait (st : Stmt) : bool :=
  match st with Await _ => true | _ => false end.

(** The statements that run before the body first suspends. *)
Fixpoint beforeFirstAwait (body : list Stmt) : list Stmt :=
  match body with
  | [] => []
  | st :: rest => if isAwait st then [] else st :: beforeFirstAwait rest
  end.

(** The same requests, awaited one after the other. *)
Definition awaitedInTurn : list Stmt :=
  [SetStatusUpdating;
   Send 0 GetInteractiveGoals; Send 1 GetInteractiveTermGoal;
   Await 0; Await 1].

(** ** Notions used in the statements *)

Section Notions.
Context `{Collaborators}.

(** The cells after a render pass: a pending commit replaces
    [displayProps] by the current position, goals, term goal and error. *)
Definition commit (e : Env) (c : Cells) : Cells :=
  if shouldUpdateDisplay c
  then setShouldUpdateDisplay false (setDisplayProps (mkDisplayProps e c) c)
  else c.

(** A settlement that is committed: everything but the stale-document
    rejection. *)
Definition commits (r : Settled) : bool :=
  match r with
  | Fulfilled _ _ => true
  | Rejected err => negb (isStaleDocument err)
  end.

(** The cells written by the callback for a committed settlement. *)
Definition written (r : Settled) (c : Cells) : Cells :=
  match r with
  | Fulfilled g tg => setStatus Ready (setTermGoal tg (setGoals g c))
  | Rejected err => onError err c
  end.

(** What holds of a state once a render pass is over: no commit and no
    refresh is left to do, the effect has seen the current dependencies,
    the scheduler holds the callback of this render, and a running view
    shows the current props. *)
Record afterRender (s : State) : Prop := {
  ar_committed : shouldUpdateDisplay (cells s) = false;
  ar_refreshed : shouldRefresh (display s) = false;
  ar_deps : effectDeps s = Some (pos (env s), serverIsProcessing s);
  ar_callback : callbackRef (throttle s) = Some (currentCallback s);
  ar_running : isPaused (display s) = false → rendered s = infoDisplayProps s
}.

(** The states that the components go through: the mount, then events. *)
Inductive reachable : State → Prop :=
| reachable_mount e : reachable (mount e)
| reachable_step e s : reachable s → reachable (step e s).

(** At most one timeout is pending, and [waiting] says whether one is. *)
Definition oneTimer (t : Throttled Callback Awaiter) : Prop :=
  if waiting t then ∃ tm, timers t = [tm] else timers t = [].

(** The identifiers of the cycles in flight are below the next one. *)
Definition freshIds (s : State) : Prop :=
  Forall (λ cy, cy_id cy < nextCycle s) (inflight s).

(** Events that take the view out of the pause. *)
Definition resumes (e : Event) : bool :=
  match e with
  | ClickPause p => negb p
  | RequestedAction TogglePaused => true
  | _ => false
  end.

(** Events with which a refresh request gets its answer: the request
    itself when a cycle is pending, else the end of the cycle it awaits. *)
Definition delivers (e : Event) (s : State) : bool :=
  match e with
  | ClickUpdate => waiting (throttle s)
  | Settle id _ =>
      match findCycle id s with
      | Some (mkCycle _ _ DisplayRefresh) => true
      | _ => false
      end
  | _ => false
  end.

Definition cellsPair (c : Cells) : option InteractiveGoals * option InteractiveGoal :=
  (goals c, termGoal c).
Definition displayPair (d : DisplayProps)
  : option InteractiveGoals * option InteractiveGoal :=
  (dp_goals d, dp_termGoal d).

(** The run [evs] from the mount with [e0] contains the end of a cycle
    that was in flight and was fulfilled with the pair [p]. *)
Definition fulfilledBy (e0 : Env) (evs : list Event)
    (p : option InteractiveGoals * option InteractiveGoal) : Prop :=
  ∃ pre id cy post,
    evs = pre ++ Settle id (Fulfilled p.1 p.2) :: post
    ∧ findCycle id (run pre (mount e0)) = Some cy.

(** The pair is still unset, or both halves are the results of one and the
    same cycle of the run. *)
Definition fromOneCycle (e0 : Env) (evs : list Event)
    (p : option InteractiveGoals * option InteractiveGoal) : Prop :=
  p = (None, None) ∨ fulfilledBy e0 evs p.

(** The cycle that an event brings to its end, with its settlement. *)
Definition completes (e : Event) (s : State) : option (Cycle * Settled) :=
  match e with
  | Settle id r =>
      match findCycle id s with
      | Some cy => Some (cy, r)
      | None => None
      end
  | _ => None
  end.

(** The cycles completed along a run, oldest first. *)
Fixpoint history (evs : list Event) (s : State) : list (Cycle * Settled) :=
  match evs with
  | [] => []
  | e :: evs' =>
      match completes e s with
      | Some c => c :: history evs' (step e s)
      | None => history evs' (step e s)
      end
  end.

End Notions.

(** Following the spec, not the code: an immediate retry at the same
    position would show, in the state right after the failure of [cy], a
    request for that position in flight again. *)
Definition refetchedAtOnce (cy : Cycle) (s' : State) : Prop :=
  ∃ cy', In cy' (inflight s') ∧ cb_pos (cy_cb cy') = cb_pos (cy_cb cy).

(** Following the spec, not the code: the props that consist entirely of
    values produced by the completed cycle [c], which are the position it
    fetched at and either its two results with status [Ready] and no error,
    or its error message with status [Error]. *)
Definition entirelyFrom (c : Cycle * Settled) (v : InfoDisplayProps) : Prop :=
  let d := p_display v in
  dp_pos d = cb_pos (cy_cb c.1)
  ∧ match c.2 with
    | Fulfilled g tg =>
        dp_goals d = g ∧ dp_termGoal d = tg ∧ dp_error d = None
        ∧ p_status v = Ready
    | Rejected err =>
        dp_error d = option_map errorMessage (errS err) ∧ p_status v = Error
    end.

(** Following the spec, not the code: the view shows the error and nothing
    else. *)
Definition onlyErrorShown (v : View) : bool :=
  hasError v
  && negb (hasGoals v || hasTermGoal v || hasMessages v || hasWidget v).

(** Following the spec, not the code: every timeout that the step from [s]
    to [s'] has set is due after the fast delay when the position tracked is
    reported idle, and after the slow delay when it is reported busy. *)
Definition setByReport `{Collaborators} (s s' : State) : Prop :=
  ∀ tm, In tm (timers (throttle s')) → ¬ In tm (timers (throttle s)) →
        deadline tm = clock s' + (if serverIsProcessing s' then 500 else 50).

(** The delay that every cycle in flight was built with is one of the two
    delays of [InfoAux]. *)
Definition builtDelays (s : State) : Prop :=
  Forall (λ cy, ∃ b, cb_ms (cy_cb cy) = throttleDelay b) (inflight s).

(** ** Concrete collaborators, used to run the model *)

Module Sample.
(** A range contains a position when the position lies between its two
    ends, lines first, then columns on the first and last line. *)
Definition contains (r : Range) (p : DocumentPosition) : bool :=
  let '(sl, sc) := range_start r in
  let '(el, ec) := range_end r in
  if (line p =? sl) && (character p <? sc) then false
  else if (line p =? el) && (ec <? character p) then false
  else (sl <=? line p) && (line p <=? el).

Definition showGoal (g : InteractiveGoal) : string :=
  ("|- " +:+ goalType g)%string.

Definition showGoals (gs : InteractiveGoals) : string :=
  match gs with
  | mkGoals l => String.concat " " (map showGoal l)
  end.

#[export] Instance collaborators : Collaborators :=
  {| RangeHelpers_contains := contains; goalsToString := showGoals |}.

Definition P1 : DocumentPosition := mkPos "file:///A.lean" 3 0.
Definition P2 : DocumentPosition := mkPos "file:///A.lean" 7 4.
Definition P3 : DocumentPosition := mkPos "file:///A.lean" 9 2.

Definition g1 : InteractiveGoals := mkGoals [mkGoal None "p"].
Definition g2 : InteractiveGoals := mkGoals [mkGoal (Some "h") "q"].
Definition t1 : InteractiveGoal := mkGoal None "Nat".
Definition t2 : InteractiveGoal := mkGoal None "Prop".

Definition env0 : Env :=
  {| kind := Cursor; pos := P1; hasWidgetsV1 := true; allProgress := ∅;
     messages := [] |}.

(** Request errors as the server sends them, with their JSON text. *)
Definition dq : string :=
  String (Ascii.Ascii false true false false false true false false)
         EmptyString.
Definition field (name value : string) : string :=
  (dq +:+ name +:+ dq +:+ ":" +:+ value)%string.

Definition boom : JsValue :=
  JsOther (Some (-32603)%Z)
          (Some ("{" +:+ field "code" "-32603" +:+ ","
                 +:+ field "message" (dq +:+ "boom" +:+ dq) +:+ "}")%string).
Definition contentModified : JsValue :=
  JsOther (Some (-32801)%Z)
          (Some ("{" +:+ field "code" "-32801" +:+ "}")%string).
Definition emptyObject : JsValue := JsOther None (Some "{}"%string).
End Sample.

(** ** Runs used in the examples *)

Module Runs.
Import Sample.

Definition cycle0 : Cycle := mkCycle 0 (mkCallback P1 true 50) Detached.
Definition cycle1 : Cycle := mkCycle 1 (mkCallback P1 true 50) DisplayRefresh.

(** The first cycle of the cursor view at [P1] is in flight. *)
Definition fetching : State := run [Elapse 50] (mount env0).

(** The first cycle has been fulfilled, the user has clicked "update", and
    the second cycle is in flight. *)
Definition updatedAgain : list Event :=
  [Elapse 50; Settle 0 (Fulfilled (Some g1) (Some t1)); ClickUpdate; Elapse 50].

(** The cursor has moved to [P2] while the first cycle was in flight. *)
Definition moved : State :=
  run [Elapse 50; PositionChanged P2] (mount env0).

(** The view shows the goals of [P1] and is paused. *)
Definition pausedAtP1 : State :=
  run [Elapse 50; Settle 0 (Fulfilled (Some g1) (Some t1)); ClickPause true]
      (mount env0).

(** Paused at [P1]; the goals of [P2] have been committed behind the
    pause; the cursor has moved on to [P3], for which a cycle is pending. *)
Definition pausedPending : State :=
  run [PositionChanged P2; Elapse 50;
       Settle 1 (Fulfilled (Some g2) (Some t2)); PositionChanged P3]
      pausedAtP1.

(** A view mounted while the server is processing lines 0 to 10 of the
    file. *)
Definition busyEnv : Env :=
  {| kind := Cursor; pos := P1; hasWidgetsV1 := true;
     allProgress :=
       {[ uri P1 := [mkProcessing (mkRange (0, 0) (10, 0))] ]};
     messages := [] |}.

(** The first cycle of that view, built with the slow delay. *)
Definition slowCycle : Cycle := mkCycle 0 (mkCallback P1 true 500) Detached.

(** The first cycle of that view is in flight; the server has gone idle
    since, and the cycle scheduled for that change is in flight too. *)
Definition idleAgain : State :=
  run [Elapse 500; ProgressChanged ∅; Elapse 50] (mount busyEnv).

(** The view paused on the goals of [P1], with a second cycle, started for
    the move to [P2], in flight. *)
Definition pausedFetching : State :=
  run [PositionChanged P2; Elapse 50] pausedAtP1.
Definition heldCycle : Cycle := mkCycle 1 (mkCallback P2 true 50) Detached.

Definition someWidgets : option (list UserWidget) :=
  Some [mkWidget "Lean.Widget.demo"].

(** An RPC error whose code is -32601. *)
Definition methodNotFound : JsValue :=
  JsOther (Some (-32601)%Z) (Some ("{" +:+ field "code" "-32601" +:+ "}")%string).
Definition isMethodNotFound (e : JsValue) : bool :=
  match e with
  | JsOther code _ => bool_decide (code = Some (-32601)%Z)
  | JsString _ => false
  end.
End Runs.

(** ** The header of the view: [InfoStatusBar] *)

(** [statusColTable] *)
Definition statusColTable (st : InfoStatus) : string :=
  match st with
  | Loading => "gold "
  | Updating => "gold "
  | Error => "dark-red "
  | Ready => EmptyString
  end.

(** The texts rendered after the location:
    [{isPinned && !isPaused && ' (pinned)'}],
    [{!isPinned && isPaused && ' (paused)'}],
    [{isPinned && isPaused && ' (pinned and paused)'}]. *)
Definition statusSuffix (isPinned isPaused : bool) : list string :=
  (if isPinned && negb isPaused then [" (pinned)"%string] else [])
  ++ (if negb isPinned && isPaused then [" (paused)"%string] else [])
  ++ (if isPinned && isPaused then [" (pinned and paused)"%string] else []).

(** The links of the header, by their [data-id]. *)
Inductive StatusBarLink :=
| CopyGoalToCommentLink
| RevealFileLocationLink
| TogglePinnedLink
| TogglePausedLink
| UpdateLink.

#[global] Instance StatusBarLink_eq_dec : EqDecision StatusBarLink.
Proof. solve_decision. Defined.

(** The calls that a click hands to the editor or to the parent. *)
Inductive Outward :=
| CopyToCommentCall (text : string)
| RevealPosition (p : DocumentPosition)
| OnPin (p : DocumentPosition).

Section StatusBar.
Context `{Collaborators}.

(** The links that [InfoStatusBar] renders, in order: the copy link when
    [copyGoalToComment] is defined, the reveal link when pinned, then the
    pin, pause and update links. *)
Definition statusBarLinks (props : InfoDisplayProps) : list StatusBarLink :=
  (match copyGoalToComment props with
   | Some _ => [CopyGoalToCommentLink]
   | None => []
   end)
  ++ (if bool_decide (dp_kind (p_display props) = Pin)
      then [RevealFileLocationLink] else [])
  ++ [TogglePinnedLink; TogglePausedLink; UpdateLink].

(** The [onClick] of a link of the header that [InfoDisplay] renders with
    its props, [triggerDisplayUpdate], [isPaused] and [setPaused]. *)
Definition clickLink (l : StatusBarLink) (s : State) : State * list Outward :=
  let props := rendered s in
  match l with
  | CopyGoalToCommentLink =>
      (s, match copyGoalToComment props with
          | Some text => [CopyToCommentCall text]
          | None => []
          end)
  | RevealFileLocationLink => (s, [RevealPosition (dp_pos (p_display props))])
  | TogglePinnedLink => (s, [OnPin (dp_pos (p_display props))])
  | TogglePausedLink =>
      (step (ClickPause (negb (isPaused (display s)))) s, [])
  | UpdateLink => (step ClickUpdate s, [])
  end.
End StatusBar.

(** ** The goal filters of [InfoDisplay] *)

(** [GoalFilterState] *)
Record GoalFilterState := mkFilters {
  reverse : bool;
  isType : bool;
  isInstance : bool;
  isHiddenAssumption : bool
}.

(** The initial value of the [goalFilters] cell. *)
Definition initialFilters : GoalFilterState :=
  {| reverse := false; isType := true; isInstance := true;
     isHiddenAssumption := true |}.

(** The updaters passed to [setGoalFilters] by the sort button and by the
    three entries of the filter menu. *)
Definition toggleReverse (f : GoalFilterState) : GoalFilterState :=
  mkFilters (negb (reverse f)) (isType f) (isInstance f) (isHiddenAssumption f).
Definition toggleType (f : GoalFilterState) : GoalFilterState :=
  mkFilters (reverse f) (negb (isType f)) (isInstance f) (isHiddenAssumption f).
Definition toggleInstance (f : GoalFilterState) : GoalFilterState :=
  mkFilters (reverse f) (isType f) (negb (isInstance f)) (isHiddenAssumption f).
Definition toggleHiddenAssumption (f : GoalFilterState) : GoalFilterState :=
  mkFilters (reverse f) (isType f) (isInstance f) (negb (isHiddenAssumption f)).

(** The icon of the sort button and the icon of the filter button. *)
Definition sortIcon (f : GoalFilterState) : string :=
  if reverse f then "codicon-arrow-up " else "codicon-arrow-down ".
Definition filterIcon (f : GoalFilterState) : string :=
  if negb (isInstance f) || negb (isType f) || negb (isHiddenAssumption f)
  then "codicon-filter-filled " else "codicon-filter ".

(** The icon of an entry of the filter menu. *)
Definition checkIcon (on : bool) : string :=
  if on then "codicon-check " else "codicon-blank ".

(** ** The position of the cursor view: [Info] *)

(** A [Location] of the language server protocol. *)
Record Location := mkLocation {
  loc_uri : string;
  loc_range : Range
}.

(** [{ uri: curLoc.uri, ...curLoc.range.start }] *)
Definition cursorPos (l : Location) : DocumentPosition :=
  mkPos (loc_uri l) (range_start (loc_range l)).1 (range_start (loc_range l)).2.

Section InfoWrapper.
Context `{Collaborators}.

(** The event [changedCursorLocation] as [Info] handles it:
    [loc => loc && setCurLoc(loc)] in the cursor view; a pinned view does not
    subscribe. *)
Definition changedCursorLocation (loc : option Location) (s : State) : State :=
  match kind (env s), loc with
  | Cursor, Some l => step (PositionChanged (cursorPos l)) s
  | _, _ => s
  end.
End InfoWrapper.

(** ** Notions used in the further statements *)

(** [Loading] is the status before the first cycle and never again. *)
Definition loadingIffNoCycle (s : State) : Prop :=
  (nextCycle s = 0 → status (cells s) = Loading ∧ inflight s = [])
  ∧ (0 < nextCycle s → status (cells s) ≠ Loading).

Section FurtherNotions.
Context `{Collaborators}.

(** The event changes nothing in the scheduler, the cycles and the cells. *)
Definition schedulesNothing (e : Event) (s : State) : Prop :=
  throttle (step e s) = throttle s
  ∧ inflight (step e s) = inflight s
  ∧ nextCycle (step e s) = nextCycle s
  ∧ cells (step e s) = cells s.

(** The run [evs] from the mount with [e0] contains the end of a cycle that
    was in flight and was rejected with a value that is neither the
    stale-document code nor empty, and whose text is [m]. *)
Definition rejectedBy (e0 : Env) (evs : list Event) (m : string) : Prop :=
  ∃ pre id cy err post,
    evs = pre ++ Settle id (Rejected err) :: post
    ∧ findCycle id (run pre (mount e0)) = Some cy
    ∧ isStaleDocument err = false
    ∧ errS err = Some m
    ∧ m ≠ "{}"%string.

(** The error is unset, or it is the message built from such a rejection. *)
Definition errorFromRun (e0 : Env) (evs : list Event) (o : option string)
  : Prop :=
  o = None ∨ ∃ m, rejectedBy e0 evs m ∧ o = Some (errorMessage m).
End FurtherNotions.

(** * The hover provider: [LeanHoverProvider] *)

Module Hover.

(** [vscode.Position] and [vscode.Range] *)
Record Position := mkPosition {
  line : nat;
  character : nat
}.

Record VsRange := mkVsRange {
  startLine : nat;
  startCharacter : nat;
  endLine : nat;
  endCharacter : nat
}.

(** What the provider reads of a [TextDocument]. *)
Record TextDocument := mkDocument {
  fileName : string;
  text : list string
}.

(** The fields of [response.record] that the provider reads: ['full-id'],
    ['type'] and [state]; [None] stands for [undefined]. *)
Record InfoRecord := mkRecord {
  full_id : option string;
  type : option string;
  state : option string
}.

Record InfoResponse := mkResponse {
  record : option InfoRecord
}.

(** [{ language: 'lean', value }] *)
Record MarkedString := mkMarked {
  language : string;
  value : string
}.

(** [new Hover(contents, range)] *)
Record HoverResult := mkHover {
  contents : MarkedString;
  range : VsRange
}.

(** A value used as an operand of [+] with a string: [undefined] becomes
    the text ['undefined']. *)
Definition jsString (o : option string) : string :=
  match o with
  | Some s => s
  | None => "undefined"
  end.

(** [new vscode.Range(position.line, position.character,
                      position.line, position.character)] *)
Definition emptyRangeAt (position : Position) : VsRange :=
  mkVsRange (line position) (character position)
            (line position) (character position).

(** The callback of [then]: what the provider makes of the response. *)
Definition onResponse (position : Position) (response : InfoResponse)
  : option HoverResult :=
  match record response with
  | None => None
  | Some r =>
      if truthy (full_id r)
      then Some (mkHover
                   (mkMarked "lean"
                      (jsString (full_id r) +:+ " : " +:+ jsString (type r)))
                   (emptyRangeAt position))
      else if truthy (state r)
      then Some (mkHover (mkMarked "lean" (jsString (state r)))
                         (emptyRangeAt position))
      else None
  end.

Section Provider.
(** [util.identifierStart], which is not part of this file, and the server
    as the function that answers an [info] request. *)
Variable identifierStart : TextDocument → Position → Position.
Variable info : string → nat → nat → InfoResponse.

(** [provideHover]: the request is made at the start of the identifier, with
    the line counted from one. *)
Definition provideHover (document : TextDocument) (position : Position)
  : option HoverResult :=
  let startPos := identifierStart document position in
  onResponse position
    (info (fileName document) (line startPos + 1) (character startPos)).
End Provider.

End Hover.

(** * The info view of the older server: [Info] with [updateInfo] *)

Module Legacy.

(** [Location] of the shared module: a file, a line and a column. *)
Record Location := mkLoc {
  file_name : string;
  line : nat;
  column : nat
}.

(** The fields of a [Task] that [isLoading] reads. *)
Record Task := mkTask {
  task_file_name : string;
  pos_line : nat;
  end_pos_line : nat
}.

(** [isLoading(ts, l)], with [ts.tasks] as a list. *)
Definition isLoading (tasks : list Task) (l : option Location) : bool :=
  match l with
  | None => false
  | Some l =>
      existsb (λ t, bool_decide (task_file_name t = file_name l)
                    && (pos_line t <? line l) && (line l <? end_pos_line t))
              tasks
  end.

(** ** [useThrottle] *)

Section UseThrottle.
Context {T : Type} `{EqDecision T}.

(** The prop [x] of the latest render, the cells [y] and [t], the timeouts
    set and not yet fired, and the time. *)
Record Throttle := mkThrottle {
  th_x : T;
  th_y : T;
  th_t : bool;
  th_timeouts : list nat;
  th_now : nat
}.

(** The first render: [useState(x)], [useState(false)]. *)
Definition useThrottle (x : T) : Throttle :=
  {| th_x := x; th_y := x; th_t := false; th_timeouts := []; th_now := 0 |}.

(** The effect, run when [x] or [t] has changed:
    [if (!t && x !== y) { sy(x); st(true);
                          setTimeout(() => st(false), delayms) }]. *)
Definition throttleEffect (delayms : nat) (s : Throttle) : Throttle :=
  if negb (th_t s) && negb (bool_decide (th_x s = th_y s))
  then {| th_x := th_x s; th_y := th_x s; th_t := true;
          th_timeouts := th_timeouts s ++ [th_now s + delayms];
          th_now := th_now s |}
  else s.

(** A render with a new value of the prop. *)
Definition setProp (delayms : nat) (x : T) (s : Throttle) : Throttle :=
  if bool_decide (x = th_x s) then s
  else throttleEffect delayms
         {| th_x := x; th_y := th_y s; th_t := th_t s;
            th_timeouts := th_timeouts s; th_now := th_now s |}.

(** Time passes; the timeouts that are due call [st(false)], and the effect
    runs if that changed [t]. *)
Definition passTime (delayms d : nat) (s : Throttle) : Throttle :=
  let now := th_now s + d in
  let s1 := {| th_x := th_x s; th_y := th_y s; th_t := th_t s;
               th_timeouts := th_timeouts s; th_now := now |} in
  match filter (λ dl, dl ≤ now) (th_timeouts s) with
  | [] => s1
  | _ =>
      let s2 := {| th_x := th_x s; th_y := th_y s; th_t := false;
                   th_timeouts := filter (λ dl, now < dl) (th_timeouts s);
                   th_now := now |} in
      if th_t s then throttleEffect delayms s2 else s2
  end.

Inductive ThrottleEvent :=
| SetProp (x : T)
| PassTime (d : nat).

Definition throttleStep (delayms : nat) (e : ThrottleEvent) (s : Throttle)
  : Throttle :=
  match e with
  | SetProp x => setProp delayms x s
  | PassTime d => passTime delayms d s
  end.

Definition throttleRun (delayms : nat) (evs : list ThrottleEvent)
    (s : Throttle) : Throttle :=
  fold_left (λ acc e, throttleStep delayms e acc) evs s.
(** The time that passes during a list of events, and the last value of
    the prop that they set ([x] if they set none). *)
Fixpoint elapsed (evs : list ThrottleEvent) : nat :=
  match evs with
  | [] => 0
  | SetProp _ :: evs' => elapsed evs'
  | PassTime d :: evs' => d + elapsed evs'
  end.

Fixpoint lastProp (evs : list ThrottleEvent) (x : T) : T :=
  match evs with
  | [] => x
  | SetProp x' :: evs' => lastProp evs' x'
  | PassTime _ :: evs' => lastProp evs' x
  end.
(** Between events: the throttled value lags only while one timeout is
    pending. *)
Definition throttleSettled (s : Throttle) : Prop :=
  if th_t s
  then ∃ dl, th_timeouts s = [dl]
  else th_y s = th_x s ∧ th_timeouts s = [].
End UseThrottle.

Arguments Throttle : clear implicits.
Arguments ThrottleEvent : clear implicits.

(** ** The cells of [Info] and [updateInfo] *)

(** [WidgetData], and the widget of an info record, whose [html] may be
    missing. *)
Record WidgetData := mkWidgetData {
  w_line : nat;
  w_column : nat;
  w_id : nat;
  w_html : option string
}.

Record InfoRecord := mkInfoRecord {
  rec_state : option string;
  rec_widget : option WidgetData
}.

(** The cells [widget], [goalState], [updating], [loading] and
    [updateError]. *)
Record InfoCells := mkInfoCells {
  widget : option WidgetData;
  goalState : option string;
  updating : bool;
  loading : bool;
  updateError : option JsValue
}.

(** The requests that [updateInfo] sends to the server. *)
Inductive ServerCall :=
| InfoCall (file : string) (line column : nat)
| GetWidget (line column id : nat) (file : string).

(** [updateInfo(force)] up to its first [await]. *)
Definition updateInfo (force paused : bool) (loc : option Location)
    (c : InfoCells) : InfoCells * option ServerCall :=
  if paused && negb force then (c, None)
  else
    match loc with
    | None => (mkInfoCells None None true (loading c) None, None)
    | Some l =>
        (mkInfoCells (widget c) (goalState c) true (loading c) None,
         Some (InfoCall (file_name l) (line l) (column l)))
    end.

(** The [catch] clause. *)
Definition updateFailed (e : JsValue) (c : InfoCells) : InfoCells :=
  mkInfoCells (widget c) (goalState c) false (loading c) (Some e).

(** [updateInfo] from the answer of [global_server.info] to its next
    [await] or to its end. *)
Definition onInfo (l : Location) (r : Outcome (option InfoRecord))
    (c : InfoCells) : InfoCells * option ServerCall :=
  match r with
  | Rejects e => (updateFailed e c, None)
  | Resolves record =>
      let gs := match record with
                | Some rc => rec_state rc
                | None => None
                end in
      match record with
      | Some (mkInfoRecord _ (Some w)) =>
          match w_html w with
          | Some _ =>
              (mkInfoCells (Some w) gs false (loading c) (updateError c), None)
          | None =>
              (mkInfoCells (widget c) gs (updating c) (loading c)
                           (updateError c),
               Some (GetWidget (w_line w) (w_column w) (w_id w) (file_name l)))
          end
      | _ => (mkInfoCells None gs false (loading c) (updateError c), None)
      end
  end.

(** [updateInfo] from the answer of [get_widget] to its end. *)
Definition onWidget (r : Outcome (option WidgetData)) (c : InfoCells)
  : InfoCells :=
  match r with
  | Rejects e => updateFailed e c
  | Resolves newWidget =>
      mkInfoCells newWidget (goalState c) false (loading c) (updateError c)
  end.

(** The answers of the server to one update. *)
Record Answers := mkAnswers {
  infoAnswer : Outcome (option InfoRecord);
  widgetAnswer : Outcome (option WidgetData)
}.

(** One whole call of [updateInfo], with the calls it sent. *)
Definition update (force paused : bool) (loc : option Location)
    (a : Answers) (c : InfoCells) : InfoCells * list ServerCall :=
  match updateInfo force paused loc c, loc with
  | (c1, Some call1), Some l =>
      match onInfo l (infoAnswer a) c1 with
      | (c2, Some call2) => (onWidget (widgetAnswer a) c2, [call1; call2])
      | (c2, None) => (c2, [call1])
      end
  | (c1, _), _ => (c1, [])
  end.

(** ** What [Info] renders *)

Inductive InfoStatus :=
| StUpdating | StError | StPinned | StCursor | StLoading.

Definition statusColTable (st : InfoStatus) : string :=
  match st with
  | StUpdating => "gold"
  | StLoading => "yellow"
  | StCursor => "blue"
  | StPinned => "purple"
  | StError => "dark-red"
  end.

Section Rendering.
(** Whether a rejection value is truthy. *)
Variable truthyError : JsValue → bool.

Definition errorSet (c : InfoCells) : bool :=
  match updateError c with
  | Some e => truthyError e
  | None => false
  end.

(** [loading ? 'loading' : updating ? 'updating' : updateError ? 'error'
     : isPinned ? 'pinned' : 'cursor'] *)
Definition status (isPinned : bool) (c : InfoCells) : InfoStatus :=
  if loading c then StLoading
  else if updating c then StUpdating
  else if errorSet c then StError
  else if isPinned then StPinned
  else StCursor.

(** [!loading && !updating && updateError]: the "Error updating" line. *)
Definition errorShown (c : InfoCells) : bool :=
  negb (loading c) && negb (updating c) && errorSet c.
End Rendering.

(** [!widget && !goalState && messages.length === 0] *)
Definition nothingToShow (c : InfoCells) (messages : nat) : bool :=
  negb (bool_decide (is_Some (widget c))) && negb (truthy (goalState c))
  && (messages =? 0).

(** ** [copyToComment] *)

(** The line feed. *)
Definition nl : string :=
  String (Ascii.Ascii false true false true false false false false)
         EmptyString.

(** [text || goalState] *)
Definition textOrGoal (text goalState : option string) : option string :=
  if truthy text then text else goalState.

(** The [text] of the [insert_text] command that [copyToComment(text)]
    posts, [None] when it returns without posting. *)
Definition copyToComment (text goalState : option string) : option string :=
  if truthy (textOrGoal text goalState)
  then Some ("/-" +:+ nl +:+ Hover.jsString (textOrGoal text goalState)
             +:+ nl +:+ "-/" +:+ nl)%string
  else None.

(** ** [handleWidgetEvent] *)

Inductive EventStatus := Success | Edit | InvalidHandler | ErrorStatus | OtherStatus.

(** [result.record] of a [widget_event] request. *)
Record EventRecord := mkEventRecord {
  ev_status : EventStatus;
  ev_widget : option WidgetData;
  ev_action : string
}.

Inductive Reaction :=
| OnEdit (l : Location) (action : string)
| ConsoleWarn
| ConsoleError.

(** [handleWidgetEvent] after [await global_server.send(message)], for a
    view with a location: the new [widget] cell and what else is done. *)
Definition onEventResult (l : Location) (record : option EventRecord)
    (w : option WidgetData) : option WidgetData * list Reaction :=
  match record with
  | None => (w, [])
  | Some r =>
      match ev_status r, ev_widget r with
      | Success, Some w' => (Some w', [])
      | Edit, w' => (w', [OnEdit l (ev_action r)])
      | InvalidHandler, _ => (w, [ConsoleWarn])
      | ErrorStatus, _ => (w, [ConsoleError])
      | _, _ => (w, [])
      end
  end.

End Legacy.

(** ** Further sample data *)

Module More.
Import Sample.

(** A view pinned at [P1]. *)
Definition pinned : Env :=
  {| kind := Pin; pos := P1; hasWidgetsV1 := true; allProgress := ∅;
     messages := [] |}.

(** The first cycle has failed with an error that is shown, the user has
    clicked "Try again", and the second cycle is in flight. *)
Definition retrying : State :=
  run [Elapse 50; Settle 0 (Rejected boom); ClickUpdate; Elapse 50]
      (mount env0).

(** The cursor at [P1], reported as a selection that ends further on. *)
Definition selection : Location :=
  mkLocation (uri P1) (mkRange (3, 0) (5, 8)).

(** Two calls of a throttled function, the second when the timeout of the
    first is due. *)
Definition firstCall : Call nat nat := mkCall 0 50 1 10.
Definition secondCall : Call nat nat := mkCall 50 50 2 20.

(** A document, an [identifierStart] that goes back to the start of the
    line, and a server that knows one identifier. *)
Definition document : Hover.TextDocument :=
  Hover.mkDocument "/A.lean" ["example : nat.succ 0 = 1 := rfl"].
Definition lineStart (d : Hover.TextDocument) (p : Hover.Position)
  : Hover.Position :=
  Hover.mkPosition (Hover.line p) 0.
Definition server (file : string) (line column : nat) : Hover.InfoResponse :=
  if (line =? 1) && (column =? 0)
  then Hover.mkResponse
         (Some (Hover.mkRecord (Some "nat.succ") (Some "nat → nat")
                               (Some "no goals")))
  else Hover.mkResponse None.

(** The legacy view: a location, its cells, and info records with and
    without the html of the widget. *)
Definition location : Legacy.Location := Legacy.mkLoc "/A.lean" 4 2.
Definition shown : Legacy.InfoCells :=
  Legacy.mkInfoCells
    (Some (Legacy.mkWidgetData 1 0 7 (Some "<p>old</p>")))
    (Some "old goal") false false None.
Definition bareWidget : Legacy.WidgetData := Legacy.mkWidgetData 4 0 8 None.
Definition fullWidget : Legacy.WidgetData :=
  Legacy.mkWidgetData 4 0 8 (Some "<p>new</p>").
Definition bareRecord : Legacy.InfoRecord :=
  Legacy.mkInfoRecord (Some "new goal") (Some bareWidget).
End More.

(** * Properties *)

Ltac conjuncts := repeat match goal with |- _ ∧ _ => split end.

(** ** The scheduler *)

Section SchedulerFacts.
Context {CB W : Type}.
Implicit Types (t : Throttled CB W) (c : Call CB W) (tm : Timer W).

Lemma last_cons {A} (x d : A) (l : list A) :
  List.last (x :: l) d = List.last l x.
Proof.
  revert x d. induction l as [|y l IH]; intros x d; [reflexivity|].
  change (List.last (x :: y :: l) d) with (List.last (y :: l) d).
  rewrite !IH. reflexivity.
Qed.

Lemma expire_not_due now w (cbr : option CB) tm :
  now < deadline tm →
  expire now (mkThrottled w cbr [tm]) = (mkThrottled w cbr [tm], []).
Proof.
  intros Hlt. unfold expire; simpl.
  rewrite filter_cons_False; [reflexivity|].
  unfold due. intros Hd. apply Nat.leb_le in Hd. lia.
Qed.

Lemma expire_due now w (cbr : CB) tm :
  deadline tm ≤ now →
  expire now (mkThrottled w (Some cbr) [tm])
  = (mkThrottled false (Some cbr) [], [(cbr, awaiter tm)]).
Proof.
  intros Hle. unfold expire; simpl.
  assert (Hd : due now tm = true) by (apply Nat.leb_le; exact Hle).
  rewrite filter_cons_True by exact Hd.
  rewrite (filter_cons_False (λ tm0, due now tm0 = false)); [reflexivity|].
  rewrite Hd. discriminate.
Qed.

(** Calls that arrive while a timeout is pending and not yet due: each
    replaces the registered action and resolves at once; the timeout is
    left as it is. *)
Lemma calls_while_waiting (cs : list (Call CB W)) (cbr : option CB) tm :
  Forall (λ c, call_time c < deadline tm) cs →
  calls cs (mkThrottled true cbr [tm])
  = (mkThrottled true
       (match cs with [] => cbr | c :: cs' => Some (call_action (List.last cs' c)) end)
       [tm],
     map (λ c, Some (call_awaiter c)) cs, []).
Proof.
  revert cbr. induction cs as [|c cs IH]; intros cbr Hall; [reflexivity|].
  inversion Hall as [|? ? Hc Hcs]; subst.
  cbn [calls]. rewrite (expire_not_due _ _ _ _ Hc).
  unfold call, trigger, useDelayedThrottled; cbn.
  rewrite (IH _ Hcs). destruct cs as [|c' cs']; [reflexivity|].
  rewrite last_cons. reflexivity.
Qed.
End SchedulerFacts.

(** C3.  Calls of the trigger that arrive within the interval opened by the
    first one are coalesced: one timeout is pending, set by the first call
    and never reset; every later call replaces the registered action and
    resolves at once; no action starts before the timeout; the timeout
    starts one action, the one registered by the last call. *)
Theorem C3_coalescing {CB W : Type} (cbr : option CB)
    (c : Call CB W) (cs : list (Call CB W)) :
  Forall (λ c', call_time c' < call_time c + call_ms c) cs →
  let fires := call_time c + call_ms c in
  let pending :=
    mkThrottled true (Some (call_action (List.last cs c)))
                [mkTimer fires (call_awaiter c)] in
  calls (c :: cs) (mkThrottled false cbr [])
  = (pending, None :: map (λ c', Some (call_awaiter c')) cs, [])
  ∧ (∀ now, now < fires → expire now pending = (pending, []))
  ∧ (∀ now, fires ≤ now →
       expire now pending
       = (mkThrottled false (Some (call_action (List.last cs c))) [],
          [(call_action (List.last cs c), call_awaiter c)])).
Proof.
  intros Hall fires pending. split; [|split].
  - cbn [calls]. unfold expire at 1; cbn.
    unfold call, trigger, useDelayedThrottled; cbn.
    rewrite calls_while_waiting by exact Hall.
    destruct cs as [|c' cs']; [reflexivity|].
    subst pending. rewrite last_cons. reflexivity.
  - intros now Hlt. apply expire_not_due. exact Hlt.
  - intros now Hle. apply expire_due. exact Hle.
Qed.

(** Three calls at times 0, 30 and 45 with an interval of 50. *)
Lemma C3_coalescing_witness :
  let c1 := mkCall 0 50 "fetch P1"%string Detached in
  let c2 := mkCall 30 50 "fetch P2"%string Detached in
  let c3 := mkCall 45 500 "fetch P3"%string DisplayRefresh in
  calls [c1; c2; c3] (mkThrottled false None [])
  = (mkThrottled true (Some "fetch P3"%string) [mkTimer 50 Detached],
     [None; Some Detached; Some DisplayRefresh], [])
  ∧ expire 50 (mkThrottled true (Some "fetch P3"%string) [mkTimer 50 Detached])
    = (mkThrottled false (Some "fetch P3"%string) [],
       [("fetch P3"%string, Detached)]).
Proof.
  intros c1 c2 c3.
  assert (Hall : Forall (λ c', call_time c' < call_time c1 + call_ms c1)
                        [c2; c3]).
  { repeat constructor; simpl; lia. }
  destruct (C3_coalescing None c1 [c2; c3] Hall) as (Hcalls & _ & Hfire).
  split; [exact Hcalls | exact (Hfire 50 (le_n _))].
Defined.

(** ** Render passes *)

Section RenderFacts.
Context `{Collaborators}.

Lemma triggerUpdate_detached ms s :
  triggerUpdate ms Detached s
  = withThrottle (trigger (clock s) ms Detached (throttle s)).1 s.
Proof.
  unfold triggerUpdate, trigger. destruct (waiting (throttle s)); reflexivity.
Qed.

(** The effect only touches the refs of the scheduler and its own
    dependency list. *)
Lemma cells_runEffects s : cells (runEffects s) = cells s.
Proof.
  unfold runEffects. case_bool_decide; [reflexivity|].
  rewrite triggerUpdate_detached. reflexivity.
Qed.

Lemma display_runEffects s : display (runEffects s) = display s.
Proof.
  unfold runEffects. case_bool_decide; [reflexivity|].
  rewrite triggerUpdate_detached. reflexivity.
Qed.

Lemma env_runEffects s : env (runEffects s) = env s.
Proof.
  unfold runEffects. case_bool_decide; [reflexivity|].
  rewrite triggerUpdate_detached. reflexivity.
Qed.

Lemma inflight_runEffects s : inflight (runEffects s) = inflight s.
Proof.
  unfold runEffects. case_bool_decide; [reflexivity|].
  rewrite triggerUpdate_detached. reflexivity.
Qed.

Lemma clock_runEffects s : clock (runEffects s) = clock s.
Proof.
  unfold runEffects. case_bool_decide; [reflexivity|].
  rewrite triggerUpdate_detached. reflexivity.
Qed.

Lemma nextCycle_runEffects s : nextCycle (runEffects s) = nextCycle s.
Proof.
  unfold runEffects. case_bool_decide; [reflexivity|].
  rewrite triggerUpdate_detached. reflexivity.
Qed.

Lemma cells_render s : cells (render s) = commit (env s) (cells s).
Proof. unfold render. rewrite cells_runEffects. reflexivity. Qed.

Lemma env_render s : env (render s) = env s.
Proof. unfold render. rewrite env_runEffects. reflexivity. Qed.

Lemma inflight_render s : inflight (render s) = inflight s.
Proof. unfold render. rewrite inflight_runEffects. reflexivity. Qed.

Lemma clock_render s : clock (render s) = clock s.
Proof. unfold render. rewrite clock_runEffects. reflexivity. Qed.

Lemma nextCycle_render s : nextCycle (render s) = nextCycle s.
Proof. unfold render. rewrite nextCycle_runEffects. reflexivity. Qed.

Lemma infoDisplayProps_render s :
  infoDisplayProps (render s)
  = mkProps (displayProps (commit (env s) (cells s)))
            (status (cells s)) (messages (env s)).
Proof.
  unfold infoDisplayProps. rewrite cells_render, env_render.
  unfold commit. destruct (shouldUpdateDisplay (cells s)); reflexivity.
Qed.

Lemma isPaused_render s :
  isPaused (display (render s)) = isPaused (display s).
Proof.
  unfold render. rewrite display_runEffects.
  unfold renderInfoDisplay, renderDisplay, usePausableState; cbn.
  destruct (isPaused (display s)) eqn:Hp; cbn;
    destruct (shouldRefresh (display s)); cbn; try rewrite Hp; reflexivity.
Qed.

Lemma shouldRefresh_render s : shouldRefresh (display (render s)) = false.
Proof.
  unfold render. rewrite display_runEffects.
  unfold renderInfoDisplay, renderDisplay, usePausableState; cbn.
  destruct (isPaused (display s)); cbn;
    destruct (shouldRefresh (display s)) eqn:Hr; cbn;
    try rewrite Hr; reflexivity.
Qed.

(** What the view shows after a render pass: the props of this render when
    the view is running or a refresh is due, the held snapshot otherwise. *)
Lemma rendered_render s :
  rendered (render s)
  = if isPaused (display s) && negb (shouldRefresh (display s))
    then rendered s
    else infoDisplayProps (render s).
Proof.
  rewrite infoDisplayProps_render.
  unfold rendered, render. rewrite display_runEffects.
  unfold renderInfoDisplay, renderDisplay, usePausableState, renderInfoAux,
    infoDisplayProps,
    commit; cbn.
  destruct (isPaused (display s)); cbn;
    destruct (shouldRefresh (display s)); cbn;
    destruct (shouldUpdateDisplay (cells s)); reflexivity.
Qed.
End RenderFacts.

(** ** Completed cycles *)

Section SettleFacts.
Context `{Collaborators}.

Lemma finishCycle_commits cy r s :
  commits r = true →
  finishCycle cy r s
  = updCells (setShouldUpdateDisplay true) (updCells (written r) s).
Proof.
  destruct r as [g tg|err]; cbn; [reflexivity|].
  intros Hc. apply negb_true_iff in Hc. rewrite Hc. reflexivity.
Qed.

Lemma cells_settle id cy r s :
  findCycle id s = Some cy →
  commits r = true →
  cells (settle id r s)
  = setShouldUpdateDisplay false
      (setDisplayProps (mkDisplayProps (env s) (written r (cells s)))
                       (written r (cells s))).
Proof.
  intros Hf Hc. unfold settle. rewrite Hf.
  rewrite (finishCycle_commits _ _ _ Hc).
  destruct (cy_awaiter cy); cbn [resume].
  - rewrite cells_render. reflexivity.
  - rewrite cells_render. unfold updDisplay at 1 2.
    cbn [cells env withDisplay]. rewrite cells_render, env_render.
    reflexivity.
Qed.

Lemma env_settle id r s : env (settle id r s) = env s.
Proof.
  unfold settle. destruct (findCycle id s) as [cy|]; [|reflexivity].
  assert (He : env (render (finishCycle cy r (dropCycle id s))) = env s).
  { rewrite env_render. destruct r as [g tg|err]; cbn; [reflexivity|].
    destruct (isStaleDocument err); [|reflexivity].
    rewrite triggerUpdate_detached. reflexivity. }
  destruct (cy_awaiter cy); [exact He|].
  rewrite env_render. exact He.
Qed.

Lemma isPaused_settle id r s :
  isPaused (display (settle id r s)) = isPaused (display s).
Proof.
  unfold settle. destruct (findCycle id s) as [cy|]; [|reflexivity].
  assert (He : isPaused (display (render (finishCycle cy r (dropCycle id s))))
               = isPaused (display s)).
  { rewrite isPaused_render. destruct r as [g tg|err]; cbn; [reflexivity|].
    destruct (isStaleDocument err); [|reflexivity].
    rewrite triggerUpdate_detached. reflexivity. }
  destruct (cy_awaiter cy); [exact He|].
  rewrite isPaused_render. exact He.
Qed.

(** After a committed settlement the view shows the new props, unless it
    is paused and nobody asked for a refresh. *)
Lemma rendered_settle id cy r s :
  findCycle id s = Some cy →
  commits r = true →
  shouldRefresh (display s) = false →
  rendered (settle id r s)
  = match cy_awaiter cy with
    | Detached =>
        if isPaused (display s) then rendered s
        else infoDisplayProps (settle id r s)
    | DisplayRefresh => infoDisplayProps (settle id r s)
    end.
Proof.
  intros Hf Hc Hr. unfold settle. rewrite Hf.
  rewrite (finishCycle_commits _ _ _ Hc).
  destruct (cy_awaiter cy).
  - rewrite rendered_render. cbn. rewrite Hr.
    destruct (isPaused (display s)); reflexivity.
  - rewrite rendered_render. cbn. rewrite andb_false_r. reflexivity.
Qed.
End SettleFacts.

(** ** The error guard *)

Lemma truthy_errorMessage msg : truthy (Some (errorMessage msg)) = true.
Proof. reflexivity. Qed.

Lemma onError_empty err c :
  isEmptyError err = true → onError err c = setError None c.
Proof.
  unfold isEmptyError, onError. destruct (errS err) as [s0|]; [|reflexivity].
  intros ->. reflexivity.
Qed.

Lemma onError_message err msg c :
  errS err = Some msg → msg ≠ "{}"%string →
  onError err c = setStatus Error (setError (Some (errorMessage msg)) c).
Proof.
  intros He Hne. unfold onError. rewrite He.
  rewrite bool_decide_eq_false_2 by exact Hne. reflexivity.
Qed.

(** C6.  A failure whose value serializes to the empty structure (or to
    nothing) clears the error message, in the cell and in the committed
    display props, and leaves the status as it was. *)
Theorem C6_empty_error_clears `{Collaborators} id cy err s :
  findCycle id s = Some cy →
  isStaleDocument err = false →
  isEmptyError err = true →
  let s' := step (Settle id (Rejected err)) s in
  onError err (cells s) = setError None (cells s)
  ∧ error (cells s') = None
  ∧ dp_error (displayProps (cells s')) = None
  ∧ status (cells s') = status (cells s)
  ∧ p_status (infoDisplayProps s') = status (cells s).
Proof.
  intros Hf Hstale Hempty s'. subst s'. cbn [step].
  unfold infoDisplayProps.
  rewrite (cells_settle id cy (Rejected err) s Hf)
    by (cbn; rewrite Hstale; reflexivity).
  cbn [written]. rewrite (onError_empty _ _ Hempty). repeat split.
Qed.

(** ** Copying the goal to a comment *)

(** C10.  Without a goal list there is no [copyGoalToComment]: the status
    bar offers no button for it, and the [copyToComment] action requested by
    the editor makes no call and changes nothing. *)
Theorem C10_copy_needs_goals `{Collaborators} (s : State) ws :
  dp_goals (p_display (rendered s)) = None →
  copyGoalToComment (rendered s) = None
  ∧ copyOffered (InfoDisplay (rendered s) ws) = false
  ∧ editorCalls (RequestedAction CopyToComment) s = []
  ∧ step (RequestedAction CopyToComment) s = s.
Proof.
  intros Hg. unfold editorCalls, InfoDisplay, copyGoalToComment; cbn.
  rewrite Hg. repeat split. case_bool_decide; reflexivity.
Qed.

(** With a goal list the cursor view hands its text to the editor. *)
Lemma copy_with_goals `{Collaborators} (s : State) g ws :
  dp_goals (p_display (rendered s)) = Some g →
  dp_kind (p_display (rendered s)) = Cursor →
  copyOffered (InfoDisplay (rendered s) ws) = true
  ∧ editorCalls (RequestedAction CopyToComment) s = [goalsToString g].
Proof.
  intros Hg Hk. unfold editorCalls, InfoDisplay, copyGoalToComment; cbn.
  rewrite Hg, Hk. split; reflexivity.
Qed.

(** ** Widgets *)

(** C7.  When the widget request fails because the method is unknown, the
    hook reports a fulfilled request without widgets, no widget is shown, and
    the status is the one set by the goal requests: [Ready] when they are
    fulfilled, with no error shown. *)
Theorem C7_widgets_method_not_found `{Collaborators}
    (isMethodNotFound : JsValue → bool) id cy g tg e s :
  findCycle id s = Some cy →
  isMethodNotFound e = true →
  let s' := step (Settle id (Fulfilled g tg)) s in
  let w := useAsync (Some (widgetRequest isMethodNotFound (Rejects e))) in
  let v := InfoDisplay (infoDisplayProps s') (widgetsOf w) in
  widgetsOf w = None
  ∧ asyncStatus w = FulfilledAsync
  ∧ asyncError w = None
  ∧ hasWidget v = false
  ∧ p_status (infoDisplayProps s') = Ready
  ∧ hasError v = false.
Proof.
  intros Hf Hm s' w v. subst v w s'. cbn [step].
  unfold widgetRequest, discardMethodNotFound. rewrite Hm.
  unfold infoDisplayProps.
  rewrite (cells_settle id cy (Fulfilled g tg) s Hf) by reflexivity.
  repeat split.
Qed.

(** The outcome of the widget request is no input of the status or of the
    error banner. *)
Lemma widgets_never_an_error `{Collaborators} props ws ws' :
  hasError (InfoDisplay props ws) = hasError (InfoDisplay props ws').
Proof. reflexivity. Qed.

(** ** The delay of the scheduler *)

Lemma useIsProcessingAt_true `{Collaborators} progress p :
  useIsProcessingAt progress p = true
  ↔ ∃ processing i,
      progress !! uri p = Some processing
      ∧ In i processing
      ∧ RangeHelpers_contains (range i) p = true.
Proof.
  unfold useIsProcessingAt. destruct (progress !! uri p) as [l|].
  - rewrite existsb_exists. split.
    + intros (i & Hin & Hc). exists l, i. auto.
    + intros (l' & i & Heq & Hin & Hc). inversion Heq; subst. eauto.
  - split; [discriminate|]. intros (l' & i & Heq & _). discriminate.
Qed.

(** ** States between events *)

Section Invariants.
Context `{Collaborators}.

Lemma callbackRef_trigger now ms w (t : Throttled Callback Awaiter) :
  callbackRef (trigger now ms w t).1 = callbackRef t.
Proof. unfold trigger. destruct (waiting t); reflexivity. Qed.

Lemma afterRender_render s : afterRender (render s).
Proof.
  split.
  - rewrite cells_render. unfold commit.
    destruct (shouldUpdateDisplay (cells s)) eqn:E; [reflexivity|exact E].
  - apply shouldRefresh_render.
  - unfold render, runEffects. case_bool_decide as Hd; [exact Hd|].
    rewrite triggerUpdate_detached. reflexivity.
  - unfold render, runEffects. case_bool_decide as Hd.
    + reflexivity.
    + rewrite triggerUpdate_detached. cbn [throttle withThrottle].
      rewrite callbackRef_trigger. reflexivity.
  - rewrite isPaused_render. intros Hp. rewrite rendered_render, Hp.
    reflexivity.
Qed.

Lemma afterRender_settle id r s : afterRender s → afterRender (settle id r s).
Proof.
  intros Hs. unfold settle. destruct (findCycle id s) as [cy|]; [|exact Hs].
  destruct (cy_awaiter cy); apply afterRender_render.
Qed.

Lemma afterRender_step e s : afterRender s → afterRender (step e s).
Proof.
  intros Hs. destruct e as [p|pr|ms|d|id r| |p|act]; cbn [step];
    try apply afterRender_render.
  - apply afterRender_settle, Hs.
  - destruct act; [exact Hs|]. case_bool_decide; [|exact Hs].
    apply afterRender_render.
Qed.

Lemma afterRender_mount e : afterRender (mount e).
Proof. apply afterRender_render. Qed.

Lemma afterRender_run evs s : afterRender s → afterRender (run evs s).
Proof.
  revert s. induction evs as [|e evs IH]; intros s Hs; [exact Hs|].
  apply IH, afterRender_step, Hs.
Qed.

(** A render pass in a state that a render pass has left, whatever the
    scheduler has been asked and the view has been told meanwhile: only
    the body of [InfoDisplay] has something to do. *)
Lemma render_quiet s (t : Throttled Callback Awaiter) (d : Display) :
  afterRender s →
  callbackRef t = callbackRef (throttle s) →
  render (withDisplay d (withThrottle t s))
  = withDisplay (renderDisplay (infoDisplayProps s) d) (withThrottle t s).
Proof.
  intros [Hc Hr Hd Hcb Hrun] Ht.
  destruct s as [e c th deps clk inf nxt d0]; cbn in *.
  unfold render, renderInfoAux, renderInfoDisplay, runEffects,
    serverIsProcessing, infoDisplayProps in *; cbn in *.
  rewrite Hc; cbn. rewrite Hd; cbn.
  rewrite bool_decide_eq_true_2 by reflexivity.
  destruct t as [w cbr tms]; cbn in *. rewrite Ht, Hcb.
  unfold useDelayedThrottled; cbn. destruct c; reflexivity.
Qed.

Lemma renderDisplay_afterRender s :
  afterRender s → renderDisplay (infoDisplayProps s) (display s) = display s.
Proof.
  intros [Hc Hr Hd Hcb Hrun]. unfold renderDisplay, usePausableState.
  destruct (isPaused (display s)) eqn:Hp.
  - rewrite Hr. reflexivity.
  - specialize (Hrun eq_refl). unfold rendered in Hrun.
    destruct (display s) as [sr ip pr]; cbn in *.
    rewrite Hr. unfold setPropsRef; cbn. rewrite Hrun. reflexivity.
Qed.

Lemma render_afterRender s (t : Throttled Callback Awaiter) :
  afterRender s →
  callbackRef t = callbackRef (throttle s) →
  render (withThrottle t s) = withThrottle t s.
Proof.
  intros Hs Ht.
  replace (withThrottle t s) with (withDisplay (display s) (withThrottle t s))
    at 1 by (destruct s; reflexivity).
  rewrite render_quiet by assumption.
  rewrite renderDisplay_afterRender by assumption.
  destruct s; reflexivity.
Qed.

Lemma render_idempotent s : afterRender s → render s = s.
Proof.
  intros Hs.
  replace s with (withThrottle (throttle s) s) at 1 by (destruct s; reflexivity).
  rewrite render_afterRender by (exact Hs || reflexivity).
  destruct s; reflexivity.
Qed.
End Invariants.

(** ** Reachable states *)

Section Reachable.
Context `{Collaborators}.

Lemma reachable_run evs s : reachable s → reachable (run evs s).
Proof.
  revert s. induction evs as [|e evs IH]; intros s Hs; [exact Hs|].
  apply IH, reachable_step, Hs.
Qed.

Lemma reachable_afterRender s : reachable s → afterRender s.
Proof.
  induction 1; [apply afterRender_mount | apply afterRender_step; assumption].
Qed.

Lemma oneTimer_hook cb t : oneTimer t → oneTimer (useDelayedThrottled cb t).
Proof. intros Ht. exact Ht. Qed.

Lemma oneTimer_trigger now ms w t : oneTimer t → oneTimer (trigger now ms w t).1.
Proof.
  unfold oneTimer, trigger. destruct (waiting t) eqn:Hw; cbn.
  - rewrite Hw. auto.
  - intros ->. eauto.
Qed.

Lemma oneTimer_expire now t : oneTimer t → oneTimer (expire now t).1.
Proof.
  unfold oneTimer. destruct (waiting t) eqn:Hw.
  - intros [tm Htm]. unfold expire. rewrite Htm.
    destruct (due now tm) eqn:Hd.
    + rewrite filter_cons_True by exact Hd.
      rewrite filter_cons_False by (rewrite Hd; discriminate). reflexivity.
    + rewrite filter_cons_False by (rewrite Hd; discriminate).
      rewrite filter_nil. cbn. rewrite Hw. eauto.
  - intros Ht. unfold expire. rewrite Ht. cbn. rewrite Hw. exact Ht.
Qed.

Lemma throttle_render s :
  throttle (render s)
  = let t := useDelayedThrottled (currentCallback s) (throttle s) in
    if bool_decide (effectDeps s = Some (pos (env s), serverIsProcessing s))
    then t
    else (trigger (clock s) (delay s) Detached t).1.
Proof.
  unfold render, runEffects.
  change (serverIsProcessing (renderInfoDisplay (renderInfoAux s)))
    with (serverIsProcessing s).
  cbn. case_bool_decide; [reflexivity|].
  rewrite triggerUpdate_detached. reflexivity.
Qed.

Lemma oneTimer_render s : oneTimer (throttle s) → oneTimer (throttle (render s)).
Proof.
  intros Ht. rewrite throttle_render. cbn. case_bool_decide.
  - apply oneTimer_hook, Ht.
  - apply oneTimer_trigger, oneTimer_hook, Ht.
Qed.

Lemma throttle_triggerUpdate ms w s :
  throttle (triggerUpdate ms w s) = (trigger (clock s) ms w (throttle s)).1.
Proof.
  unfold triggerUpdate, trigger.
  destruct (waiting (throttle s)); [|reflexivity]. destruct w; reflexivity.
Qed.

Lemma throttle_beginCycles started s :
  throttle (fold_left (λ acc cw, beginCycle cw acc) started s) = throttle s.
Proof.
  revert s. induction started as [|cw l IH]; intros s; [reflexivity|].
  cbn. rewrite IH. reflexivity.
Qed.

Lemma throttle_elapse d s :
  throttle (elapse d s) = (expire (clock s + d) (throttle s)).1.
Proof.
  unfold elapse. cbn.
  destruct (expire (clock s + d) (throttle s)) as [t started].
  rewrite throttle_beginCycles. reflexivity.
Qed.

Lemma oneTimer_settle id r s :
  oneTimer (throttle s) → oneTimer (throttle (settle id r s)).
Proof.
  intros Ht. unfold settle. destruct (findCycle id s) as [cy|]; [|exact Ht].
  assert (H1 : oneTimer (throttle (render (finishCycle cy r (dropCycle id s))))).
  { apply oneTimer_render. destruct r as [g tg|err]; cbn; [exact Ht|].
    destruct (isStaleDocument err); [|exact Ht].
    rewrite throttle_triggerUpdate. apply oneTimer_trigger, Ht. }
  destruct (cy_awaiter cy); [exact H1|]. apply oneTimer_render, H1.
Qed.

Lemma oneTimer_step e s : oneTimer (throttle s) → oneTimer (throttle (step e s)).
Proof.
  intros Ht. destruct e as [p|pr|ms|d|id r| |p|act]; cbn [step];
    try (apply oneTimer_render; exact Ht).
  - apply oneTimer_render. rewrite throttle_elapse. apply oneTimer_expire, Ht.
  - apply oneTimer_settle, Ht.
  - apply oneTimer_render. rewrite throttle_triggerUpdate.
    apply oneTimer_trigger, Ht.
  - destruct act; [exact Ht|]. case_bool_decide; [|exact Ht].
    apply oneTimer_render, Ht.
Qed.

Lemma reachable_oneTimer s : reachable s → oneTimer (throttle s).
Proof.
  induction 1 as [e|e s Hs IH]; [|apply oneTimer_step, IH].
  unfold mount. apply oneTimer_render. reflexivity.
Qed.

Lemma freshIds_beginCycles started s :
  freshIds s → freshIds (fold_left (λ acc cw, beginCycle cw acc) started s).
Proof.
  revert s. induction started as [|cw l IH]; intros s Hs; [exact Hs|].
  cbn. apply IH. unfold freshIds, beginCycle; cbn.
  apply Forall_app. split.
  - eapply Forall_impl; [exact Hs|]. cbn. intros; lia.
  - repeat constructor.
Qed.

Lemma freshIds_ext s s' :
  inflight s' = inflight s → nextCycle s' = nextCycle s →
  freshIds s → freshIds s'.
Proof. unfold freshIds. intros -> ->. auto. Qed.

Lemma freshIds_render s : freshIds s → freshIds (render s).
Proof.
  apply freshIds_ext; [apply inflight_render | apply nextCycle_render].
Qed.

Lemma freshIds_finishCycle cy r s : freshIds s → freshIds (finishCycle cy r s).
Proof.
  apply freshIds_ext; destruct r as [g tg|err]; cbn; try reflexivity;
    destruct (isStaleDocument err); try reflexivity;
    rewrite triggerUpdate_detached; reflexivity.
Qed.

Lemma freshIds_dropCycle id s : freshIds s → freshIds (dropCycle id s).
Proof.
  unfold freshIds, dropCycle; cbn. intros Hs.
  apply List.Forall_forall. intros cy Hin. apply filter_In in Hin as [Hin _].
  rewrite List.Forall_forall in Hs. apply Hs, Hin.
Qed.

Lemma freshIds_settle id r s : freshIds s → freshIds (settle id r s).
Proof.
  intros Hs. unfold settle. destruct (findCycle id s) as [cy|]; [|exact Hs].
  assert (H1 : freshIds (render (finishCycle cy r (dropCycle id s)))).
  { apply freshIds_render, freshIds_finishCycle, freshIds_dropCycle, Hs. }
  destruct (cy_awaiter cy); [exact H1|]. apply freshIds_render. exact H1.
Qed.

Lemma freshIds_step e s : freshIds s → freshIds (step e s).
Proof.
  intros Hs. destruct e as [p|pr|ms|d|id r| |p|act]; cbn [step];
    try (apply freshIds_render; exact Hs).
  - apply freshIds_render. unfold elapse.
    destruct (expire _ _) as [t started].
    apply freshIds_beginCycles. exact Hs.
  - apply freshIds_settle, Hs.
  - apply freshIds_render.
    eapply freshIds_ext; [| |exact Hs]; unfold triggerUpdate, trigger;
      destruct (waiting (throttle s)); reflexivity.
  - destruct act; [exact Hs|]. case_bool_decide; [|exact Hs].
    apply freshIds_render, Hs.
Qed.

Lemma reachable_freshIds s : reachable s → freshIds s.
Proof.
  induction 1 as [e|e s Hs IH]; [|apply freshIds_step, IH].
  unfold mount. apply freshIds_render. constructor.
Qed.
End Reachable.

(** ** The stale-document retry *)

Section StaleRetry.
Context `{Collaborators}.

Lemma afterRender_dropCycle id s : afterRender s → afterRender (dropCycle id s).
Proof. intros [? ? ? ? ?]. split; assumption. Qed.

Lemma afterRender_withThrottle (t : Throttled Callback Awaiter) s :
  afterRender s →
  callbackRef t = callbackRef (throttle s) →
  afterRender (withThrottle t s).
Proof.
  intros [? ? ? Hcb ?] Ht. split; try assumption.
  cbn. rewrite Ht. exact Hcb.
Qed.

(** The whole step of a stale-document rejection: the cycle is dropped
    and the trigger is called; nothing is rendered anew, except that a
    refresh that awaited the cycle is delivered. *)
Lemma settle_stale id cy err s :
  afterRender s →
  findCycle id s = Some cy →
  isStaleDocument err = true →
  settle id (Rejected err) s
  = let s1 :=
      withThrottle
        (trigger (clock s) (cb_ms (cy_cb cy)) Detached (throttle s)).1
        (dropCycle id s) in
    match cy_awaiter cy with
    | Detached => s1
    | DisplayRefresh =>
        withDisplay
          (renderDisplay (infoDisplayProps s)
                         (setShouldRefresh true (display s))) s1
    end.
Proof.
  intros Hs Hf Hstale. unfold settle. rewrite Hf. cbn [finishCycle].
  rewrite Hstale, triggerUpdate_detached.
  assert (Hd := afterRender_dropCycle id s Hs).
  rewrite render_afterRender
    by (try exact Hd; cbn; apply callbackRef_trigger).
  cbn zeta. destruct (cy_awaiter cy); [reflexivity|].
  cbn [resume]. unfold updDisplay.
  change (display (withThrottle ?t (dropCycle id s))) with (display s).
  match goal with
  | |- render (withDisplay ?d (withThrottle ?t ?s0)) = _ =>
      replace (withDisplay d (withThrottle t s0))
        with (withDisplay d (withThrottle t (withThrottle t s0)))
        by reflexivity;
      rewrite (render_quiet (withThrottle t s0) t d)
  end.
  - reflexivity.
  - apply afterRender_withThrottle; [exact Hd|]. apply callbackRef_trigger.
  - reflexivity.
Qed.
End StaleRetry.

(** C2 (amended).  A cycle that fails with code -32801 commits nothing and
    sets no error: the cells, and with them the props handed to the view,
    are unchanged.  No request is sent at once.  The trigger of the scheduler
    is called once: when no cycle is pending, one timeout is set, due after
    the delay the failed cycle was built with, and it will run the callback
    of the latest render; when a cycle is pending, the call adds nothing. *)
Theorem C2_stale_retry `{Collaborators} id cy err s :
  reachable s →
  findCycle id s = Some cy →
  isStaleDocument err = true →
  let s' := step (Settle id (Rejected err)) s in
  cells s' = cells s
  ∧ infoDisplayProps s' = infoDisplayProps s
  ∧ inflight s' = inflight (dropCycle id s)
  ∧ nextCycle s' = nextCycle s
  ∧ throttle s'
    = if waiting (throttle s) then throttle s
      else mkThrottled true (Some (currentCallback s))
             [mkTimer (clock s + cb_ms (cy_cb cy)) Detached].
Proof.
  intros Hr Hf Hstale s'. subst s'. cbn [step].
  pose proof (reachable_afterRender s Hr) as Hs.
  pose proof (reachable_oneTimer s Hr) as Ht.
  rewrite (settle_stale id cy err s Hs Hf Hstale). cbn zeta.
  assert (Hthr : (trigger (clock s) (cb_ms (cy_cb cy)) Detached (throttle s)).1
                 = if waiting (throttle s) then throttle s
                   else mkThrottled true (Some (currentCallback s))
                          [mkTimer (clock s + cb_ms (cy_cb cy)) Detached]).
  { unfold trigger. unfold oneTimer in Ht.
    destruct (waiting (throttle s)); [reflexivity|]. cbn.
    rewrite Ht, (ar_callback _ Hs). reflexivity. }
  destruct (cy_awaiter cy); cbn; rewrite Hthr; repeat split.
Qed.

(** ** The delay of each call of the trigger *)

Section Delay.
Context `{Collaborators}.

(** The actions that the timeouts start are the registered callback. *)
Lemma expire_started now (t : Throttled Callback Awaiter) cb w :
  In (cb, w) (expire now t).2 → callbackRef t = Some cb.
Proof.
  unfold expire.
  destruct (filter (λ tm, due now tm = true) (timers t)) as [|tm fired];
    cbn; [tauto|].
  destruct (callbackRef t) as [cb0|]; cbn; [|tauto].
  intros [Heq|Hin]; [congruence|].
  apply in_map_iff in Hin as (tm' & Heq & _). congruence.
Qed.

Lemma builtDelays_beginCycles started s :
  builtDelays s →
  (∀ cw, In cw started → ∃ b, cb_ms cw.1 = throttleDelay b) →
  builtDelays (fold_left (λ acc cw, beginCycle cw acc) started s).
Proof.
  revert s. induction started as [|cw l IH]; intros s Hs Hl; [exact Hs|].
  cbn. apply IH; [|intros cw' Hin; apply Hl; right; exact Hin].
  unfold builtDelays, beginCycle; cbn. apply Forall_app. split; [exact Hs|].
  constructor; [|constructor]. cbn. apply Hl. left. reflexivity.
Qed.

Lemma builtDelays_ext s s' :
  inflight s' = inflight s → builtDelays s → builtDelays s'.
Proof. unfold builtDelays. intros ->. auto. Qed.

Lemma inflight_finishCycle cy r s : inflight (finishCycle cy r s) = inflight s.
Proof.
  destruct r as [g tg|err]; cbn; [reflexivity|].
  destruct (isStaleDocument err); [|reflexivity].
  rewrite triggerUpdate_detached. reflexivity.
Qed.

Lemma builtDelays_dropCycle id s : builtDelays s → builtDelays (dropCycle id s).
Proof.
  unfold builtDelays, dropCycle; cbn. intros Hs.
  apply List.Forall_forall. intros cy Hin. apply filter_In in Hin as [Hin _].
  rewrite List.Forall_forall in Hs. apply Hs, Hin.
Qed.

Lemma builtDelays_settle id r s : builtDelays s → builtDelays (settle id r s).
Proof.
  intros Hs. unfold settle. destruct (findCycle id s) as [cy|]; [|exact Hs].
  assert (H1 : builtDelays (render (finishCycle cy r (dropCycle id s)))).
  { eapply builtDelays_ext; [|apply builtDelays_dropCycle, Hs].
    rewrite inflight_render. apply inflight_finishCycle. }
  destruct (cy_awaiter cy); [exact H1|].
  eapply builtDelays_ext; [|exact H1]. rewrite inflight_render. reflexivity.
Qed.

Lemma builtDelays_step e s :
  afterRender s → builtDelays s → builtDelays (step e s).
Proof.
  intros Ha Hs. destruct e as [p|pr|ms|d|id r| |p|act]; cbn [step];
    try (eapply builtDelays_ext; [apply inflight_render|exact Hs]).
  - eapply builtDelays_ext; [apply inflight_render|]. unfold elapse.
    destruct (expire _ _) as [t started] eqn:He.
    apply builtDelays_beginCycles; [exact Hs|].
    intros [cb w] Hin.
    assert (Hcb : callbackRef (throttle s) = Some cb).
    { apply (expire_started (clock s + d) (throttle s) cb w).
      cbn in He. rewrite He. exact Hin. }
    rewrite (ar_callback _ Ha) in Hcb. injection Hcb as <-.
    exists (serverIsProcessing s). reflexivity.
  - apply builtDelays_settle, Hs.
  - eapply builtDelays_ext; [|exact Hs]. rewrite inflight_render.
    unfold triggerUpdate, trigger. destruct (waiting (throttle s)); reflexivity.
  - destruct act; [exact Hs|]. case_bool_decide; [|exact Hs].
    eapply builtDelays_ext; [apply inflight_render|exact Hs].
Qed.

Lemma reachable_builtDelays s : reachable s → builtDelays s.
Proof.
  induction 1 as [e|e s Hs IH].
  - unfold mount. eapply builtDelays_ext; [apply inflight_render|].
    constructor.
  - apply builtDelays_step; [apply reachable_afterRender, Hs|exact IH].
Qed.

Lemma findCycle_In id s cy : findCycle id s = Some cy → In cy (inflight s).
Proof. unfold findCycle. intros Hf. apply find_some in Hf as [Hin _]. exact Hin. Qed.

(** A render whose effect finds its dependencies changed calls the trigger
    built by that render. *)
Lemma effect_call s v :
  afterRender s →
  (pos v, useIsProcessingAt (allProgress v) (pos v))
  ≠ (pos (env s), serverIsProcessing s) →
  throttle (render (withEnv v s))
  = (trigger (clock s)
       (throttleDelay (useIsProcessingAt (allProgress v) (pos v))) Detached
       (useDelayedThrottled
          (mkCallback (pos v) (hasWidgetsV1 v)
             (throttleDelay (useIsProcessingAt (allProgress v) (pos v))))
          (throttle s))).1.
Proof.
  intros Hs Hne. rewrite throttle_render. cbn zeta.
  rewrite bool_decide_eq_false_2; [reflexivity|].
  change (effectDeps (withEnv v s)) with (effectDeps s).
  rewrite (ar_deps _ Hs). intros Heq. apply Hne.
  injection Heq as H1 H2. unfold serverIsProcessing in H2. cbn in H1, H2.
  rewrite H1, <- H2. reflexivity.
Qed.

(** A call of the trigger that finds no cycle pending: one timeout, and the
    cycle starts when it is due and not before. *)
Lemma trigger_fires ms w s :
  afterRender s →
  waiting (throttle s) = false →
  timers (throttle s) = [] →
  let s' := triggerUpdate ms w s in
  timers (throttle s') = [mkTimer (clock s + ms) w]
  ∧ (∀ d, d < ms → inflight (elapse d s') = inflight s)
  ∧ (∀ d, ms ≤ d →
       inflight (elapse d s')
       = inflight s ++ [mkCycle (nextCycle s) (currentCallback s) w]).
Proof.
  intros Hs Hw Ht s'.
  assert (Hs' : s' = withThrottle
                       (mkThrottled true (Some (currentCallback s))
                          [mkTimer (clock s + ms) w]) s).
  { subst s'. unfold triggerUpdate, trigger.
    rewrite Hw, Ht, (ar_callback _ Hs). reflexivity. }
  split; [rewrite Hs'; reflexivity|]. split.
  - intros d Hlt. rewrite Hs'. unfold elapse. cbn.
    rewrite expire_not_due by (cbn; lia). reflexivity.
  - intros d Hle. rewrite Hs'. unfold elapse. cbn.
    rewrite expire_due by (cbn; lia). reflexivity.
Qed.
End Delay.

(** C8 (amended).  A call of the trigger that finds no cycle pending sets
    one timeout, due after the delay the trigger was built with; the cycle
    starts when that delay has passed and not before.  The calls made by the
    effect and by the update links use the trigger of the latest render:
    its delay is 500 when a range that the server reports as being
    processed in the document contains the position tracked, and 50
    otherwise.  The retry after a stale-document failure uses the trigger
    of the render whose callback the failed cycle ran: it waits the delay of
    that render, one of the same two values, whatever is reported at the
    time of the retry. *)
Theorem C8_delay `{Collaborators} (s : State) :
  reachable s →
  waiting (throttle s) = false →
  let fastOrSlow (busy : bool) := if busy then 500 else 50 in
  (∀ progress p,
     useIsProcessingAt progress p = true
     ↔ ∃ processing i,
         progress !! uri p = Some processing
         ∧ In i processing
         ∧ RangeHelpers_contains (range i) p = true)
  ∧ (∀ ms w,
       let s' := triggerUpdate ms w s in
       timers (throttle s') = [mkTimer (clock s + ms) w]
       ∧ (∀ d, d < ms → inflight (elapse d s') = inflight s)
       ∧ (∀ d, ms ≤ d →
            inflight (elapse d s')
            = inflight s
              ++ [mkCycle (nextCycle s)
                    (mkCallback (pos (env s)) (hasWidgetsV1 (env s))
                       (fastOrSlow (serverIsProcessing s))) w]))
  ∧ timers (throttle (step ClickUpdate s))
    = [mkTimer (clock s + fastOrSlow (serverIsProcessing s)) DisplayRefresh]
  ∧ (∀ p, p ≠ pos (env s) →
       timers (throttle (step (PositionChanged p) s))
       = [mkTimer
            (clock s + fastOrSlow (useIsProcessingAt (allProgress (env s)) p))
            Detached])
  ∧ (∀ pr, useIsProcessingAt pr (pos (env s)) ≠ serverIsProcessing s →
       timers (throttle (step (ProgressChanged pr) s))
       = [mkTimer
            (clock s + fastOrSlow (useIsProcessingAt pr (pos (env s))))
            Detached])
  ∧ (∀ id cy err, findCycle id s = Some cy → isStaleDocument err = true →
       timers (throttle (step (Settle id (Rejected err)) s))
       = [mkTimer (clock s + cb_ms (cy_cb cy)) Detached]
       ∧ (cb_ms (cy_cb cy) = 50 ∨ cb_ms (cy_cb cy) = 500)).
Proof.
  intros Hr Hw fastOrSlow.
  pose proof (reachable_afterRender s Hr) as Hs.
  pose proof (reachable_oneTimer s Hr) as Ht.
  unfold oneTimer in Ht. rewrite Hw in Ht.
  split; [intros progress p; apply useIsProcessingAt_true|].
  split; [intros ms w; apply (trigger_fires ms w s Hs Hw Ht)|].
  split.
  { cbn [step].
    destruct (trigger_fires (delay s) DisplayRefresh s Hs Hw Ht) as (Hc & _).
    assert (Etr : triggerUpdate (delay s) DisplayRefresh s
                  = withThrottle
                      (trigger (clock s) (delay s) DisplayRefresh
                         (throttle s)).1 s)
      by (unfold triggerUpdate, trigger; rewrite Hw; reflexivity).
    rewrite Etr in *.
    rewrite render_afterRender by (exact Hs || apply callbackRef_trigger).
    exact Hc. }
  split.
  { intros p Hne. cbn [step]. rewrite effect_call.
    - unfold trigger, useDelayedThrottled; cbn. rewrite Hw. cbn.
      rewrite Ht. reflexivity.
    - exact Hs.
    - cbn. intros Heq. apply Hne. congruence. }
  split.
  { intros pr Hne. cbn [step]. rewrite effect_call.
    - unfold trigger, useDelayedThrottled; cbn. rewrite Hw. cbn.
      rewrite Ht. reflexivity.
    - exact Hs.
    - cbn. intros Heq. apply Hne. congruence. }
  intros id cy err Hf Hstale. split.
  - cbn [step]. rewrite (settle_stale id cy err s Hs Hf Hstale). cbn zeta.
    assert (Hthr : timers (trigger (clock s) (cb_ms (cy_cb cy)) Detached
                             (throttle s)).1
                   = [mkTimer (clock s + cb_ms (cy_cb cy)) Detached]).
    { unfold trigger. rewrite Hw. cbn. rewrite Ht. reflexivity. }
    destruct (cy_awaiter cy); cbn; exact Hthr.
  - pose proof (reachable_builtDelays s Hr) as Hb.
    unfold builtDelays in Hb. rewrite List.Forall_forall in Hb.
    destruct (Hb cy (findCycle_In id s cy Hf)) as [[|] Hms]; rewrite Hms; auto.
Qed.

(** ** The commit of an error *)

(** C5 (amended).  A failure that is neither the stale-document code nor
    the empty value sets the status to [Error] and the message built from the
    payload, and the commit replaces the display props in one update.  A view
    that is not paused, or whose refresh request the cycle answers, then
    shows the error and hides goals, term goal and messages; a paused view
    keeps what it showed.  The widget list is not gated by the status:
    whatever widgets the view holds are shown next to the error, and the
    error is the only thing shown exactly when there are none. *)
Theorem C5_error_commit `{Collaborators} id cy err msg s :
  reachable s →
  findCycle id s = Some cy →
  isStaleDocument err = false →
  errS err = Some msg →
  msg ≠ "{}"%string →
  let s' := step (Settle id (Rejected err)) s in
  status (cells s') = Error
  ∧ error (cells s') = Some (errorMessage msg)
  ∧ displayProps (cells s')
    = mkDisplay (kind (env s)) (pos (env s)) (goals (cells s))
                (termGoal (cells s)) (Some (errorMessage msg))
  ∧ (isPaused (display s) = false ∨ cy_awaiter cy = DisplayRefresh →
     rendered s' = infoDisplayProps s'
     ∧ ∀ ws,
         let v := InfoDisplay (rendered s') ws in
         hasError v = true
         ∧ hasGoals v = false ∧ hasTermGoal v = false ∧ hasMessages v = false
         ∧ hasWidget v = match ws with Some (_ :: _) => true | _ => false end
         ∧ onlyErrorShown v = negb (hasWidget v))
  ∧ (isPaused (display s) = true → cy_awaiter cy = Detached →
     rendered s' = rendered s).
Proof.
  intros Hr Hf Hstale Herr Hne s'.
  pose proof (reachable_afterRender s Hr) as Hs.
  assert (Hcm : commits (Rejected err) = true)
    by (cbn; rewrite Hstale; reflexivity).
  assert (Hc : cells s'
               = setShouldUpdateDisplay false
                   (setDisplayProps
                      (mkDisplayProps (env s)
                         (setStatus Error
                            (setError (Some (errorMessage msg)) (cells s))))
                      (setStatus Error
                         (setError (Some (errorMessage msg)) (cells s))))).
  { subst s'. cbn [step]. rewrite (cells_settle id cy _ s Hf Hcm).
    cbn [written]. rewrite (onError_message _ _ _ Herr Hne). reflexivity. }
  assert (Hrend := rendered_settle id cy _ s Hf Hcm (ar_refreshed _ Hs)).
  change (settle id (Rejected err) s) with s' in Hrend.
  split; [rewrite Hc; reflexivity|]. split; [rewrite Hc; reflexivity|].
  split; [rewrite Hc; reflexivity|]. split.
  - intros Hshown.
    assert (Heq : rendered s' = infoDisplayProps s').
    { rewrite Hrend. destruct (cy_awaiter cy); [|reflexivity].
      destruct Hshown as [-> |Hw]; [reflexivity|discriminate Hw]. }
    split; [exact Heq|]. intros ws. cbn zeta. rewrite Heq.
    unfold infoDisplayProps, InfoDisplay, onlyErrorShown. rewrite Hc. cbn.
    destruct ws as [[|w l]|]; cbn; repeat split.
  - intros Hp Hw. rewrite Hrend, Hw, Hp. reflexivity.
Qed.

(** ** Pausing *)

Section Pause.
Context `{Collaborators}.

Lemma display_beginCycles started s :
  display (fold_left (λ acc cw, beginCycle cw acc) started s) = display s.
Proof.
  revert s. induction started as [|cw l IH]; intros s; [reflexivity|].
  cbn. rewrite IH. reflexivity.
Qed.

Lemma display_elapse d s : display (elapse d s) = display s.
Proof.
  unfold elapse. destruct (expire _ _) as [t started].
  rewrite display_beginCycles. reflexivity.
Qed.

Lemma display_finishCycle cy r s : display (finishCycle cy r s) = display s.
Proof.
  destruct r as [g tg|err]; cbn; [reflexivity|].
  destruct (isStaleDocument err); [|reflexivity].
  rewrite triggerUpdate_detached. reflexivity.
Qed.

Lemma rendered_held s0 s :
  display s0 = display s →
  isPaused (display s) = true →
  shouldRefresh (display s) = false →
  rendered (render s0) = rendered s
  ∧ isPaused (display (render s0)) = true.
Proof.
  intros Hd Hp Hr. rewrite rendered_render, isPaused_render, Hd, Hp, Hr.
  unfold rendered. rewrite Hd. split; reflexivity.
Qed.

(** While paused, the view keeps its snapshot through every event that
    neither resumes nor answers a refresh request. *)
Lemma paused_frozen e s :
  afterRender s →
  isPaused (display s) = true →
  resumes e = false →
  delivers e s = false →
  rendered (step e s) = rendered s ∧ isPaused (display (step e s)) = true.
Proof.
  intros Hs Hp Hres Hdel. pose proof (ar_refreshed _ Hs) as Hr.
  destruct e as [p|pr|ms|d|id r| |p|act]; cbn [step];
    try (apply rendered_held; [reflexivity|exact Hp|exact Hr]).
  - apply rendered_held; [apply display_elapse|exact Hp|exact Hr].
  - unfold settle. cbn in Hdel.
    destruct (findCycle id s) as [[i cb [|]]|]; try discriminate.
    + cbn. apply rendered_held; [|exact Hp|exact Hr].
      rewrite display_finishCycle. reflexivity.
    + split; [reflexivity|exact Hp].
  - cbn in Hdel. apply rendered_held; [|exact Hp|exact Hr].
    unfold triggerUpdate, trigger. rewrite Hdel. reflexivity.
  - cbn in Hres. apply negb_false_iff in Hres. subst p.
    rewrite rendered_render, isPaused_render. cbn. rewrite Hr.
    split; reflexivity.
  - destruct act; [|discriminate]. split; [reflexivity|exact Hp].
Qed.

Lemma refresh_applied s :
  rendered (render (resume DisplayRefresh s))
  = infoDisplayProps (render (resume DisplayRefresh s))
  ∧ isPaused (display (render (resume DisplayRefresh s)))
    = isPaused (display s).
Proof.
  rewrite rendered_render, isPaused_render. cbn.
  rewrite andb_false_r. split; reflexivity.
Qed.

(** The answer to a refresh request copies the props of that moment to the
    view and leaves the pause flag alone. *)
Lemma refresh_delivered e s :
  delivers e s = true →
  rendered (step e s) = infoDisplayProps (step e s)
  ∧ isPaused (display (step e s)) = isPaused (display s).
Proof.
  intros Hdel. destruct e as [p|pr|ms|d|id r| |p|act]; try discriminate;
    cbn in Hdel; cbn [step].
  - unfold settle.
    destruct (findCycle id s) as [[i cb [|]]|]; try discriminate. cbn.
    destruct (refresh_applied (render (finishCycle (mkCycle i cb DisplayRefresh)
                                         r (dropCycle id s)))) as [H1 H2].
    split; [exact H1|]. etransitivity; [exact H2|].
    rewrite isPaused_render, display_finishCycle. reflexivity.
  - unfold triggerUpdate, trigger. rewrite Hdel.
    destruct (refresh_applied (withThrottle (throttle s) s)) as [H1 H2].
    split; [exact H1 | exact H2].
Qed.
End Pause.

Section Refresh.
Context `{Collaborators}.

Lemma nextCycle_finishCycle cy r s :
  nextCycle (finishCycle cy r s) = nextCycle s.
Proof.
  destruct r as [g tg|err]; cbn; [reflexivity|].
  destruct (isStaleDocument err); [|reflexivity].
  rewrite triggerUpdate_detached. reflexivity.
Qed.

Lemma nextCycle_settle id r s : nextCycle (settle id r s) = nextCycle s.
Proof.
  unfold settle. destruct (findCycle id s) as [cy|]; [|reflexivity].
  destruct (cy_awaiter cy); rewrite !nextCycle_render;
    try (unfold resume, updDisplay; cbn [nextCycle withDisplay];
         rewrite nextCycle_render);
    rewrite nextCycle_finishCycle; reflexivity.
Qed.

Lemma find_fresh (l : list Cycle) n cy :
  Forall (λ c, cy_id c < n) l →
  cy_id cy = n →
  List.find (λ c, cy_id c =? n) (l ++ [cy]) = Some cy.
Proof.
  intros Hl Hcy. induction Hl as [|c l Hc Hl IH]; cbn.
  - rewrite Hcy, Nat.eqb_refl. reflexivity.
  - destruct (Nat.eqb_spec (cy_id c) n); [lia|exact IH].
Qed.

(** A refresh requested while paused and while no cycle is pending: the
    timeout it sets starts one cycle, and the end of that cycle, if it is
    committed, puts the props of that commit on the view. *)
Lemma refresh_runs_one_cycle s d r :
  reachable s →
  isPaused (display s) = true →
  waiting (throttle s) = false →
  delay s ≤ d →
  commits r = true →
  let s1 := step ClickUpdate s in
  let s2 := step (Elapse d) s1 in
  let s3 := step (Settle (nextCycle s) r) s2 in
  let c := written r (setStatus Updating (cells s)) in
  rendered s1 = rendered s
  ∧ rendered s2 = rendered s
  ∧ inflight s1 = inflight s
  ∧ inflight s2
    = inflight s ++ [mkCycle (nextCycle s) (currentCallback s) DisplayRefresh]
  ∧ nextCycle s3 = S (nextCycle s)
  ∧ rendered s3 = mkProps (mkDisplayProps (env s) c) (status c)
                          (messages (env s))
  ∧ isPaused (display s3) = true.
Proof.
  intros Hreach Hp Hw Hd Hc. cbv zeta.
  pose proof (reachable_afterRender s Hreach) as Hs.
  pose proof (reachable_oneTimer s Hreach) as Ht.
  pose proof (reachable_freshIds s Hreach) as Hfresh.
  unfold oneTimer in Ht. rewrite Hw in Ht.
  pose proof (ar_callback _ Hs) as Hcb.
  pose proof (ar_committed _ Hs) as Hcommitted.
  pose proof (ar_refreshed _ Hs) as Hr.
  set (c := written r (setStatus Updating (cells s))).
  set (cy := mkCycle (nextCycle s) (currentCallback s) DisplayRefresh).
  (* the request *)
  set (t1 := mkThrottled true (Some (currentCallback s))
               [mkTimer (clock s + delay s) DisplayRefresh]).
  assert (E1 : step ClickUpdate s = withThrottle t1 s).
  { cbn [step]. unfold triggerUpdate, trigger.
    rewrite Hw, Ht, Hcb. cbn [app].
    apply render_afterRender; [exact Hs|]. cbn. symmetry. exact Hcb. }
  rewrite E1.
  (* the timeout *)
  set (x := beginCycle (currentCallback s, DisplayRefresh)
              (withThrottle (mkThrottled false (Some (currentCallback s)) [])
                 (withClock (clock s + d) (withThrottle t1 s)))).
  assert (E2 : elapse d (withThrottle t1 s) = x).
  { unfold elapse. cbn [clock withClock withThrottle throttle].
    subst t1. rewrite expire_due by (cbn; lia). reflexivity. }
  set (s2 := step (Elapse d) (withThrottle t1 s)).
  assert (Es2 : s2 = render x) by (subst s2; cbn [step]; rewrite E2; reflexivity).
  assert (E2c : cells s2 = setStatus Updating (cells s)).
  { rewrite Es2, cells_render. unfold commit. cbn. rewrite Hcommitted.
    reflexivity. }
  assert (E2i : inflight s2 = inflight s ++ [cy]).
  { rewrite Es2, inflight_render. reflexivity. }
  assert (E2e : env s2 = env s) by (rewrite Es2, env_render; reflexivity).
  assert (E2n : nextCycle s2 = S (nextCycle s)).
  { rewrite Es2, nextCycle_render. reflexivity. }
  assert (E2d : rendered s2 = rendered s ∧ isPaused (display s2) = true).
  { rewrite Es2. apply rendered_held; [reflexivity|exact Hp|exact Hr]. }
  assert (H2 : afterRender s2) by (rewrite Es2; apply afterRender_render).
  (* the end of the cycle *)
  assert (Hf : findCycle (nextCycle s) s2 = Some cy).
  { unfold findCycle. rewrite E2i. apply find_fresh; [exact Hfresh|reflexivity]. }
  set (s3 := step (Settle (nextCycle s) r) s2).
  assert (E3c : cells s3 = setShouldUpdateDisplay false
                  (setDisplayProps (mkDisplayProps (env s) c) c)).
  { subst s3. cbn [step]. rewrite (cells_settle _ _ _ _ Hf Hc), E2e, E2c.
    reflexivity. }
  assert (E3e : env s3 = env s).
  { subst s3. cbn [step]. rewrite env_settle. exact E2e. }
  split; [reflexivity|]. split; [apply E2d|].
  split; [reflexivity|]. split; [exact E2i|]. split.
  { subst s3. cbn [step]. rewrite nextCycle_settle. exact E2n. }
  split.
  - assert (E3r : rendered s3 = infoDisplayProps s3).
    { subst s3. cbn [step].
      rewrite (rendered_settle _ _ _ _ Hf Hc (ar_refreshed _ H2)).
      reflexivity. }
    rewrite E3r. unfold infoDisplayProps. rewrite E3c, E3e. reflexivity.
  - subst s3. cbn [step]. rewrite isPaused_settle. apply E2d.
Qed.
End Refresh.

(** C4 (amended).  While the view is paused: an event that neither resumes
    nor answers a refresh request leaves the rendered props as they are; the
    answer to a refresh request copies the props of that moment to the view,
    once, and leaves the pause flag set; and a refresh requested while no
    cycle is pending starts one cycle, whose commit is what the view shows
    when the cycle ends, while a refresh requested while a cycle is pending
    runs no cycle of its own. *)
Theorem C4_paused_refresh `{Collaborators} (s : State) :
  reachable s →
  isPaused (display s) = true →
  (∀ e, resumes e = false → delivers e s = false →
        rendered (step e s) = rendered s
        ∧ isPaused (display (step e s)) = true)
  ∧ (∀ e, delivers e s = true →
          rendered (step e s) = infoDisplayProps (step e s)
          ∧ isPaused (display (step e s)) = true
          ∧ shouldRefresh (display (step e s)) = false)
  ∧ (∀ d r, waiting (throttle s) = false → delay s ≤ d → commits r = true →
       let s1 := step ClickUpdate s in
       let s2 := step (Elapse d) s1 in
       let s3 := step (Settle (nextCycle s) r) s2 in
       let c := written r (setStatus Updating (cells s)) in
       rendered s1 = rendered s
       ∧ rendered s2 = rendered s
       ∧ inflight s1 = inflight s
       ∧ inflight s2
         = inflight s
           ++ [mkCycle (nextCycle s) (currentCallback s) DisplayRefresh]
       ∧ nextCycle s3 = S (nextCycle s)
       ∧ rendered s3 = mkProps (mkDisplayProps (env s) c) (status c)
                               (messages (env s))
       ∧ isPaused (display s3) = true)
  ∧ (waiting (throttle s) = true →
       throttle (step ClickUpdate s) = throttle s
       ∧ inflight (step ClickUpdate s) = inflight s
       ∧ nextCycle (step ClickUpdate s) = nextCycle s).
Proof.
  intros Hreach Hp. pose proof (reachable_afterRender s Hreach) as Hs.
  split; [|split; [|split]].
  - intros e Hres Hdel. apply paused_frozen; assumption.
  - intros e Hdel. destruct (refresh_delivered e s Hdel) as [H1 H2].
    split; [exact H1|]. split; [rewrite H2; exact Hp|].
    apply (afterRender_step e s Hs).
  - intros d r Hw Hd Hc. apply refresh_runs_one_cycle; assumption.
  - intros Hw. cbn [step]. unfold triggerUpdate, trigger. rewrite Hw.
    cbn [resume]. unfold updDisplay.
    change (display (withThrottle (throttle s) s)) with (display s).
    rewrite (render_quiet s (throttle s)
               (setShouldRefresh true (display s)) Hs eq_refl).
    repeat split.
Qed.

(** ** Where the committed goals come from *)

Section Provenance.
Context `{Collaborators}.

Lemma fromOneCycle_snoc e0 evs e p :
  fromOneCycle e0 evs p → fromOneCycle e0 (evs ++ [e]) p.
Proof.
  intros [Hp|(pre & id & cy & post & Hevs & Hf)]; [left; exact Hp|].
  right. exists pre, id, cy, (post ++ [e]). split; [|exact Hf].
  rewrite Hevs, <- app_assoc. reflexivity.
Qed.

Lemma cells_beginCycles started s :
  cellsPair (cells (fold_left (λ acc cw, beginCycle cw acc) started s))
  = cellsPair (cells s)
  ∧ displayProps (cells (fold_left (λ acc cw, beginCycle cw acc) started s))
    = displayProps (cells s)
  ∧ shouldUpdateDisplay
      (cells (fold_left (λ acc cw, beginCycle cw acc) started s))
    = shouldUpdateDisplay (cells s).
Proof.
  revert s. induction started as [|cw l IH]; intros s; [auto|].
  cbn [fold_left]. destruct (IH (beginCycle cw s)) as (H1 & H2 & H3).
  rewrite H1, H2, H3. auto.
Qed.

Lemma commit_unchanged e c : shouldUpdateDisplay c = false → commit e c = c.
Proof. unfold commit. intros ->. reflexivity. Qed.

(** What one event does to the goal cells and to the committed pair. *)
Lemma pairs_step e s :
  afterRender s →
  let s' := step e s in
  (cellsPair (cells s') = cellsPair (cells s)
   ∨ ∃ id cy g tg, e = Settle id (Fulfilled g tg)
                   ∧ findCycle id s = Some cy
                   ∧ cellsPair (cells s') = (g, tg))
  ∧ (displayPair (displayProps (cells s')) = displayPair (displayProps (cells s))
     ∨ displayPair (displayProps (cells s')) = cellsPair (cells s')).
Proof.
  intros Hs s'. subst s'. pose proof (ar_committed _ Hs) as Hc.
  assert (Hsame : ∀ x, cells x = cells s ∨ x = s →
            cellsPair (cells (render x)) = cellsPair (cells s)
            ∧ displayPair (displayProps (cells (render x)))
              = displayPair (displayProps (cells s))).
  { intros x Hx. rewrite cells_render.
    assert (Hcx : cells x = cells s) by (destruct Hx; congruence).
    rewrite Hcx, commit_unchanged by exact Hc. auto. }
  destruct e as [p|pr|ms|d|id r| |p|act]; cbn [step].
  - destruct (Hsame (withEnv (mkEnv (kind (env s)) p (hasWidgetsV1 (env s))
                       (allProgress (env s)) (messages (env s))) s)); auto.
  - destruct (Hsame (withEnv (mkEnv (kind (env s)) (pos (env s))
                       (hasWidgetsV1 (env s)) pr (messages (env s))) s)); auto.
  - destruct (Hsame (withEnv (mkEnv (kind (env s)) (pos (env s))
                       (hasWidgetsV1 (env s)) (allProgress (env s)) ms) s));
      auto.
  - rewrite cells_render. unfold elapse. destruct (expire _ _) as [t started].
    destruct (cells_beginCycles started
                (withThrottle t (withClock (clock s + d) s))) as (H1 & H2 & H3).
    rewrite commit_unchanged by (rewrite H3; exact Hc).
    rewrite H1, H2. auto.
  - destruct (findCycle id s) as [cy|] eqn:Hf;
      [|unfold settle; rewrite Hf; auto].
    destruct (commits r) eqn:Hcm.
    + rewrite (cells_settle id cy r s Hf Hcm). cbn. split; [|auto].
      destruct r as [g tg|err]; cbn.
      * right. exists id, cy, g, tg. auto.
      * left. unfold onError.
        destruct (errS err) as [m|]; [|reflexivity].
        case_bool_decide; reflexivity.
    + destruct r as [g tg|err]; [discriminate|]. cbn in Hcm.
      apply negb_false_iff in Hcm.
      rewrite (settle_stale id cy err s Hs Hf Hcm). cbn zeta.
      destruct (cy_awaiter cy); auto.
  - destruct (Hsame (triggerUpdate (delay s) DisplayRefresh s)); [|auto].
    left. unfold triggerUpdate, trigger.
    destruct (waiting (throttle s)); reflexivity.
  - destruct (Hsame (updDisplay (setPaused p) s)); auto.
  - destruct act; [auto|]. case_bool_decide; [|auto].
    destruct (Hsame (updDisplay (setPaused (negb (isPaused (display s)))) s));
      auto.
Qed.

(** After an event the view shows what it showed, or the current props. *)
Lemma rendered_step e s :
  afterRender s →
  rendered (step e s) = rendered s
  ∨ rendered (step e s) = infoDisplayProps (step e s).
Proof.
  intros Hs.
  assert (Hone : ∀ x, rendered x = rendered s →
            rendered (render x) = rendered s
            ∨ rendered (render x) = infoDisplayProps (render x)).
  { intros x Hx. rewrite rendered_render.
    destruct (isPaused (display x) && negb (shouldRefresh (display x))); auto. }
  destruct e as [p|pr|ms|d|id r| |p|act]; cbn [step];
    try (apply Hone; reflexivity).
  - apply Hone. unfold rendered. rewrite display_elapse. reflexivity.
  - unfold settle. destruct (findCycle id s) as [cy|]; [|auto].
    destruct (cy_awaiter cy).
    + apply Hone. unfold rendered. rewrite display_finishCycle. reflexivity.
    + right. apply refresh_applied.
  - unfold triggerUpdate, trigger. destruct (waiting (throttle s)).
    + right. apply (refresh_applied (withThrottle (throttle s) s)).
    + apply Hone. reflexivity.
  - destruct act; [auto|]. case_bool_decide; [|auto]. apply Hone. reflexivity.
Qed.

Lemma run_snoc evs e s : run (evs ++ [e]) s = step e (run evs s).
Proof. unfold run. rewrite fold_left_app. reflexivity. Qed.

Lemma provenance e0 evs :
  let s := run evs (mount e0) in
  fromOneCycle e0 evs (cellsPair (cells s))
  ∧ fromOneCycle e0 evs (displayPair (displayProps (cells s)))
  ∧ fromOneCycle e0 evs (displayPair (p_display (rendered s))).
Proof.
  induction evs as [|e evs IH] using rev_ind.
  - cbn zeta. change (run [] (mount e0)) with (mount e0).
    repeat split; left; reflexivity.
  - cbn zeta in *. rewrite run_snoc.
    set (s := run evs (mount e0)) in *.
    assert (Hs : afterRender s) by apply afterRender_run, afterRender_mount.
    destruct IH as (IHc & IHd & IHr).
    destruct (pairs_step e s Hs) as [Hc Hd]. cbn zeta in Hc, Hd.
    assert (Hc' : fromOneCycle e0 (evs ++ [e]) (cellsPair (cells (step e s)))).
    { destruct Hc as [->|(id & cy & g & tg & -> & Hf & ->)].
      - apply fromOneCycle_snoc, IHc.
      - right. exists evs, id, cy, []. split; [reflexivity|exact Hf]. }
    assert (Hd' : fromOneCycle e0 (evs ++ [e])
                    (displayPair (displayProps (cells (step e s))))).
    { destruct Hd as [->| ->]; [apply fromOneCycle_snoc, IHd|exact Hc']. }
    split; [exact Hc'|]. split; [exact Hd'|].
    destruct (rendered_step e s Hs) as [->| ->].
    + apply fromOneCycle_snoc, IHr.
    + exact Hd'.
Qed.
End Provenance.

(** C1 (amended).  In every run, the goal list and the term goal of the
    committed display props, and of the props the view renders, are still
    unset or are the two results of one and the same fulfilled cycle, and a
    fulfilled cycle writes its two results to the display props in one
    update.  The status is not part of that snapshot: a view that is not
    paused reads the status cell as it is. *)
Theorem C1_goals_from_one_cycle `{Collaborators} (e0 : Env) (evs : list Event) :
  let s := run evs (mount e0) in
  fromOneCycle e0 evs (displayPair (displayProps (cells s)))
  ∧ fromOneCycle e0 evs (displayPair (p_display (rendered s)))
  ∧ (∀ id cy g tg, findCycle id s = Some cy →
       displayPair (displayProps (cells (step (Settle id (Fulfilled g tg)) s)))
       = (g, tg))
  ∧ (isPaused (display s) = false → p_status (rendered s) = status (cells s)).
Proof.
  intros s. destruct (provenance e0 evs) as (_ & Hd & Hr).
  split; [exact Hd|]. split; [exact Hr|]. split.
  - intros id cy g tg Hf. cbn [step].
    rewrite (cells_settle id cy _ s Hf) by reflexivity. reflexivity.
  - intros Hp.
    assert (Hs : afterRender s) by apply afterRender_run, afterRender_mount.
    rewrite (ar_running _ Hs Hp). reflexivity.
Qed.

(** ** The requests of one cycle *)

(** C9.  On both paths the goal request and the term goal request are sent
    before the body first awaits, there is one [await], of the promise that
    combines the two, and whatever the requests and the callbacks do, no
    promise rejects without a reaction attached to it. *)
Theorem C9_requests_before_await (widgetsV1 : bool) (o : Fates) :
  List.filter isSend (beforeFirstAwait (fetchBody widgetsV1))
  = List.filter isSend (fetchBody widgetsV1)
  ∧ List.filter isSend (fetchBody widgetsV1)
    = (if widgetsV1
       then [Send 0 GetInteractiveGoals; Send 1 GetInteractiveTermGoal]
       else [Send 0 RequestPlainGoal; Send 2 RequestPlainTermGoal])
  ∧ length (List.filter isAwait (fetchBody widgetsV1)) = 1
  ∧ unhandled o (fetchBody widgetsV1) = [].
Proof.
  destruct o as [rej thr]. destruct widgetsV1.
  - repeat split. unfold unhandled; cbn.
    destruct (rej GetInteractiveGoals), (rej GetInteractiveTermGoal);
      reflexivity.
  - repeat split. unfold unhandled; cbn.
    destruct (rej RequestPlainGoal), (rej RequestPlainTermGoal),
      (thr 1), (thr 3); reflexivity.
Qed.

(** Awaiting the two requests in turn would leave the second rejection
    without a reaction when both fail. *)
Lemma awaitedInTurn_unhandled :
  unhandled (mkFates (λ _, true) (λ _, false)) awaitedInTurn = [1].
Proof. reflexivity. Qed.

(** * Further properties *)

(** ** The scheduler, continued *)

(** X1.  Spacing: a call that arrives once the timeout of an earlier call
    is due finds no cycle pending.  The earlier action has started by then;
    the later call sets a timeout of its own and is left awaiting it, and
    that timeout starts the later action. *)
Theorem X1_spacing {CB W : Type} (cbr : option CB) (c1 c2 : Call CB W) :
  call_time c1 + call_ms c1 ≤ call_time c2 →
  let pending :=
    mkThrottled true (Some (call_action c2))
                [mkTimer (call_time c2 + call_ms c2) (call_awaiter c2)] in
  calls [c1; c2] (mkThrottled false cbr [])
  = (pending, [None; None], [(call_action c1, call_awaiter c1)])
  ∧ (∀ now, call_time c2 + call_ms c2 ≤ now →
       expire now pending
       = (mkThrottled false (Some (call_action c2)) [],
          [(call_action c2, call_awaiter c2)])).
Proof.
  intros Hle pending. split.
  - cbn [calls]. unfold expire at 1; cbn.
    unfold call at 1, trigger, useDelayedThrottled; cbn.
    rewrite expire_due by (cbn; lia). reflexivity.
  - intros now Hnow. apply expire_due. exact Hnow.
Qed.

Section MoreFacts.
Context `{Collaborators}.

Lemma reachable_run_mount e0 evs : reachable (run evs (mount e0)).
Proof. apply reachable_run, reachable_mount. Qed.

Lemma status_commit e c : status (commit e c) = status c.
Proof. unfold commit. destruct (shouldUpdateDisplay c); reflexivity. Qed.

Lemma status_render s : status (cells (render s)) = status (cells s).
Proof. rewrite cells_render. apply status_commit. Qed.

Lemma loadingIffNoCycle_ext s s' :
  status (cells s') = status (cells s) →
  inflight s' = inflight s →
  nextCycle s' = nextCycle s →
  loadingIffNoCycle s → loadingIffNoCycle s'.
Proof. unfold loadingIffNoCycle. intros -> -> ->. auto. Qed.

Lemma loadingIffNoCycle_render s :
  loadingIffNoCycle s → loadingIffNoCycle (render s).
Proof.
  apply loadingIffNoCycle_ext;
    [apply status_render | apply inflight_render | apply nextCycle_render].
Qed.

Lemma loadingIffNoCycle_beginCycle cw s :
  loadingIffNoCycle (beginCycle cw s)
  ∧ 0 < nextCycle (beginCycle cw s).
Proof.
  unfold loadingIffNoCycle, beginCycle; cbn. repeat split; try lia.
  discriminate.
Qed.

Lemma loadingIffNoCycle_beginCycles started s :
  loadingIffNoCycle s →
  loadingIffNoCycle (fold_left (λ acc cw, beginCycle cw acc) started s).
Proof.
  revert s. induction started as [|cw l IH]; intros s Hs; [exact Hs|].
  cbn [fold_left]. apply IH, loadingIffNoCycle_beginCycle.
Qed.

Lemma status_onError err c :
  status (onError err c) = status c ∨ status (onError err c) = Error.
Proof.
  unfold onError. destruct (errS err) as [m|]; [|auto].
  case_bool_decide; auto.
Qed.

Lemma loadingIffNoCycle_settle id r s :
  loadingIffNoCycle s → loadingIffNoCycle (settle id r s).
Proof.
  intros Hs. unfold settle. destruct (findCycle id s) as [cy|] eqn:Hf;
    [|exact Hs].
  assert (Hpos : 0 < nextCycle s).
  { destruct (Nat.eq_dec (nextCycle s) 0) as [Hn|Hn]; [|lia].
    destruct Hs as [H0 _]. destruct (H0 Hn) as [_ Hin].
    unfold findCycle in Hf. rewrite Hin in Hf. discriminate. }
  assert (H1 : loadingIffNoCycle (render (finishCycle cy r (dropCycle id s)))).
  { apply loadingIffNoCycle_render. split.
    - rewrite nextCycle_finishCycle. cbn. lia.
    - intros _. destruct Hs as [_ Hne]. specialize (Hne Hpos).
      destruct r as [g tg|err]; cbn; [discriminate|].
      destruct (isStaleDocument err).
      + rewrite triggerUpdate_detached. exact Hne.
      + cbn. destruct (status_onError err (cells s)) as [-> | ->];
          [exact Hne|discriminate]. }
  destruct (cy_awaiter cy); [exact H1|].
  apply loadingIffNoCycle_render. revert H1.
  apply loadingIffNoCycle_ext; reflexivity.
Qed.

Lemma loadingIffNoCycle_step e s :
  loadingIffNoCycle s → loadingIffNoCycle (step e s).
Proof.
  intros Hs. destruct e as [p|pr|ms|d|id r| |p|act]; cbn [step];
    try (apply loadingIffNoCycle_render; revert Hs;
         apply loadingIffNoCycle_ext; reflexivity).
  - apply loadingIffNoCycle_render. unfold elapse.
    destruct (expire _ _) as [t started].
    apply loadingIffNoCycle_beginCycles. revert Hs.
    apply loadingIffNoCycle_ext; reflexivity.
  - apply loadingIffNoCycle_settle, Hs.
  - apply loadingIffNoCycle_render. revert Hs.
    apply loadingIffNoCycle_ext; unfold triggerUpdate, trigger;
      destruct (waiting (throttle s)); reflexivity.
  - destruct act; [exact Hs|]. case_bool_decide; [|exact Hs].
    apply loadingIffNoCycle_render. revert Hs.
    apply loadingIffNoCycle_ext; reflexivity.
Qed.

Lemma reachable_loadingIffNoCycle s : reachable s → loadingIffNoCycle s.
Proof.
  induction 1 as [e|e s Hs IH]; [|apply loadingIffNoCycle_step, IH].
  unfold mount. apply loadingIffNoCycle_render.
  split; cbn; [auto|lia].
Qed.
End MoreFacts.

(** X2.  In every run at most one timeout of the scheduler is pending, and
    the [waiting] flag is set exactly when one is. *)
Theorem X2_one_timeout `{Collaborators} (e0 : Env) (evs : list Event) :
  let t := throttle (run evs (mount e0)) in
  length (timers t) ≤ 1
  ∧ (waiting t = true ↔ length (timers t) = 1).
Proof.
  intros t. pose proof (reachable_oneTimer _ (reachable_run_mount e0 evs)) as Ht.
  fold t in Ht. unfold oneTimer in Ht. destruct (waiting t).
  - destruct Ht as [tm ->]. cbn. split; [lia|]. split; auto.
  - rewrite Ht. cbn. split; [lia|]. split; [discriminate|lia].
Qed.

(** X3.  The status is [Loading] exactly as long as no cycle has started:
    once the first cycle has begun, no run brings [Loading] back. *)
Theorem X3_loading_only_before_first_cycle `{Collaborators}
    (e0 : Env) (evs : list Event) :
  let s := run evs (mount e0) in
  status (cells s) = Loading ↔ nextCycle s = 0.
Proof.
  intros s.
  destruct (reachable_loadingIffNoCycle s (reachable_run_mount e0 evs))
    as [H0 Hpos].
  split.
  - intros Hl. destruct (nextCycle s) eqn:Hn; [reflexivity|].
    exfalso. apply Hpos; [lia|exact Hl].
  - intros Hn. apply H0, Hn.
Qed.

(** ** Events that do not move the view *)

Section QuietEvents.
Context `{Collaborators}.

Lemma throttle_eta {CB W} (t : Throttled CB W) :
  mkThrottled (waiting t) (callbackRef t) (timers t) = t.
Proof. destruct t; reflexivity. Qed.

(** A render after a change of the props and contexts that leaves the
    dependencies of the effect and the callback as they were. *)
Lemma render_same_deps s v :
  afterRender s →
  pos v = pos (env s) →
  hasWidgetsV1 v = hasWidgetsV1 (env s) →
  useIsProcessingAt (allProgress v) (pos v) = serverIsProcessing s →
  throttle (render (withEnv v s)) = throttle s
  ∧ inflight (render (withEnv v s)) = inflight s
  ∧ nextCycle (render (withEnv v s)) = nextCycle s
  ∧ cells (render (withEnv v s)) = cells s.
Proof.
  intros Hs Hp Hw Hb.
  assert (Hcb : currentCallback (withEnv v s) = currentCallback s).
  { unfold currentCallback, delay. f_equal; [exact Hp|exact Hw|].
    f_equal. exact Hb. }
  split; [|split; [|split]].
  - rewrite throttle_render. cbn zeta. rewrite Hcb.
    change (effectDeps (withEnv v s)) with (effectDeps s).
    change (throttle (withEnv v s)) with (throttle s).
    change (serverIsProcessing (withEnv v s))
      with (useIsProcessingAt (allProgress v) (pos v)).
    change (pos (env (withEnv v s))) with (pos v).
    rewrite Hb, Hp, (ar_deps _ Hs).
    rewrite bool_decide_eq_true_2 by reflexivity.
    unfold useDelayedThrottled. rewrite <- (ar_callback _ Hs).
    apply throttle_eta.
  - rewrite inflight_render. reflexivity.
  - rewrite nextCycle_render. reflexivity.
  - rewrite cells_render. apply commit_unchanged, Hs.
Qed.

Lemma env_eta (v : Env) :
  mkEnv (kind v) (pos v) (hasWidgetsV1 v) (allProgress v) (messages v) = v.
Proof. destruct v; reflexivity. Qed.

Lemma withEnv_same s : withEnv (env s) s = s.
Proof. destruct s; reflexivity. Qed.

Lemma useIsProcessingAt_other_document
    (progress : gmap string (list LeanFileProgressProcessingInfo))
    (u : string) (l : list LeanFileProgressProcessingInfo)
    (p : DocumentPosition) :
  u ≠ uri p →
  useIsProcessingAt (<[u := l]> progress) p = useIsProcessingAt progress p
  ∧ useIsProcessingAt (delete u progress) p = useIsProcessingAt progress p.
Proof.
  intros Hne. unfold useIsProcessingAt.
  rewrite lookup_insert_ne, lookup_delete_ne by exact Hne. auto.
Qed.
End QuietEvents.

Lemma quiet_events `{Collaborators} (s : State) :
  reachable s →
  (∀ ms, schedulesNothing (MessagesChanged ms) s)
  ∧ schedulesNothing (PositionChanged (pos (env s))) s
  ∧ (∀ pr, useIsProcessingAt pr (pos (env s)) = serverIsProcessing s →
           schedulesNothing (ProgressChanged pr) s).
Proof.
  intros Hr. pose proof (reachable_afterRender s Hr) as Hs.
  unfold schedulesNothing. split; [|split].
  - intros ms. cbn [step]. apply render_same_deps; auto.
  - cbn [step]. apply render_same_deps; auto.
  - intros pr Hpr. cbn [step]. apply render_same_deps; auto.
Qed.

(** X4.  New messages, a report of the position the view already tracks,
    and a progress report under which that position is as busy as before
    schedule no cycle: the scheduler, the cycles in flight and the cells are
    left as they were. *)
Theorem X4_no_fetch_without_change `{Collaborators} (s : State) :
  reachable s →
  (∀ ms, schedulesNothing (MessagesChanged ms) s)
  ∧ schedulesNothing (PositionChanged (pos (env s))) s
  ∧ (∀ pr, useIsProcessingAt pr (pos (env s)) = serverIsProcessing s →
           schedulesNothing (ProgressChanged pr) s).
Proof. apply quiet_events. Qed.

(** X5.  A progress report that differs from the current one only in the
    entry of another document changes neither the delay nor the schedule;
    and a position whose document has no entry, or an empty one, is not
    being processed. *)
Theorem X5_progress_of_other_documents `{Collaborators} (s : State)
    (u : string) (l : list LeanFileProgressProcessingInfo) :
  reachable s →
  u ≠ uri (pos (env s)) →
  schedulesNothing (ProgressChanged (<[u := l]> (allProgress (env s)))) s
  ∧ schedulesNothing (ProgressChanged (delete u (allProgress (env s)))) s
  ∧ delay (step (ProgressChanged (<[u := l]> (allProgress (env s)))) s)
    = delay s
  ∧ (∀ progress p, progress !! uri p = None →
       useIsProcessingAt progress p = false)
  ∧ (∀ progress p, useIsProcessingAt (<[uri p := []]> progress) p = false).
Proof.
  intros Hr Hne.
  destruct (quiet_events s Hr) as (_ & _ & Hq).
  destruct (useIsProcessingAt_other_document (allProgress (env s)) u l
              (pos (env s)) Hne) as [Hi Hd].
  split; [apply Hq, Hi|]. split; [apply Hq, Hd|]. split; [|split].
  - unfold delay, serverIsProcessing. cbn [step]. rewrite env_render. cbn.
    rewrite Hi. reflexivity.
  - intros progress p Hnone. unfold useIsProcessingAt. rewrite Hnone.
    reflexivity.
  - intros progress p. unfold useIsProcessingAt.
    rewrite lookup_insert_eq. reflexivity.
Qed.

(** ** A move of the tracked position *)

Lemma position_change_facts `{Collaborators} (s : State) (p : DocumentPosition) :
  reachable s →
  p ≠ pos (env s) →
  let s' := step (PositionChanged p) s in
  cells s' = cells s
  ∧ callbackRef (throttle s')
    = Some (mkCallback p (hasWidgetsV1 (env s))
              (throttleDelay (useIsProcessingAt (allProgress (env s)) p)))
  ∧ waiting (throttle s') = true
  ∧ timers (throttle s')
    = (if waiting (throttle s) then timers (throttle s)
       else [mkTimer (clock s
                      + throttleDelay
                          (useIsProcessingAt (allProgress (env s)) p))
                     Detached])
  ∧ inflight s' = inflight s.
Proof.
  intros Hr Hne s'. subst s'. cbn [step].
  pose proof (reachable_afterRender s Hr) as Hs.
  pose proof (reachable_oneTimer s Hr) as Ht.
  set (v := mkEnv (kind (env s)) p (hasWidgetsV1 (env s))
                  (allProgress (env s)) (messages (env s))).
  assert (Hc : cells (render (withEnv v s)) = cells s).
  { rewrite cells_render. apply commit_unchanged, Hs. }
  assert (Hthr : throttle (render (withEnv v s))
                 = (trigger (clock s) (delay (withEnv v s)) Detached
                      (useDelayedThrottled (currentCallback (withEnv v s))
                         (throttle s))).1).
  { rewrite throttle_render. cbn zeta.
    rewrite bool_decide_eq_false_2; [reflexivity|].
    change (effectDeps (withEnv v s)) with (effectDeps s).
    rewrite (ar_deps _ Hs). cbn. intros Heq. inversion Heq. congruence. }
  split; [exact Hc|].
  rewrite Hthr. unfold trigger, useDelayedThrottled. cbn [waiting].
  unfold oneTimer in Ht. destruct (waiting (throttle s)) eqn:Hw; cbn.
  - repeat split. rewrite inflight_render. reflexivity.
  - rewrite Ht. repeat split. rewrite inflight_render. reflexivity.
Qed.

(** X6.  When the tracked position changes, and with it the messages, which
    [InfoAux] reads for the new position, the position, goals, term goal
    and error that are displayed do not change with it: the cells, the
    committed display props and the status stay as they were, and only the
    messages handed to the view are the new ones.  The scheduler holds the
    callback for the new position and has a cycle pending, set by this event
    (due after the delay of the new position) unless one was pending
    already. *)
Theorem X6_position_change `{Collaborators} (s : State) (p : DocumentPosition)
    (ms : list InteractiveDiagnostic) :
  reachable s →
  p ≠ pos (env s) →
  let s' := run [PositionChanged p; MessagesChanged ms] s in
  cells s' = cells s
  ∧ p_display (infoDisplayProps s') = p_display (infoDisplayProps s)
  ∧ p_status (infoDisplayProps s') = p_status (infoDisplayProps s)
  ∧ p_messages (infoDisplayProps s') = ms
  ∧ pos (env s') = p
  ∧ callbackRef (throttle s')
    = Some (mkCallback p (hasWidgetsV1 (env s))
              (throttleDelay (useIsProcessingAt (allProgress (env s)) p)))
  ∧ waiting (throttle s') = true
  ∧ timers (throttle s')
    = (if waiting (throttle s) then timers (throttle s)
       else [mkTimer (clock s
                      + throttleDelay
                          (useIsProcessingAt (allProgress (env s)) p))
                     Detached])
  ∧ inflight s' = inflight s.
Proof.
  intros Hr Hne s'. subst s'.
  change (run [PositionChanged p; MessagesChanged ms] s)
    with (step (MessagesChanged ms) (step (PositionChanged p) s)).
  destruct (position_change_facts s p Hr Hne) as (Hc & Hcb & Hw & Ht & Hi).
  assert (Hr1 : reachable (step (PositionChanged p) s))
    by (apply reachable_step, Hr).
  destruct (quiet_events _ Hr1) as (Hq & _).
  destruct (Hq ms) as (Hthr & Hinf & _ & Hcells).
  assert (Henv : env (step (MessagesChanged ms) (step (PositionChanged p) s))
                 = mkEnv (kind (env s)) p (hasWidgetsV1 (env s))
                         (allProgress (env s)) ms).
  { cbn [step]. rewrite !env_render. reflexivity. }
  unfold infoDisplayProps. cbn [p_display p_status p_messages].
  rewrite Hthr, Hinf, Hcells, Henv, Hc, Hcb, Hw, Ht, Hi. repeat split.
Qed.

(** ** Where the error message comes from *)

Section ErrorProvenance.
Context `{Collaborators}.

Lemma errorFromRun_snoc e0 evs e o :
  errorFromRun e0 evs o → errorFromRun e0 (evs ++ [e]) o.
Proof.
  intros [Ho|(m & (pre & id & cy & err & post & Hevs & Hrest) & Ho)];
    [left; exact Ho|].
  right. exists m. split; [|exact Ho].
  exists pre, id, cy, err, (post ++ [e]). split; [|exact Hrest].
  rewrite Hevs, <- app_assoc. reflexivity.
Qed.

Lemma error_beginCycles started s :
  error (cells (fold_left (λ acc cw, beginCycle cw acc) started s))
  = error (cells s).
Proof.
  revert s. induction started as [|cw l IH]; intros s; [reflexivity|].
  cbn [fold_left]. rewrite IH. reflexivity.
Qed.

(** What one event does to the error cell and to the committed error. *)
Lemma errors_step e s :
  afterRender s →
  let s' := step e s in
  (error (cells s') = error (cells s)
   ∨ error (cells s') = None
   ∨ ∃ id cy err m, e = Settle id (Rejected err)
                    ∧ findCycle id s = Some cy
                    ∧ isStaleDocument err = false
                    ∧ errS err = Some m
                    ∧ m ≠ "{}"%string
                    ∧ error (cells s') = Some (errorMessage m))
  ∧ (dp_error (displayProps (cells s')) = dp_error (displayProps (cells s))
     ∨ dp_error (displayProps (cells s')) = error (cells s')).
Proof.
  intros Hs s'. subst s'. pose proof (ar_committed _ Hs) as Hc.
  assert (Hsame : ∀ x, cells x = cells s →
              error (cells (render x)) = error (cells s)
              ∧ dp_error (displayProps (cells (render x)))
                = dp_error (displayProps (cells s))).
  { intros x Hx. rewrite cells_render, Hx, commit_unchanged by exact Hc.
    auto. }
  destruct e as [p|pr|ms|d|id r| |p|act]; cbn [step].
  - destruct (Hsame (withEnv (mkEnv (kind (env s)) p (hasWidgetsV1 (env s))
                         (allProgress (env s)) (messages (env s))) s));
      auto.
  - destruct (Hsame (withEnv (mkEnv (kind (env s)) (pos (env s))
                         (hasWidgetsV1 (env s)) pr (messages (env s))) s));
      auto.
  - destruct (Hsame (withEnv (mkEnv (kind (env s)) (pos (env s))
                         (hasWidgetsV1 (env s)) (allProgress (env s)) ms) s));
      auto.
  - rewrite cells_render. unfold elapse. destruct (expire _ _) as [t started].
    destruct (cells_beginCycles started
                (withThrottle t (withClock (clock s + d) s))) as (_ & H2 & H3).
    rewrite commit_unchanged by (rewrite H3; exact Hc).
    rewrite H2, error_beginCycles. auto.
  - destruct (findCycle id s) as [cy|] eqn:Hf;
      [|unfold settle; rewrite Hf; auto].
    destruct (commits r) eqn:Hcm.
    + rewrite (cells_settle id cy r s Hf Hcm). cbn. split; [|auto].
      destruct r as [g tg|err]; cbn; [auto|].
      cbn in Hcm. apply negb_true_iff in Hcm.
      unfold onError. destruct (errS err) as [m|] eqn:Hm; [|auto].
      case_bool_decide as Hb; [auto|].
      right; right. exists id, cy, err, m. auto 10.
    + destruct r as [g tg|err]; [discriminate|]. cbn in Hcm.
      apply negb_false_iff in Hcm.
      rewrite (settle_stale id cy err s Hs Hf Hcm). cbn zeta.
      destruct (cy_awaiter cy); auto.
  - destruct (Hsame (triggerUpdate (delay s) DisplayRefresh s)); [|auto].
    unfold triggerUpdate, trigger.
    destruct (waiting (throttle s)); reflexivity.
  - destruct (Hsame (updDisplay (setPaused p) s)); auto.
  - destruct act; [auto|]. case_bool_decide; [|auto].
    destruct (Hsame (updDisplay (setPaused (negb (isPaused (display s)))) s));
      auto.
Qed.

Lemma error_provenance e0 evs :
  let s := run evs (mount e0) in
  errorFromRun e0 evs (error (cells s))
  ∧ errorFromRun e0 evs (dp_error (displayProps (cells s))).
Proof.
  induction evs as [|e evs IH] using rev_ind.
  - cbn zeta. change (run [] (mount e0)) with (mount e0).
    split; left; reflexivity.
  - cbn zeta in *. rewrite run_snoc.
    set (s := run evs (mount e0)) in *.
    assert (Hs : afterRender s) by apply afterRender_run, afterRender_mount.
    destruct IH as (IHc & IHd).
    destruct (errors_step e s Hs) as [Hc Hd]. cbn zeta in Hc, Hd.
    assert (Hc' : errorFromRun e0 (evs ++ [e]) (error (cells (step e s)))).
    { destruct Hc as [->|[->|(id & cy & err & m & -> & Hf & Hst & Hm & Hne & ->)]].
      - apply errorFromRun_snoc, IHc.
      - left; reflexivity.
      - right. exists m. split; [|reflexivity].
        exists evs, id, cy, err, []. auto. }
    split; [exact Hc'|].
    destruct Hd as [->| ->]; [apply errorFromRun_snoc, IHd|exact Hc'].
Qed.
End ErrorProvenance.

(** X7.  In every run the error message, in the cell and in the committed
    display props, is unset or is ["Error fetching goals: "] followed by the
    text of a rejection of the run that was neither the stale-document code
    nor empty: a stale-document failure never becomes a message, however
    often it is retried. *)
Theorem X7_error_from_a_rejection `{Collaborators}
    (e0 : Env) (evs : list Event) :
  let s := run evs (mount e0) in
  errorFromRun e0 evs (error (cells s))
  ∧ errorFromRun e0 evs (dp_error (displayProps (cells s)))
  ∧ errorFromRun e0 evs (dp_error (p_display (infoDisplayProps s))).
Proof.
  intros s. destruct (error_provenance e0 evs) as [Hc Hd].
  split; [exact Hc|]. split; exact Hd.
Qed.

(** ** What the view never shows together *)

(** X8.  The error banner is never shown together with goals, term goal or
    messages, and "No info found." (or the pause hint) is shown only when
    none of the sections is. *)
Theorem X8_sections_exclusive `{Collaborators}
    (props : InfoDisplayProps) (ws : option (list UserWidget)) :
  let v := InfoDisplay props ws in
  (hasError v = true →
     hasGoals v = false ∧ hasTermGoal v = false ∧ hasMessages v = false)
  ∧ (nothingToShow v = true →
       hasError v = false ∧ hasGoals v = false ∧ hasTermGoal v = false
       ∧ hasMessages v = false ∧ hasWidget v = false).
Proof.
  intros v. subst v. unfold InfoDisplay; cbn. split.
  - intros He. apply andb_true_iff in He as [Hst _]. rewrite Hst. auto.
  - destruct ws as [[|w l]|];
      destruct (bool_decide (p_status props = Error)),
        (truthy (dp_error (p_display props))),
        (bool_decide (is_Some (dp_goals (p_display props)))),
        (bool_decide (is_Some (dp_termGoal (p_display props)))),
        (length (p_messages props) =? 0);
      cbn; intros Hn; try discriminate Hn; auto 10.
Qed.

(** X9.  A fulfilled cycle, whatever its results, does not clear the error
    cell: the message is committed again with the results.  When a cycle is
    fulfilled without goals and term goal while an earlier message is still
    set and there are neither messages nor widgets, a view that is not
    paused, or whose refresh request the cycle answers, has the status
    [Ready] and shows no section at all, and not "No info found." either,
    because the message left in the props keeps [nothingToShow] false. *)
Theorem X9_leftover_error_blanks_view `{Collaborators} id cy s :
  reachable s →
  findCycle id s = Some cy →
  (∀ g tg,
     let s' := step (Settle id (Fulfilled g tg)) s in
     error (cells s') = error (cells s)
     ∧ dp_error (displayProps (cells s')) = error (cells s)
     ∧ status (cells s') = Ready)
  ∧ (truthy (error (cells s)) = true →
     messages (env s) = [] →
     isPaused (display s) = false ∨ cy_awaiter cy = DisplayRefresh →
     let s' := step (Settle id (Fulfilled None None)) s in
     let v := InfoDisplay (rendered s') None in
     p_status (rendered s') = Ready
     ∧ hasError v = false ∧ hasGoals v = false ∧ hasTermGoal v = false
     ∧ hasMessages v = false ∧ hasWidget v = false
     ∧ nothingToShow v = false).
Proof.
  intros Hr Hf. pose proof (reachable_afterRender s Hr) as Hs. split.
  - intros g tg s'. subst s'. cbn [step].
    rewrite (cells_settle id cy _ s Hf) by reflexivity. repeat split.
  - intros Herr Hm Hshown s' v. subst v s'. cbn [step].
    assert (Hrend := rendered_settle id cy (Fulfilled None None) s Hf
                       eq_refl (ar_refreshed _ Hs)).
    assert (Heq : rendered (settle id (Fulfilled None None) s)
                  = infoDisplayProps (settle id (Fulfilled None None) s)).
    { rewrite Hrend. destruct (cy_awaiter cy); [|reflexivity].
      destruct Hshown as [-> |Hw]; [reflexivity|discriminate Hw]. }
    rewrite Heq. unfold infoDisplayProps, InfoDisplay.
    rewrite env_settle, Hm.
    rewrite (cells_settle id cy _ s Hf) by reflexivity. cbn.
    rewrite Herr. repeat split.
Qed.

(** ** The stale-document retry, continued *)

Lemma stale_retry_facts `{Collaborators} id cy err s :
  reachable s →
  findCycle id s = Some cy →
  isStaleDocument err = true →
  let s' := step (Settle id (Rejected err)) s in
  cells s' = cells s
  ∧ inflight s' = inflight (dropCycle id s)
  ∧ nextCycle s' = nextCycle s
  ∧ throttle s'
    = (if waiting (throttle s) then throttle s
       else mkThrottled true (Some (currentCallback s))
              [mkTimer (clock s + cb_ms (cy_cb cy)) Detached])
  ∧ clock s' = clock s.
Proof.
  intros Hr Hf Hstale s'. subst s'. cbn [step].
  pose proof (reachable_afterRender s Hr) as Hs.
  pose proof (reachable_oneTimer s Hr) as Ht.
  rewrite (settle_stale id cy err s Hs Hf Hstale). cbn zeta.
  assert (Hthr : (trigger (clock s) (cb_ms (cy_cb cy)) Detached (throttle s)).1
                 = if waiting (throttle s) then throttle s
                   else mkThrottled true (Some (currentCallback s))
                          [mkTimer (clock s + cb_ms (cy_cb cy)) Detached]).
  { unfold trigger. unfold oneTimer in Ht.
    destruct (waiting (throttle s)); [reflexivity|]. cbn.
    rewrite Ht, (ar_callback _ Hs). reflexivity. }
  destruct (cy_awaiter cy); cbn; rewrite Hthr; repeat split.
Qed.

(** X10.  When a cycle fails with code -32801 while no other cycle is
    pending, and the delay it was built with passes, exactly one new cycle
    is in flight in its place: it has the next identifier, nobody awaits
    it, and it runs the callback of the latest render.  The status is
    [Updating]; error, goals and display props are those from before the
    failure. *)
Theorem X10_stale_retry_refetches `{Collaborators} id cy err d s :
  reachable s →
  findCycle id s = Some cy →
  isStaleDocument err = true →
  waiting (throttle s) = false →
  cb_ms (cy_cb cy) ≤ d →
  let s' := run [Settle id (Rejected err); Elapse d] s in
  inflight s'
  = inflight (dropCycle id s)
    ++ [mkCycle (nextCycle s) (currentCallback s) Detached]
  ∧ nextCycle s' = S (nextCycle s)
  ∧ status (cells s') = Updating
  ∧ error (cells s') = error (cells s)
  ∧ goals (cells s') = goals (cells s)
  ∧ termGoal (cells s') = termGoal (cells s)
  ∧ displayProps (cells s') = displayProps (cells s)
  ∧ waiting (throttle s') = false.
Proof.
  intros Hr Hf Hstale Hw Hd s'. subst s'.
  change (run [Settle id (Rejected err); Elapse d] s)
    with (step (Elapse d) (step (Settle id (Rejected err)) s)).
  destruct (stale_retry_facts id cy err s Hr Hf Hstale)
    as (Hc & Hi & Hn & Ht & Hclk).
  rewrite Hw in Ht.
  assert (H1 : afterRender (step (Settle id (Rejected err)) s))
    by (apply afterRender_step, reachable_afterRender, Hr).
  remember (step (Settle id (Rejected err)) s) as s1 eqn:Es1.
  assert (He : elapse d s1
               = beginCycle (currentCallback s, Detached)
                   (withThrottle
                      (mkThrottled false (Some (currentCallback s)) [])
                      (withClock (clock s1 + d) s1))).
  { unfold elapse. cbn [clock withClock throttle withThrottle].
    rewrite Ht, expire_due by (cbn; lia). reflexivity. }
  clear Es1.
  cbn [step]. rewrite He.
  rewrite inflight_render, nextCycle_render, cells_render, throttle_render.
  cbn [beginCycle inflight nextCycle cells withNextCycle withInflight
       updCells withCells withThrottle withClock env throttle effectDeps
       clock].
  rewrite commit_unchanged
    by (cbn; rewrite Hc; apply (reachable_afterRender s Hr)).
  rewrite Hi, Hn, Hc. cbn.
  rewrite bool_decide_eq_true_2 by apply (ar_deps _ H1).
  repeat split.
Qed.

(** ** The kind of a view *)

Section Kind.
Context `{Collaborators}.

Lemma env_beginCycles started s :
  env (fold_left (λ acc cw, beginCycle cw acc) started s) = env s.
Proof.
  revert s. induction started as [|cw l IH]; intros s; [reflexivity|].
  cbn [fold_left]. rewrite IH. reflexivity.
Qed.

Lemma kind_step e s : kind (env (step e s)) = kind (env s).
Proof.
  destruct e as [p|pr|ms|d|id r| |p|act]; cbn [step];
    try (rewrite env_render; reflexivity).
  - rewrite env_render. unfold elapse. destruct (expire _ _) as [t started].
    rewrite env_beginCycles. reflexivity.
  - rewrite env_settle. reflexivity.
  - rewrite env_render. unfold triggerUpdate, trigger.
    destruct (waiting (throttle s)); reflexivity.
  - destruct act; [reflexivity|]. case_bool_decide; [|reflexivity].
    rewrite env_render. reflexivity.
Qed.

Lemma dp_kind_commit v c :
  dp_kind (displayProps c) = kind v →
  dp_kind (displayProps (commit v c)) = kind v.
Proof. unfold commit. destruct (shouldUpdateDisplay c); auto. Qed.

(** The kind in the committed props is the kind of the view. *)
Lemma dp_kind_step e s :
  afterRender s →
  dp_kind (displayProps (cells s)) = kind (env s) →
  dp_kind (displayProps (cells (step e s))) = kind (env s).
Proof.
  intros Hs Hk. pose proof (ar_committed _ Hs) as Hc.
  assert (Hsame : ∀ x, cells x = cells s →
              dp_kind (displayProps (cells (render x))) = kind (env s)).
  { intros x Hx. rewrite cells_render, Hx, commit_unchanged by exact Hc.
    exact Hk. }
  destruct e as [p|pr|ms|d|id r| |p|act]; cbn [step];
    try (apply Hsame; reflexivity).
  - rewrite cells_render. unfold elapse. destruct (expire _ _) as [t started].
    destruct (cells_beginCycles started
                (withThrottle t (withClock (clock s + d) s))) as (_ & H2 & H3).
    rewrite commit_unchanged by (rewrite H3; exact Hc).
    rewrite H2. exact Hk.
  - destruct (findCycle id s) as [cy|] eqn:Hf;
      [|unfold settle; rewrite Hf; exact Hk].
    destruct (commits r) eqn:Hcm.
    + rewrite (cells_settle id cy r s Hf Hcm). reflexivity.
    + destruct r as [g tg|err]; [discriminate|]. cbn in Hcm.
      apply negb_false_iff in Hcm.
      rewrite (settle_stale id cy err s Hs Hf Hcm). cbn zeta.
      destruct (cy_awaiter cy); exact Hk.
  - apply Hsame. unfold triggerUpdate, trigger.
    destruct (waiting (throttle s)); reflexivity.
  - destruct act; [exact Hk|]. case_bool_decide; [|exact Hk].
    apply Hsame. reflexivity.
Qed.

Lemma reachable_kind s :
  reachable s →
  dp_kind (displayProps (cells s)) = kind (env s)
  ∧ dp_kind (p_display (rendered s)) = kind (env s).
Proof.
  induction 1 as [e|e s Hs [IHd IHr]].
  - split; reflexivity.
  - pose proof (reachable_afterRender s Hs) as Ha.
    rewrite kind_step.
    assert (Hd := dp_kind_step e s Ha IHd).
    split; [exact Hd|].
    destruct (rendered_step e s Ha) as [-> | ->]; [exact IHr|exact Hd].
Qed.

Lemma kind_run evs s : kind (env (run evs s)) = kind (env s).
Proof.
  revert s. induction evs as [|e evs IH]; intros s; [reflexivity|].
  change (run (e :: evs) s) with (run evs (step e s)).
  rewrite IH. apply kind_step.
Qed.
End Kind.

(** X11.  A pinned view never reacts to the actions that the editor
    requests: in every run of a view mounted with kind [Pin], both
    [copyToComment] and [togglePaused] leave the state as it is and hand
    nothing to the editor. *)
Theorem X11_pinned_ignores_editor_actions `{Collaborators}
    (e0 : Env) (evs : list Event) (act : EditorAction) :
  kind e0 = Pin →
  let s := run evs (mount e0) in
  step (RequestedAction act) s = s
  ∧ editorCalls (RequestedAction act) s = [].
Proof.
  intros Hk s.
  destruct (reachable_kind s (reachable_run_mount e0 evs)) as [_ Hr].
  assert (Hpin : dp_kind (p_display (rendered s)) = Pin).
  { rewrite Hr. subst s. rewrite kind_run.
    unfold mount. rewrite env_render. exact Hk. }
  destruct act; cbn; rewrite Hpin; split; reflexivity.
Qed.

(** ** The cursor location *)

(** X12.  The cursor view follows the start of the reported range only:
    an undefined location and a location whose start is the tracked position
    leave the state untouched (no fetch is scheduled), two locations with
    the same document and start have the same effect whatever their ends,
    and a pinned view ignores every location. *)
Theorem X12_cursor_location `{Collaborators} (s : State) :
  reachable s →
  changedCursorLocation None s = s
  ∧ (∀ l, cursorPos l = pos (env s) → changedCursorLocation (Some l) s = s)
  ∧ (∀ l l', loc_uri l = loc_uri l' →
             range_start (loc_range l) = range_start (loc_range l') →
             changedCursorLocation (Some l) s
             = changedCursorLocation (Some l') s)
  ∧ (kind (env s) = Pin → ∀ loc, changedCursorLocation loc s = s).
Proof.
  intros Hr. pose proof (reachable_afterRender s Hr) as Hs.
  unfold changedCursorLocation. split; [|split; [|split]].
  - destruct (kind (env s)); reflexivity.
  - intros l Hl. destruct (kind (env s)); [|reflexivity].
    cbn [step]. rewrite Hl, env_eta, withEnv_same.
    apply render_idempotent, Hs.
  - intros l l' Hu Hst. unfold cursorPos. rewrite Hu, Hst. reflexivity.
  - intros -> loc. destruct loc; reflexivity.
Qed.

(** ** The header *)

Ltac from_membership H :=
  decompose [or] H; clear H;
  first [assumption | congruence | contradiction
        | match goal with E : _ = _ |- _ => discriminate E end].
Ltac membership := solve [repeat first [left; reflexivity | right]].

(** X13.  The header shows at most one of the suffixes "(pinned)",
    "(paused)" and "(pinned and paused)", and none exactly when the view is
    neither pinned nor paused; the link that reveals the file location is
    there exactly for a pinned view and the copy link exactly when there are
    goals; the pin, pause and update links are always there. *)
Theorem X13_header `{Collaborators} (props : InfoDisplayProps)
    (isPinned isPaused : bool) :
  length (statusSuffix isPinned isPaused) ≤ 1
  ∧ (statusSuffix isPinned isPaused = []
     ↔ isPinned = false ∧ isPaused = false)
  ∧ (In RevealFileLocationLink (statusBarLinks props)
     ↔ dp_kind (p_display props) = Pin)
  ∧ (In CopyGoalToCommentLink (statusBarLinks props)
     ↔ dp_goals (p_display props) ≠ None)
  ∧ In TogglePinnedLink (statusBarLinks props)
  ∧ In TogglePausedLink (statusBarLinks props)
  ∧ In UpdateLink (statusBarLinks props)
  ∧ NoDup (statusBarLinks props).
Proof.
  split; [destruct isPinned, isPaused; cbn; lia|].
  split; [destruct isPinned, isPaused; cbn; split;
          [discriminate|intros [? ?]; discriminate
          |discriminate|intros [? ?]; discriminate
          |discriminate|intros [? ?]; discriminate
          |auto|auto]|].
  unfold statusBarLinks, copyGoalToComment.
  destruct (dp_goals (p_display props)) as [g|];
    case_bool_decide as Hk; cbn.
  all: split; [split; [intros Hin; from_membership Hin
                      |intros Hk'; first [membership|congruence]]|].
  all: split; [split; [intros Hin; first [discriminate|from_membership Hin]
                      |intros Hg; first [membership|congruence]]|].
  all: split; [membership|]. all: split; [membership|].
  all: split; [membership|].
  all: apply (bool_decide_unpack _); vm_compute; reflexivity.
Qed.

(** ** The goal filters *)

(** X14.  Each of the four filter toggles undoes itself, the toggles can be
    applied in any order, the sort toggle never changes the filter icon, and
    the filter icon is the plain one exactly when the three filters are all
    on, as they are initially. *)
Theorem X14_goal_filters (f : GoalFilterState) :
  toggleReverse (toggleReverse f) = f
  ∧ toggleType (toggleType f) = f
  ∧ toggleInstance (toggleInstance f) = f
  ∧ toggleHiddenAssumption (toggleHiddenAssumption f) = f
  ∧ toggleType (toggleInstance f) = toggleInstance (toggleType f)
  ∧ toggleType (toggleHiddenAssumption f)
    = toggleHiddenAssumption (toggleType f)
  ∧ toggleInstance (toggleHiddenAssumption f)
    = toggleHiddenAssumption (toggleInstance f)
  ∧ toggleReverse (toggleType f) = toggleType (toggleReverse f)
  ∧ toggleReverse (toggleInstance f) = toggleInstance (toggleReverse f)
  ∧ toggleReverse (toggleHiddenAssumption f)
    = toggleHiddenAssumption (toggleReverse f)
  ∧ filterIcon (toggleReverse f) = filterIcon f
  ∧ (filterIcon f = "codicon-filter "%string
     ↔ isType f = true ∧ isInstance f = true ∧ isHiddenAssumption f = true)
  ∧ filterIcon initialFilters = "codicon-filter "%string
  ∧ sortIcon (toggleReverse f) ≠ sortIcon f.
Proof.
  destruct f as [[] [] [] []]; cbn; repeat split; try discriminate;
    try (intros (? & ? & ?); discriminate); auto.
Qed.

(** ** Pausing, continued *)

(** X15.  Pausing and resuming do not reach [InfoAux]: whatever value the
    pause flag is set to, by the link of the header or otherwise, the
    scheduler, the cycles in flight, the cells and the clock are left as
    they are, so scheduled work is neither cancelled nor added, and nothing
    is handed to the editor. *)
Theorem X15_pause_keeps_schedule `{Collaborators} (s : State) (p : bool) :
  reachable s →
  schedulesNothing (ClickPause p) s
  ∧ clock (step (ClickPause p) s) = clock s
  ∧ env (step (ClickPause p) s) = env s
  ∧ throttle (clickLink TogglePausedLink s).1 = throttle s
  ∧ inflight (clickLink TogglePausedLink s).1 = inflight s
  ∧ cells (clickLink TogglePausedLink s).1 = cells s
  ∧ (clickLink TogglePausedLink s).2 = [].
Proof.
  intros Hr. pose proof (reachable_afterRender s Hr) as Hs.
  assert (Hstep : ∀ q, step (ClickPause q) s
                       = withDisplay (renderDisplay (infoDisplayProps s)
                                        (setPaused q (display s))) s).
  { intros q. cbn [step]. unfold updDisplay.
    replace (withDisplay (setPaused q (display s)) s)
      with (withDisplay (setPaused q (display s)) (withThrottle (throttle s) s))
      by (destruct s; reflexivity).
    rewrite render_quiet by (exact Hs || reflexivity).
    destruct s; reflexivity. }
  split; [unfold schedulesNothing; rewrite Hstep; repeat split|].
  split; [rewrite Hstep; reflexivity|].
  split; [rewrite Hstep; reflexivity|].
  cbn [clickLink fst snd]. rewrite Hstep. repeat split.
Qed.

(** * The hover provider *)

(** X16.  The provider answers [null] exactly when the response has no
    record, or a record whose ['full-id'] and [state] are both missing or
    empty. *)
Theorem X16_hover_null (position : Hover.Position)
    (response : Hover.InfoResponse) :
  Hover.onResponse position response = None
  ↔ Hover.record response = None
    ∨ ∃ r, Hover.record response = Some r
           ∧ truthy (Hover.full_id r) = false
           ∧ truthy (Hover.state r) = false.
Proof.
  unfold Hover.onResponse. destruct (Hover.record response) as [r|].
  - destruct (truthy (Hover.full_id r)) eqn:Hf;
      [|destruct (truthy (Hover.state r)) eqn:Hs].
    + split; [discriminate|].
      intros [Hn|(r' & Hr & Hf' & _)]; [discriminate|].
      inversion Hr; subst. congruence.
    + split; [discriminate|].
      intros [Hn|(r' & Hr & _ & Hs')]; [discriminate|].
      inversion Hr; subst. congruence.
    + split; [|reflexivity]. intros _. right. exists r. auto.
  - split; auto.
Qed.

Lemma truthy_jsString o : truthy o = true → Hover.jsString o ≠ EmptyString.
Proof.
  destruct o as [s|]; cbn; [|discriminate].
  case_bool_decide; [discriminate|auto].
Qed.

Lemma append_nonempty (a b : string) : a ≠ EmptyString → (a +:+ b)%string ≠ EmptyString.
Proof. destruct a; [congruence|discriminate]. Qed.

(** X17.  A hover that the provider returns is marked as Lean code, is
    never empty, and sits on the empty range at the position asked for, not
    at the start of the identifier where the server was queried.  Its text
    is ['full-id' : type] when the record has a ['full-id'], whatever its
    [state]; otherwise it is the [state]. *)
Theorem X17_hover_contents
    (identifierStart : Hover.TextDocument → Hover.Position → Hover.Position)
    (info : string → nat → nat → Hover.InfoResponse)
    (document : Hover.TextDocument) (position : Hover.Position)
    (h : Hover.HoverResult) :
  Hover.provideHover identifierStart info document position = Some h →
  Hover.language (Hover.contents h) = "lean"%string
  ∧ Hover.value (Hover.contents h) ≠ EmptyString
  ∧ Hover.range h
    = Hover.mkVsRange (Hover.line position) (Hover.character position)
                      (Hover.line position) (Hover.character position)
  ∧ ∃ r,
      Hover.record
        (info (Hover.fileName document)
              (Hover.line (identifierStart document position) + 1)
              (Hover.character (identifierStart document position)))
      = Some r
      ∧ Hover.value (Hover.contents h)
        = (if truthy (Hover.full_id r)
           then (Hover.jsString (Hover.full_id r) +:+ " : "
                 +:+ Hover.jsString (Hover.type r))%string
           else Hover.jsString (Hover.state r)).
Proof.
  unfold Hover.provideHover, Hover.onResponse.
  destruct (Hover.record _) as [r|]; [|discriminate].
  destruct (truthy (Hover.full_id r)) eqn:Hf;
    [|destruct (truthy (Hover.state r)) eqn:Hs; [|discriminate]];
    intros Heq; inversion Heq; subst; cbn.
  - split; [reflexivity|]. split; [apply append_nonempty, truthy_jsString, Hf|].
    split; [reflexivity|]. exists r. rewrite Hf. auto.
  - split; [reflexivity|]. split; [apply truthy_jsString, Hs|].
    split; [reflexivity|]. exists r. rewrite Hf. auto.
Qed.

(** * The older info view *)

(** X18.  [isLoading] is false without a location; with one, it holds
    exactly when a task of the same file has the line strictly between its
    first and its last line.  So a location on the first or last line of
    every task of its file is never loading. *)
Theorem X18_isLoading (tasks : list Legacy.Task) (l : Legacy.Location) :
  Legacy.isLoading tasks None = false
  ∧ (Legacy.isLoading tasks (Some l) = true
     ↔ ∃ t, In t tasks
            ∧ Legacy.task_file_name t = Legacy.file_name l
            ∧ Legacy.pos_line t < Legacy.line l
            ∧ Legacy.line l < Legacy.end_pos_line t)
  ∧ ((∀ t, In t tasks →
           Legacy.task_file_name t = Legacy.file_name l →
           Legacy.line l ≤ Legacy.pos_line t
           ∨ Legacy.end_pos_line t ≤ Legacy.line l) →
     Legacy.isLoading tasks (Some l) = false).
Proof.
  assert (Hiff : Legacy.isLoading tasks (Some l) = true
     ↔ ∃ t, In t tasks
            ∧ Legacy.task_file_name t = Legacy.file_name l
            ∧ Legacy.pos_line t < Legacy.line l
            ∧ Legacy.line l < Legacy.end_pos_line t).
  { unfold Legacy.isLoading. rewrite existsb_exists. split.
    - intros (t & Hin & Hc).
      apply andb_true_iff in Hc as [Hc H3].
      apply andb_true_iff in Hc as [H1 H2].
      apply bool_decide_eq_true_1 in H1.
      apply Nat.ltb_lt in H2, H3. eauto 10.
    - intros (t & Hin & H1 & H2 & H3). exists t. split; [exact Hin|].
      rewrite bool_decide_eq_true_2 by exact H1.
      apply Nat.ltb_lt in H2, H3. rewrite H2, H3. reflexivity. }
  split; [reflexivity|]. split; [exact Hiff|].
  intros Hedge. apply not_true_is_false. rewrite Hiff.
  intros (t & Hin & H1 & H2 & H3). destruct (Hedge t Hin H1); lia.
Qed.

(** ** [useThrottle] *)

Section ThrottleFacts.
Context {T : Type} `{EqDecision T}.
Implicit Types (s : Legacy.Throttle T) (evs : list (Legacy.ThrottleEvent T)).

Lemma throttleSettled_effect delayms s :
  Legacy.th_timeouts s = [] ∨ Legacy.th_t s = true →
  (Legacy.th_t s = true → ∃ dl, Legacy.th_timeouts s = [dl]) →
  Legacy.throttleSettled (Legacy.throttleEffect delayms s).
Proof.
  intros Hto Ht. unfold Legacy.throttleEffect, Legacy.throttleSettled.
  destruct (Legacy.th_t s) eqn:Et; cbn.
  - rewrite Et. apply Ht. reflexivity.
  - case_bool_decide as Hxy; cbn.
    + rewrite Et. destruct Hto as [Hto|Hto]; [auto|discriminate].
    + destruct Hto as [-> |Hto]; [eauto|discriminate].
Qed.

Lemma throttleSettled_step delayms e s :
  Legacy.throttleSettled s → Legacy.throttleSettled (Legacy.throttleStep delayms e s).
Proof.
  intros Hs. destruct e as [x|d]; cbn [Legacy.throttleStep].
  - unfold Legacy.setProp. case_bool_decide; [exact Hs|].
    unfold Legacy.throttleSettled in Hs.
    apply throttleSettled_effect; cbn; destruct (Legacy.th_t s); cbn;
      try tauto; try (intros; discriminate); auto.
  - unfold Legacy.passTime. unfold Legacy.throttleSettled in Hs.
    destruct (Legacy.th_t s) eqn:Et.
    + destruct Hs as [dl Hdl]. rewrite Hdl.
      destruct (decide (dl ≤ Legacy.th_now s + d)) as [Hdue|Hnot].
      * rewrite filter_cons_True by exact Hdue.
        rewrite filter_cons_False by lia. rewrite filter_nil.
        apply throttleSettled_effect; cbn; [auto|discriminate].
      * rewrite filter_cons_False by exact Hnot. rewrite filter_nil.
        unfold Legacy.throttleSettled; cbn. eauto.
    + destruct Hs as [Hy Hto]. rewrite Hto. cbn.
      unfold Legacy.throttleSettled; cbn. auto.
Qed.

Lemma throttleSettled_run delayms evs s :
  Legacy.throttleSettled s → Legacy.throttleSettled (Legacy.throttleRun delayms evs s).
Proof.
  revert s. induction evs as [|e evs IH]; intros s Hs; [exact Hs|].
  apply IH, throttleSettled_step, Hs.
Qed.

(** While the timeout is pending and not due, events change the prop and
    the time, nothing else. *)
Lemma throttle_frozen delayms evs x y now dl :
  now + Legacy.elapsed evs < dl →
  Legacy.throttleRun delayms evs (Legacy.mkThrottle x y true [dl] now)
  = Legacy.mkThrottle (Legacy.lastProp evs x) y true [dl]
                      (now + Legacy.elapsed evs).
Proof.
  revert x now. induction evs as [|[x'|d] evs IH]; intros x now Hlt;
    cbn [Legacy.elapsed Legacy.lastProp] in *.
  - rewrite Nat.add_0_r. reflexivity.
  - change (Legacy.throttleRun delayms (Legacy.SetProp x' :: evs) ?s)
      with (Legacy.throttleRun delayms evs (Legacy.setProp delayms x' s)).
    unfold Legacy.setProp; cbn. case_bool_decide as Hx.
    + subst x'. apply IH, Hlt.
    + unfold Legacy.throttleEffect; cbn. apply IH, Hlt.
  - change (Legacy.throttleRun delayms (Legacy.PassTime d :: evs) ?s)
      with (Legacy.throttleRun delayms evs (Legacy.passTime delayms d s)).
    unfold Legacy.passTime; cbn.
    destruct (decide (dl ≤ now + d)) as [Hdue|_]; [lia|].
    rewrite IH by lia. f_equal. lia.
Qed.
End ThrottleFacts.

(** X19.  In every run of [useThrottle], the throttled value differs from
    the prop only while the throttle flag is set, and the flag is set exactly
    while one timeout is pending: a change is never left behind without a
    timeout that will pick it up. *)
Theorem X19_throttle_never_loses {T : Type} `{EqDecision T}
    (delayms : nat) (x0 : T) (evs : list (Legacy.ThrottleEvent T)) :
  let s := Legacy.throttleRun delayms evs (Legacy.useThrottle x0) in
  (Legacy.th_y s ≠ Legacy.th_x s → Legacy.th_t s = true)
  ∧ (Legacy.th_t s = true ↔ length (Legacy.th_timeouts s) = 1)
  ∧ length (Legacy.th_timeouts s) ≤ 1.
Proof.
  intros s.
  assert (Hs : Legacy.throttleSettled s).
  { apply throttleSettled_run. split; reflexivity. }
  unfold Legacy.throttleSettled in Hs. destruct (Legacy.th_t s).
  - destruct Hs as [dl ->]. cbn. repeat split; auto.
  - destruct Hs as [Hy ->]. cbn. repeat split; try congruence; try lia;
      discriminate.
Qed.

(** X20.  From rest, a new value of the prop is passed on at once and a
    timeout is set; until it is due the throttled value does not move,
    whatever values follow; when it is due the throttled value becomes the
    last value set, and a new timeout is set exactly when that differs from
    the value passed on first. *)
Theorem X20_throttle_edges {T : Type} `{EqDecision T}
    (delayms d : nat) (x y x1 : T) (now : nat)
    (evs : list (Legacy.ThrottleEvent T)) :
  x1 ≠ x →
  x1 ≠ y →
  Legacy.elapsed evs < delayms →
  delayms ≤ Legacy.elapsed evs + d →
  let s := Legacy.mkThrottle x y false [] now in
  let s1 := Legacy.throttleRun delayms (Legacy.SetProp x1 :: evs) s in
  let s2 := Legacy.passTime delayms d s1 in
  let last := Legacy.lastProp evs x1 in
  s1 = Legacy.mkThrottle last x1 true [now + delayms]
                         (now + Legacy.elapsed evs)
  ∧ s2 = (if bool_decide (last = x1)
          then Legacy.mkThrottle last x1 false []
                                 (now + Legacy.elapsed evs + d)
          else Legacy.mkThrottle last last true
                                 [now + Legacy.elapsed evs + d + delayms]
                                 (now + Legacy.elapsed evs + d)).
Proof.
  intros Hx Hy Hlt Hle s s1 s2 last.
  assert (E1 : s1 = Legacy.mkThrottle last x1 true [now + delayms]
                      (now + Legacy.elapsed evs)).
  { subst s1 s.
    change (Legacy.throttleRun delayms (Legacy.SetProp x1 :: evs) ?s)
      with (Legacy.throttleRun delayms evs (Legacy.setProp delayms x1 s)).
    unfold Legacy.setProp; cbn.
    rewrite bool_decide_eq_false_2 by exact Hx.
    unfold Legacy.throttleEffect; cbn.
    rewrite bool_decide_eq_false_2 by exact Hy. cbn.
    apply throttle_frozen. lia. }
  split; [exact E1|]. subst s2. rewrite E1.
  unfold Legacy.passTime; cbn.
  destruct (decide (now + delayms ≤ now + Legacy.elapsed evs + d))
    as [_|Hnot]; [|lia].
  destruct (decide (now + Legacy.elapsed evs + d < now + delayms))
    as [Hlate|_]; [lia|].
  unfold Legacy.throttleEffect; cbn.
  case_bool_decide; reflexivity.
Qed.

(** ** [updateInfo] *)

(** X21.  A paused view does not update unless forced: the cells are left
    as they are and nothing is sent.  A forced update runs as if the view
    were not paused. *)
Theorem X21_update_pause_gate (loc : option Legacy.Location)
    (a : Legacy.Answers) (c : Legacy.InfoCells) (paused : bool) :
  Legacy.update false true loc a c = (c, [])
  ∧ Legacy.update true paused loc a c = Legacy.update false false loc a c.
Proof.
  split; [reflexivity|].
  unfold Legacy.update, Legacy.updateInfo.
  rewrite andb_false_r. reflexivity.
Qed.

(** X22.  An update that is not held back by the pause and has a location
    asks for the info at that location first and ends with [updating]
    unset.  If every answer arrives, no error is left, the goal state is the
    state of the record, and the widget is the one of the record, the one
    fetched by [get_widget] when the record's widget has no html, or none
    when the record has none. *)
Theorem X22_update_fulfilled (force paused : bool) (l : Legacy.Location)
    (record : option Legacy.InfoRecord) (fetched : option Legacy.WidgetData)
    (c : Legacy.InfoCells) :
  paused && negb force = false →
  let a := Legacy.mkAnswers (Resolves record) (Resolves fetched) in
  let c' := (Legacy.update force paused (Some l) a c).1 in
  let calls := (Legacy.update force paused (Some l) a c).2 in
  Legacy.updating c' = false
  ∧ Legacy.updateError c' = None
  ∧ Legacy.loading c' = Legacy.loading c
  ∧ Legacy.goalState c'
    = match record with Some r => Legacy.rec_state r | None => None end
  ∧ Legacy.widget c'
    = match record with
      | Some (Legacy.mkInfoRecord _ (Some w)) =>
          match Legacy.w_html w with Some _ => Some w | None => fetched end
      | _ => None
      end
  ∧ head calls
    = Some (Legacy.InfoCall (Legacy.file_name l) (Legacy.line l)
                            (Legacy.column l))
  ∧ length calls
    = match record with
      | Some (Legacy.mkInfoRecord _ (Some w)) =>
          match Legacy.w_html w with Some _ => 1 | None => 2 end
      | _ => 1
      end.
Proof.
  intros Hgate a c' calls. subst c' calls a.
  unfold Legacy.update, Legacy.updateInfo. rewrite Hgate.
  destruct record as [[st [w|]]|]; cbn;
    [destruct (Legacy.w_html w); cbn|..]; repeat split.
Qed.

(** X23.  If the info request fails, the update ends with the error set
    and with widget and goal state as they were.  If the info arrives but
    [get_widget] fails, the error is set next to the new goal state and the
    old widget. *)
Theorem X23_update_rejected (force paused : bool) (l : Legacy.Location)
    (e : JsValue) (c : Legacy.InfoCells) :
  paused && negb force = false →
  (∀ wa,
     let c' := (Legacy.update force paused (Some l)
                  (Legacy.mkAnswers (Rejects e) wa) c).1 in
     Legacy.updating c' = false
     ∧ Legacy.updateError c' = Some e
     ∧ Legacy.goalState c' = Legacy.goalState c
     ∧ Legacy.widget c' = Legacy.widget c)
  ∧ (∀ st w,
       Legacy.w_html w = None →
       let c' := (Legacy.update force paused (Some l)
                    (Legacy.mkAnswers
                       (Resolves (Some (Legacy.mkInfoRecord st (Some w))))
                       (Rejects e)) c).1 in
       Legacy.updating c' = false
       ∧ Legacy.updateError c' = Some e
       ∧ Legacy.goalState c' = st
       ∧ Legacy.widget c' = Legacy.widget c).
Proof.
  intros Hgate. split.
  - intros wa. unfold Legacy.update, Legacy.updateInfo. rewrite Hgate.
    cbn. repeat split.
  - intros st w Hw. unfold Legacy.update, Legacy.updateInfo. rewrite Hgate.
    cbn. rewrite Hw. cbn. repeat split.
Qed.

(** X24.  The "Error updating" line is shown exactly when the status is
    ['error'].  After an update whose answers all arrive the status is never
    ['error']; an update without a location sends nothing, clears widget and
    goal state and leaves [updating] set, so that the status stays
    ['updating'] unless the view is loading. *)
Theorem X24_status (truthyError : JsValue → bool) (isPinned : bool)
    (c : Legacy.InfoCells) :
  (Legacy.errorShown truthyError c = true
   ↔ Legacy.status truthyError isPinned c = Legacy.StError)
  ∧ (∀ force paused l record fetched,
       paused && negb force = false →
       Legacy.status truthyError isPinned
         (Legacy.update force paused (Some l)
            (Legacy.mkAnswers (Resolves record) (Resolves fetched)) c).1
       ≠ Legacy.StError)
  ∧ (∀ force paused a,
       paused && negb force = false →
       Legacy.update force paused None a c
       = (Legacy.mkInfoCells None None true (Legacy.loading c) None, [])
       ∧ Legacy.status truthyError isPinned
           (Legacy.update force paused None a c).1
         = (if Legacy.loading c then Legacy.StLoading else Legacy.StUpdating)).
Proof.
  split; [|split].
  - unfold Legacy.errorShown, Legacy.status.
    destruct (Legacy.loading c), (Legacy.updating c),
      (Legacy.errorSet truthyError c), isPinned; cbn;
      split; (discriminate || reflexivity).
  - intros force paused l record fetched Hgate.
    unfold Legacy.update, Legacy.updateInfo, Legacy.status, Legacy.errorSet.
    rewrite Hgate.
    destruct record as [[st [w|]]|]; cbn;
      [destruct (Legacy.w_html w); cbn|..];
      destruct (Legacy.loading c), isPinned; discriminate.
  - intros force paused a Hgate.
    unfold Legacy.update, Legacy.updateInfo, Legacy.status.
    rewrite Hgate. cbn. split; reflexivity.
Qed.

(** ** [copyToComment] and [handleWidgetEvent] *)

(** X25.  [copyToComment] posts nothing exactly when neither the text given
    nor the goal state is a non-empty string.  What it posts is a comment
    block around a non-empty body: the text given if that is non-empty, the
    goal state otherwise. *)
Theorem X25_copy_to_comment (text gs : option string) :
  (Legacy.copyToComment text gs = None
   ↔ truthy text = false ∧ truthy gs = false)
  ∧ (∀ posted, Legacy.copyToComment text gs = Some posted →
       ∃ body, body ≠ EmptyString
         ∧ posted = ("/-" +:+ Legacy.nl +:+ body +:+ Legacy.nl +:+ "-/"
                     +:+ Legacy.nl)%string
         ∧ (if truthy text then text = Some body else gs = Some body)).
Proof.
  unfold Legacy.copyToComment, Legacy.textOrGoal. split.
  - destruct (truthy text) eqn:Et.
    + rewrite Et. split; [discriminate|]. intros [H _]; discriminate H.
    + destruct (truthy gs); split; try discriminate; auto.
      intros [_ H]; discriminate H.
  - intros posted.
    destruct (truthy text) eqn:Et.
    + rewrite Et. intros [= <-]. destruct text as [v|]; [|discriminate Et].
      exists v. cbn in *. split; [|auto].
      case_bool_decide; [discriminate Et|assumption].
    + destruct (truthy gs) eqn:Eg; [|discriminate].
      intros [= <-]. destruct gs as [v|]; [|discriminate Eg].
      exists v. cbn in *. split; [|auto].
      case_bool_decide; [discriminate Eg|assumption].
Qed.

(** X26.  After a widget event, the [widget] cell changes only when the
    answer has a record whose status is ['success'] or ['edit'], and then to
    the widget of the record; [onEdit] is called exactly when the status is
    ['edit'], with the location of the view and the action of the record;
    an ['edit'] sets the cell to the widget of the record even when the
    record has none. *)
Theorem X26_widget_event (l : Legacy.Location)
    (record : option Legacy.EventRecord) (w : option Legacy.WidgetData) :
  let r := Legacy.onEventResult l record w in
  (r.1 ≠ w →
   ∃ rc, record = Some rc ∧ r.1 = Legacy.ev_widget rc
         ∧ (Legacy.ev_status rc = Legacy.Success
            ∨ Legacy.ev_status rc = Legacy.Edit))
  ∧ (∀ l' a, In (Legacy.OnEdit l' a) r.2
             ↔ ∃ rc, record = Some rc ∧ Legacy.ev_status rc = Legacy.Edit
                     ∧ l' = l ∧ a = Legacy.ev_action rc)
  ∧ (∀ rc, record = Some rc → Legacy.ev_status rc = Legacy.Edit →
           r.1 = Legacy.ev_widget rc ∧ r.2 = [Legacy.OnEdit l (Legacy.ev_action rc)]).
Proof.
  intros r. subst r. unfold Legacy.onEventResult. split; [|split].
  - destruct record as [[st w' a]|]; cbn; [|congruence].
    destruct st, w' as [w'|]; cbn; intros H; try congruence;
      eexists; (split; [reflexivity|]); cbn; auto.
  - intros l' a'. split.
    + destruct record as [[st w' a]|]; cbn; [|intros []].
      destruct st, w' as [w'|]; cbn; intros H;
        try (destruct H as [H|[]]; try discriminate H);
        try (destruct H; fail).
      * injection H as <- <-. eexists; (split; [reflexivity|]); cbn; auto.
      * injection H as <- <-. eexists; (split; [reflexivity|]); cbn; auto.
    + intros (rc & -> & Hst & -> & ->). rewrite Hst. left. reflexivity.
  - intros rc -> Hst. rewrite Hst. split; reflexivity.
Qed.

(** * Runs of the model *)

#[local] Existing Instance Sample.collaborators.

(** C1, as stated, fails.  The first cycle is fulfilled and committed; the
    user clicks "update" and the second cycle starts.  The view, which is
    not paused, shows the position, the goals and the term goal of the first
    cycle next to the status [Updating], which the second cycle has set: the
    props it reads come entirely from none of the completed cycles. *)
Lemma C1_counterexample :
  history Runs.updatedAgain (mount Sample.env0)
  = [(Runs.cycle0, Fulfilled (Some Sample.g1) (Some Sample.t1))]
  ∧ inflight (run Runs.updatedAgain (mount Sample.env0)) = [Runs.cycle1]
  ∧ isPaused (display (run Runs.updatedAgain (mount Sample.env0))) = false
  ∧ rendered (run Runs.updatedAgain (mount Sample.env0))
    = mkProps (mkDisplay Cursor Sample.P1 (Some Sample.g1) (Some Sample.t1)
                 None)
              Updating []
  ∧ ¬ (∃ c, In c (history Runs.updatedAgain (mount Sample.env0))
            ∧ entirelyFrom c (rendered (run Runs.updatedAgain
                                            (mount Sample.env0)))).
Proof.
  assert (Hh : history Runs.updatedAgain (mount Sample.env0)
               = [(Runs.cycle0, Fulfilled (Some Sample.g1) (Some Sample.t1))])
    by (vm_compute; reflexivity).
  assert (Hr : rendered (run Runs.updatedAgain (mount Sample.env0))
               = mkProps (mkDisplay Cursor Sample.P1 (Some Sample.g1)
                            (Some Sample.t1) None)
                         Updating [])
    by (vm_compute; reflexivity).
  split; [exact Hh|]. split; [vm_compute; reflexivity|].
  split; [vm_compute; reflexivity|]. split; [exact Hr|].
  rewrite Hh, Hr. intros (c & Hin & _ & Hc).
  destruct Hin as [<-|[]]. cbn in Hc.
  destruct Hc as (_ & _ & _ & Hst). discriminate Hst.
Qed.

(** C2, as stated, fails.  The cursor view fetches at [P1]; the cursor moves
    to [P2] while the requests are in flight, which leaves a cycle pending;
    the requests fail with code -32801.  The retry call finds the cycle
    pending and adds nothing, no request is in flight after the failure, and
    the one cycle that runs afterwards fetches at [P2]. *)
Lemma C2_counterexample :
  findCycle 0 Runs.moved = Some Runs.cycle0
  ∧ isStaleDocument Sample.contentModified = true
  ∧ ¬ refetchedAtOnce Runs.cycle0
        (step (Settle 0 (Rejected Sample.contentModified)) Runs.moved)
  ∧ timers (throttle (step (Settle 0 (Rejected Sample.contentModified))
                           Runs.moved))
    = timers (throttle Runs.moved)
  ∧ map (λ c, cb_pos (cy_cb c))
        (inflight (run [Settle 0 (Rejected Sample.contentModified); Elapse 50]
                       Runs.moved))
    = [Sample.P2].
Proof.
  assert (Hin : inflight (step (Settle 0 (Rejected Sample.contentModified))
                               Runs.moved) = [])
    by (vm_compute; reflexivity).
  split; [vm_compute; reflexivity|]. split; [reflexivity|]. split.
  - intros (cy' & Hcy' & _). rewrite Hin in Hcy'. destruct Hcy'.
  - split; vm_compute; reflexivity.
Qed.

(** The first cycle of the cursor view fails with code -32801. *)
Lemma C2_stale_retry_witness :
  cells (step (Settle 0 (Rejected Sample.contentModified)) Runs.fetching)
  = cells Runs.fetching
  ∧ inflight (step (Settle 0 (Rejected Sample.contentModified)) Runs.fetching)
    = []
  ∧ timers (throttle (step (Settle 0 (Rejected Sample.contentModified))
                           Runs.fetching))
    = [mkTimer 100 Detached].
Proof.
  destruct (C2_stale_retry 0 Runs.cycle0 Sample.contentModified Runs.fetching)
    as (Hc & _ & Hi & _ & Ht).
  - apply reachable_run, reachable_mount.
  - vm_compute; reflexivity.
  - reflexivity.
  - split; [exact Hc|]. split; [rewrite Hi; vm_compute; reflexivity|].
    rewrite Ht. vm_compute; reflexivity.
Defined.

(** C4, as stated, fails.  The view is paused on the goals of [P1]; behind
    the pause the goals of [P2] have been committed and a cycle for [P3] is
    pending.  A refresh request is answered at once: the view jumps to the
    props held back, those of [P2], and no cycle has run for it.  The cycle
    for [P3] then completes and its result stays behind the pause. *)
Lemma C4_counterexample :
  isPaused (display Runs.pausedPending) = true
  ∧ waiting (throttle Runs.pausedPending) = true
  ∧ dp_pos (p_display (rendered Runs.pausedPending)) = Sample.P1
  ∧ rendered (step ClickUpdate Runs.pausedPending)
    = infoDisplayProps Runs.pausedPending
  ∧ dp_pos (p_display (rendered (step ClickUpdate Runs.pausedPending)))
    = Sample.P2
  ∧ nextCycle (step ClickUpdate Runs.pausedPending)
    = nextCycle Runs.pausedPending
  ∧ inflight (step ClickUpdate Runs.pausedPending) = []
  ∧ dp_pos (p_display (infoDisplayProps
              (run [ClickUpdate; Elapse 50;
                    Settle 2 (Fulfilled (Some Sample.g1) None)]
                   Runs.pausedPending))) = Sample.P3
  ∧ rendered (run [ClickUpdate; Elapse 50;
                   Settle 2 (Fulfilled (Some Sample.g1) None)]
                  Runs.pausedPending)
    = rendered (step ClickUpdate Runs.pausedPending).
Proof. conjuncts; vm_compute; reflexivity. Qed.

(** A refresh of the view paused on the goals of [P1]. *)
Lemma C4_paused_refresh_witness :
  isPaused (display Runs.pausedAtP1) = true
  ∧ rendered (step ClickUpdate Runs.pausedAtP1) = rendered Runs.pausedAtP1
  ∧ rendered (run [ClickUpdate; Elapse 50;
                   Settle 1 (Fulfilled (Some Sample.g2) None)]
                  Runs.pausedAtP1)
    = mkProps (mkDisplay Cursor Sample.P1 (Some Sample.g2) None None) Ready []
  ∧ isPaused (display (run [ClickUpdate; Elapse 50;
                            Settle 1 (Fulfilled (Some Sample.g2) None)]
                           Runs.pausedAtP1)) = true.
Proof.
  destruct (C4_paused_refresh Runs.pausedAtP1) as (_ & _ & Hrun & _).
  - apply reachable_run, reachable_mount.
  - vm_compute; reflexivity.
  - destruct (Hrun 50 (Fulfilled (Some Sample.g2) None))
      as (H1 & _ & _ & _ & _ & H3 & Hp).
    + vm_compute; reflexivity.
    + vm_compute. lia.
    + reflexivity.
    + split; [vm_compute; reflexivity|].
      split; [exact H1|]. split; [exact H3|exact Hp].
Defined.

(** C5, as stated, fails.  The first cycle of the cursor view fails with a
    server error while the view holds a widget: the view, which is not
    paused, shows the error and the widget. *)
Lemma C5_counterexample :
  findCycle 0 Runs.fetching = Some Runs.cycle0
  ∧ isStaleDocument Sample.boom = false
  ∧ isEmptyError Sample.boom = false
  ∧ isPaused (display Runs.fetching) = false
  ∧ hasError (InfoDisplay
                (rendered (step (Settle 0 (Rejected Sample.boom)) Runs.fetching))
                Runs.someWidgets) = true
  ∧ hasWidget (InfoDisplay
                 (rendered (step (Settle 0 (Rejected Sample.boom)) Runs.fetching))
                 Runs.someWidgets) = true
  ∧ onlyErrorShown
      (InfoDisplay
         (rendered (step (Settle 0 (Rejected Sample.boom)) Runs.fetching))
         Runs.someWidgets) = false.
Proof. conjuncts; vm_compute; reflexivity. Qed.

(** The first cycle of the cursor view fails with a server error, in a view
    without widgets and in a view with one; and the same failure behind a
    pause. *)
Lemma C5_error_commit_witness :
  status (cells (step (Settle 0 (Rejected Sample.boom)) Runs.fetching)) = Error
  ∧ error (cells (step (Settle 0 (Rejected Sample.boom)) Runs.fetching))
    = option_map errorMessage (errS Sample.boom)
  ∧ onlyErrorShown
      (InfoDisplay
         (rendered (step (Settle 0 (Rejected Sample.boom)) Runs.fetching))
         None) = true
  ∧ hasGoals
      (InfoDisplay
         (rendered (step (Settle 0 (Rejected Sample.boom)) Runs.fetching))
         Runs.someWidgets) = false
  ∧ rendered (step (Settle 1 (Rejected Sample.boom)) Runs.pausedFetching)
    = rendered Runs.pausedFetching.
Proof.
  destruct (errS Sample.boom) as [msg|] eqn:Hmsg; [|discriminate Hmsg].
  destruct (C5_error_commit 0 Runs.cycle0 Sample.boom msg Runs.fetching)
    as (Hs & He & _ & Hv & _).
  - apply reachable_run, reachable_mount.
  - vm_compute; reflexivity.
  - reflexivity.
  - exact Hmsg.
  - intros ->. discriminate Hmsg.
  - destruct Hv as [_ Hv]; [left; vm_compute; reflexivity|].
    destruct (Hv None) as (_ & _ & _ & _ & Hw0 & Ho).
    destruct (Hv Runs.someWidgets) as (_ & Hg & _).
    split; [exact Hs|]. split; [exact He|].
    split; [rewrite Ho, Hw0; reflexivity|]. split; [exact Hg|].
    destruct (C5_error_commit 1 Runs.heldCycle Sample.boom msg
                Runs.pausedFetching) as (_ & _ & _ & _ & Hp).
    + apply reachable_run, reachable_run, reachable_mount.
    + vm_compute; reflexivity.
    + reflexivity.
    + exact Hmsg.
    + intros ->. discriminate Hmsg.
    + apply Hp; vm_compute; reflexivity.
Defined.

(** The first cycle of the cursor view fails with the empty object; and
    the retry after a failure that is shown fails with it, which clears the
    message. *)
Lemma C6_empty_error_clears_witness :
  error (cells (step (Settle 0 (Rejected Sample.emptyObject)) Runs.fetching))
  = None
  ∧ status (cells (step (Settle 0 (Rejected Sample.emptyObject)) Runs.fetching))
    = Updating
  ∧ truthy (error (cells More.retrying)) = true
  ∧ error (cells (step (Settle 1 (Rejected Sample.emptyObject)) More.retrying))
    = None.
Proof.
  destruct (C6_empty_error_clears 0 Runs.cycle0 Sample.emptyObject Runs.fetching)
    as (_ & He & _ & Hs & _).
  - vm_compute; reflexivity.
  - reflexivity.
  - reflexivity.
  - split; [exact He|]. split; [rewrite Hs; vm_compute; reflexivity|].
    split; [vm_compute; reflexivity|].
    destruct (C6_empty_error_clears 1 Runs.cycle1 Sample.emptyObject
                More.retrying) as (_ & He' & _).
    + vm_compute; reflexivity.
    + reflexivity.
    + reflexivity.
    + exact He'.
Defined.

(** The first cycle is fulfilled; the widget request fails with code -32601. *)
Lemma C7_widgets_method_not_found_witness :
  widgetsOf (useAsync (Some (widgetRequest Runs.isMethodNotFound
                               (Rejects Runs.methodNotFound)))) = None
  ∧ p_status (infoDisplayProps
                (step (Settle 0 (Fulfilled (Some Sample.g1) (Some Sample.t1)))
                      Runs.fetching)) = Ready.
Proof.
  destruct (C7_widgets_method_not_found Runs.isMethodNotFound 0 Runs.cycle0
              (Some Sample.g1) (Some Sample.t1) Runs.methodNotFound
              Runs.fetching)
    as (Hw & _ & _ & _ & Hs & _).
  - vm_compute; reflexivity.
  - reflexivity.
  - split; [exact Hw|exact Hs].
Defined.

(** C8, as stated, fails.  The first cycle of a view mounted on a busy
    server was built with the slow delay.  The server has been idle since,
    and no cycle is pending, when that cycle fails with code -32801: the
    retry sets a timeout due 500 later, and the next cycle starts after 500,
    not after 50, although the position is reported idle. *)
Lemma C8_counterexample :
  findCycle 0 Runs.idleAgain = Some Runs.slowCycle
  ∧ serverIsProcessing Runs.idleAgain = false
  ∧ waiting (throttle Runs.idleAgain) = false
  ∧ clock Runs.idleAgain = 550
  ∧ serverIsProcessing
      (step (Settle 0 (Rejected Sample.contentModified)) Runs.idleAgain)
    = false
  ∧ timers (throttle (step (Settle 0 (Rejected Sample.contentModified))
                           Runs.idleAgain))
    = [mkTimer 1050 Detached]
  ∧ ¬ setByReport Runs.idleAgain
        (step (Settle 0 (Rejected Sample.contentModified)) Runs.idleAgain)
  ∧ nextCycle (run [Settle 0 (Rejected Sample.contentModified); Elapse 499]
                   Runs.idleAgain)
    = nextCycle Runs.idleAgain
  ∧ nextCycle (run [Settle 0 (Rejected Sample.contentModified); Elapse 500]
                   Runs.idleAgain)
    = S (nextCycle Runs.idleAgain).
Proof.
  assert (Ht : timers (throttle (step (Settle 0 (Rejected Sample.contentModified))
                                      Runs.idleAgain))
               = [mkTimer 1050 Detached])
    by (vm_compute; reflexivity).
  conjuncts; try (vm_compute; reflexivity).
  intros Hset. specialize (Hset (mkTimer 1050 Detached)).
  rewrite Ht in Hset.
  assert (Hd : deadline (mkTimer 1050 Detached)
               = clock (step (Settle 0 (Rejected Sample.contentModified))
                             Runs.idleAgain)
                 + (if serverIsProcessing
                         (step (Settle 0 (Rejected Sample.contentModified))
                               Runs.idleAgain)
                    then 500 else 50)).
  { apply Hset; [left; reflexivity|]. vm_compute. tauto. }
  vm_compute in Hd. discriminate Hd.
Qed.

(** The same view: a click on "update", and the retry of the first
    cycle. *)
Lemma C8_delay_witness :
  timers (throttle (step ClickUpdate Runs.idleAgain))
  = [mkTimer 600 DisplayRefresh]
  ∧ timers (throttle (step (Settle 0 (Rejected Sample.contentModified))
                           Runs.idleAgain))
    = [mkTimer 1050 Detached]
  ∧ timers (throttle (step (ProgressChanged (allProgress Runs.busyEnv))
                           Runs.idleAgain))
    = [mkTimer 1050 Detached].
Proof.
  destruct (C8_delay Runs.idleAgain) as (_ & _ & Hc & _ & Hp & Hr).
  - apply reachable_run, reachable_mount.
  - vm_compute; reflexivity.
  - split; [rewrite Hc; vm_compute; reflexivity|]. split.
    + destruct (Hr 0 Runs.slowCycle Sample.contentModified) as [Ht _].
      * vm_compute; reflexivity.
      * reflexivity.
      * rewrite Ht. vm_compute; reflexivity.
    + rewrite Hp; [vm_compute; reflexivity|]. vm_compute. discriminate.
Defined.

(** The cursor view before its first cycle has ended. *)
Lemma C10_copy_needs_goals_witness :
  copyGoalToComment (rendered Runs.fetching) = None
  ∧ editorCalls (RequestedAction CopyToComment) Runs.fetching = [].
Proof.
  destruct (C10_copy_needs_goals Runs.fetching None) as (Hc & _ & He & _).
  - vm_compute; reflexivity.
  - split; [exact Hc|exact He].
Defined.

(** With goals on the view, the requested action copies their text. *)
Example copy_goals_of_P1 :
  editorCalls (RequestedAction CopyToComment) Runs.pausedAtP1 = ["|- p"%string].
Proof. vm_compute; reflexivity. Qed.


(** ** Further runs *)

(** Two calls fifty milliseconds apart, each with a delay of fifty. *)
Lemma X1_spacing_witness :
  calls [More.firstCall; More.secondCall] (mkThrottled false (None : option nat) [])
  = (mkThrottled true (Some 2) [mkTimer 100 20], [None; None], [(1, 10)])
  ∧ expire 100 (mkThrottled true (Some 2) [mkTimer 100 20])
    = (mkThrottled false (Some 2) [], [(2, 20)]).
Proof.
  destruct (X1_spacing None More.firstCall More.secondCall) as [Hc He].
  - vm_compute. lia.
  - split; [exact Hc|]. apply (He 100). vm_compute. lia.
Defined.

(** While the first cycle is in flight, new messages and a repeated position
    report schedule nothing. *)
Lemma X4_no_fetch_without_change_witness :
  schedulesNothing (MessagesChanged []) Runs.fetching
  ∧ schedulesNothing (PositionChanged Sample.P1) Runs.fetching.
Proof.
  destruct (X4_no_fetch_without_change Runs.fetching) as (Hm & Hp & _).
  - apply reachable_run, reachable_mount.
  - split; [apply Hm|exact Hp].
Defined.

(** Progress of another file is reported while the first cycle is in
    flight. *)
Lemma X5_progress_of_other_documents_witness :
  schedulesNothing
    (ProgressChanged
       (<["file:///B.lean" := [mkProcessing (mkRange (0, 0) (10, 0))]]>
          (allProgress (env Runs.fetching))))
    Runs.fetching.
Proof.
  destruct (X5_progress_of_other_documents Runs.fetching "file:///B.lean"
              [mkProcessing (mkRange (0, 0) (10, 0))]) as (Hs & _).
  - apply reachable_run, reachable_mount.
  - vm_compute. discriminate.
  - exact Hs.
Defined.

(** The cursor moves to [P2], which has one message, while the first cycle
    is in flight. *)
Lemma X6_position_change_witness :
  cells (run [PositionChanged Sample.P2;
              MessagesChanged [mkDiagnostic "unused variable"]]
             Runs.fetching)
  = cells Runs.fetching
  ∧ p_messages
      (infoDisplayProps
         (run [PositionChanged Sample.P2;
               MessagesChanged [mkDiagnostic "unused variable"]]
              Runs.fetching))
    = [mkDiagnostic "unused variable"]
  ∧ timers (throttle (run [PositionChanged Sample.P2;
                           MessagesChanged [mkDiagnostic "unused variable"]]
                          Runs.fetching))
    = [mkTimer 100 Detached].
Proof.
  destruct (X6_position_change Runs.fetching Sample.P2
              [mkDiagnostic "unused variable"])
    as (Hc & _ & _ & Hm & _ & _ & _ & Ht & _).
  - apply reachable_run, reachable_mount.
  - vm_compute. discriminate.
  - split; [exact Hc|]. split; [exact Hm|].
    rewrite Ht. vm_compute; reflexivity.
Defined.

(** The retry after a failure is fulfilled with nothing to show. *)
Lemma X9_leftover_error_blanks_view_witness :
  error (cells (step (Settle 1 (Fulfilled (Some Sample.g2) None))
                     More.retrying))
  = error (cells More.retrying)
  ∧ p_status (rendered (step (Settle 1 (Fulfilled None None)) More.retrying))
    = Ready
  ∧ nothingToShow
      (InfoDisplay
         (rendered (step (Settle 1 (Fulfilled None None)) More.retrying))
         None)
    = false.
Proof.
  destruct (X9_leftover_error_blanks_view 1 Runs.cycle1 More.retrying)
    as (He & Hv).
  - apply reachable_run, reachable_mount.
  - vm_compute; reflexivity.
  - destruct (He (Some Sample.g2) None) as (He1 & _).
    destruct Hv as (Hst & _ & _ & _ & _ & _ & Hn).
    + vm_compute; reflexivity.
    + vm_compute; reflexivity.
    + left. vm_compute; reflexivity.
    + split; [exact He1|]. split; [exact Hst|exact Hn].
Defined.

(** The first cycle fails with code -32801 and fifty milliseconds pass. *)
Lemma X10_stale_retry_refetches_witness :
  nextCycle (run [Settle 0 (Rejected Sample.contentModified); Elapse 50]
                 Runs.fetching)
  = 2
  ∧ status (cells (run [Settle 0 (Rejected Sample.contentModified); Elapse 50]
                       Runs.fetching))
    = Updating.
Proof.
  destruct (X10_stale_retry_refetches 0 Runs.cycle0 Sample.contentModified 50
              Runs.fetching) as (_ & Hn & Hst & _).
  - apply reachable_run, reachable_mount.
  - vm_compute; reflexivity.
  - reflexivity.
  - vm_compute; reflexivity.
  - vm_compute. lia.
  - split; [rewrite Hn; vm_compute; reflexivity|exact Hst].
Defined.

(** A pinned view whose first cycle has been fulfilled. *)
Lemma X11_pinned_ignores_editor_actions_witness :
  editorCalls (RequestedAction CopyToComment)
    (run [Elapse 50; Settle 0 (Fulfilled (Some Sample.g1) None)]
         (mount More.pinned))
  = [].
Proof.
  destruct (X11_pinned_ignores_editor_actions More.pinned
              [Elapse 50; Settle 0 (Fulfilled (Some Sample.g1) None)]
              CopyToComment) as [_ He].
  - reflexivity.
  - exact He.
Defined.

(** The cursor is reported where it is, with a selection behind it. *)
Lemma X12_cursor_location_witness :
  changedCursorLocation None Runs.fetching = Runs.fetching
  ∧ changedCursorLocation (Some More.selection) Runs.fetching = Runs.fetching.
Proof.
  destruct (X12_cursor_location Runs.fetching) as (Hn & Hs & _).
  - apply reachable_run, reachable_mount.
  - split; [exact Hn|]. apply Hs. vm_compute; reflexivity.
Defined.

(** The view is paused while the first cycle is in flight. *)
Lemma X15_pause_keeps_schedule_witness :
  schedulesNothing (ClickPause true) Runs.fetching
  ∧ clock (step (ClickPause true) Runs.fetching) = clock Runs.fetching.
Proof.
  destruct (X15_pause_keeps_schedule Runs.fetching true) as (Hs & Hc & _).
  - apply reachable_run, reachable_mount.
  - split; [exact Hs|exact Hc].
Defined.

(** A hover in the middle of the first line. *)
Lemma X17_hover_contents_witness :
  Hover.range (Hover.mkHover (Hover.mkMarked "lean" "nat.succ : nat → nat")
                             (Hover.mkVsRange 0 14 0 14))
  = Hover.mkVsRange 0 14 0 14.
Proof.
  destruct (X17_hover_contents More.lineStart More.server More.document
              (Hover.mkPosition 0 14)
              (Hover.mkHover (Hover.mkMarked "lean" "nat.succ : nat → nat")
                             (Hover.mkVsRange 0 14 0 14)))
    as (_ & _ & Hr & _).
  - vm_compute; reflexivity.
  - exact Hr.
Defined.

(** The prop goes from 0 to 1, then to 2 and 3 within the delay. *)
Lemma X20_throttle_edges_witness :
  Legacy.throttleRun 200
    [Legacy.SetProp 1; Legacy.SetProp 2; Legacy.PassTime 100; Legacy.SetProp 3]
    (Legacy.mkThrottle 0 0 false [] 0)
  = Legacy.mkThrottle 3 1 true [200] 100
  ∧ Legacy.passTime 200 150
      (Legacy.throttleRun 200
         [Legacy.SetProp 1; Legacy.SetProp 2; Legacy.PassTime 100;
          Legacy.SetProp 3]
         (Legacy.mkThrottle 0 0 false [] 0))
    = Legacy.mkThrottle 3 3 true [450] 250.
Proof.
  destruct (X20_throttle_edges 200 150 0 0 1 0
              [Legacy.SetProp 2; Legacy.PassTime 100; Legacy.SetProp 3])
    as [H1 H2].
  - discriminate.
  - discriminate.
  - vm_compute. lia.
  - vm_compute. lia.
  - split; [exact H1|exact H2].
Defined.

(** A forced update of a paused view; the record has a widget without
    html. *)
Lemma X22_update_fulfilled_witness :
  Legacy.widget
    (Legacy.update true true (Some More.location)
       (Legacy.mkAnswers (Resolves (Some More.bareRecord))
                         (Resolves (Some More.fullWidget)))
       More.shown).1
  = Some More.fullWidget
  ∧ length
      (Legacy.update true true (Some More.location)
         (Legacy.mkAnswers (Resolves (Some More.bareRecord))
                           (Resolves (Some More.fullWidget)))
         More.shown).2
    = 2.
Proof.
  destruct (X22_update_fulfilled true true More.location
              (Some More.bareRecord) (Some More.fullWidget) More.shown)
    as (_ & _ & _ & _ & Hw & _ & Hl).
  - reflexivity.
  - split; [exact Hw|exact Hl].
Defined.

(** The info arrives and [get_widget] fails. *)
Lemma X23_update_rejected_witness :
  Legacy.updateError
    (Legacy.update false false (Some More.location)
       (Legacy.mkAnswers (Resolves (Some More.bareRecord))
                         (Rejects Sample.boom))
       More.shown).1
  = Some Sample.boom
  ∧ Legacy.goalState
      (Legacy.update false false (Some More.location)
         (Legacy.mkAnswers (Resolves (Some More.bareRecord))
                           (Rejects Sample.boom))
         More.shown).1
    = Some "new goal"%string
  ∧ Legacy.widget
      (Legacy.update false false (Some More.location)
         (Legacy.mkAnswers (Resolves (Some More.bareRecord))
                           (Rejects Sample.boom))
         More.shown).1
    = Legacy.widget More.shown.
Proof.
  destruct (X23_update_rejected false false More.location Sample.boom
              More.shown) as [_ Hw].
  - reflexivity.
  - destruct (Hw (Some "new goal"%string) More.bareWidget)
      as (_ & He & Hg & Hwd).
    + reflexivity.
    + split; [exact He|]. split; [exact Hg|exact Hwd].
Defined.
